(** * sistema-convenio: job orchestration and label-based financial extraction

    A shallow embedding of the Python back end (PDF batching, page relevance
    filter, job manager, label-anchored value extractor, safe aggregation)
    and the properties its specification states about it.

    Part I holds the embedding, one module per source file; Part II the
    lemmas and theorems. *)

From Stdlib Require Import ZArith NArith List String Ascii Floats Uint63 Lia Bool.
From stdpp Require Import base option list gmap strings.
Import ListNotations.

#[local] Open Scope Z_scope.

(* ===================================================================== *)
(** * Part I: the embedding *)
(* ===================================================================== *)

(** ** Python built-ins used by the code *)

Module Py.

(** Number of elements of [range(start, stop, step)], as CPython computes
    it ([step] is not zero here). *)
Definition range_length (start stop step : Z) : Z :=
  if 0 <? step
  then (if start <? stop then (stop - start - 1) / step + 1 else 0)
  else (if stop <? start then (start - stop - 1) / (- step) + 1 else 0).

(** [range(start, stop, step)] as the list it enumerates; [None] stands for
    the [ValueError] of a zero step. *)
Definition range (start stop step : Z) : option (list Z) :=
  if step =? 0 then None
  else Some (map (fun i : nat => start + Z.of_nat i * step)
                 (seq 0 (Z.to_nat (range_length start stop step)))).

(** *** Text

    A Python [str] on which the code works character by character (OCR
    text, labels, keywords) is the list of its Unicode code points.
    Identifiers, dictionary keys and messages, which the code only
    compares and concatenates, are kept as [string] (UTF-8 bytes). *)
Abbreviation text := (list N).

(** Code points of a UTF-8 literal. *)
Fixpoint utf8_decode (bytes : list N) : text :=
  match bytes with
  | [] => []
  | b0 :: r1 =>
      if (b0 <? 128)%N then b0 :: utf8_decode r1
      else
        match r1 with
        | [] => []
        | b1 :: r2 =>
            if (b0 <? 224)%N
            then ((b0 - 192) * 64 + (b1 - 128))%N :: utf8_decode r2
            else
              match r2 with
              | [] => []
              | b2 :: r3 =>
                  if (b0 <? 240)%N
                  then ((b0 - 224) * 4096 + (b1 - 128) * 64 + (b2 - 128))%N
                         :: utf8_decode r3
                  else
                    match r3 with
                    | [] => []
                    | b3 :: r4 =>
                        ((b0 - 240) * 262144 + (b1 - 128) * 4096
                         + (b2 - 128) * 64 + (b3 - 128))%N
                          :: utf8_decode r4
                    end
              end
        end
  end.

Definition u (s : string) : text :=
  utf8_decode (map N_of_ascii (list_ascii_of_string s)).

(** The Unicode character database beyond Latin-1 is a parameter of the
    model; below U+0100 the tables are written out. *)
Class UnicodeTables := {
  ext_isspace : N -> bool;      (* Py_UNICODE_ISSPACE *)
  ext_isalnum : N -> bool;      (* Py_UNICODE_ISALNUM *)
  ext_tolower : N -> N;         (* Py_UNICODE_TOLOWER, simple mapping *)
  ext_toupper : N -> N;         (* Py_UNICODE_TOUPPER, simple mapping *)
  ext_upper : N -> list N;      (* full upper-casing, as str.upper() *)
  ext_decimal : N -> option N   (* Py_UNICODE_TODECIMAL *)
}.

(** Tables that know nothing beyond Latin-1 (no space, no letter, no case
    there); enough to run the model on Latin-1 text. *)
Definition latin1_tables : UnicodeTables :=
  {| ext_isspace := fun _ => false;
     ext_isalnum := fun _ => false;
     ext_tolower := fun c => c;
     ext_toupper := fun c => c;
     ext_upper := fun c => [c];
     ext_decimal := fun _ => None |}.

Definition between (lo hi c : N) : bool := ((lo <=? c) && (c <=? hi))%N.

Section Unicode.
Context `{UnicodeTables}.

Definition isspace (c : N) : bool :=
  if (c <? 256)%N
  then between 9 13 c || between 28 32 c || (c =? 133)%N || (c =? 160)%N
  else ext_isspace c.

Definition isalnum (c : N) : bool :=
  if (c <? 256)%N
  then between 48 57 c || between 65 90 c || between 97 122 c
       || (c =? 170)%N || between 178 179 c || (c =? 181)%N
       || between 185 186 c || between 188 190 c
       || between 192 214 c || between 216 246 c || between 248 255 c
  else ext_isalnum c.

Definition tolower (c : N) : N :=
  if (c <? 256)%N
  then if between 65 90 c || between 192 214 c || between 216 222 c
       then (c + 32)%N else c
  else ext_tolower c.

(** For [ß] CPython's table gives the first letter of its expansion. *)
Definition toupper (c : N) : N :=
  if (c <? 256)%N
  then if between 97 122 c || between 224 246 c || between 248 254 c
       then (c - 32)%N
       else if (c =? 255)%N then 376%N
       else if (c =? 181)%N then 924%N
       else if (c =? 223)%N then 83%N
       else c
  else ext_toupper c.

(** [str.upper()]: full case mapping, one code point to several
    ([ß] becomes [SS]). *)
Definition upper_char (c : N) : list N :=
  if (c <? 256)%N
  then if (c =? 223)%N then [83; 83]%N else [toupper c]
  else ext_upper c.

Definition upper (t : text) : text := concat (map upper_char t).

(** Value of a decimal digit ([\d] of a [str] pattern, [int()]). *)
Definition decimal_digit (c : N) : option N :=
  if (c <? 256)%N
  then if between 48 57 c then Some (c - 48)%N else None
  else ext_decimal c.

(** [str.strip()] with no argument. *)
Fixpoint lstrip (t : text) : text :=
  match t with
  | c :: r => if isspace c then lstrip r else t
  | [] => []
  end.

Definition rstrip (t : text) : text := rev (lstrip (rev t)).

Definition strip (t : text) : text := rstrip (lstrip t).

End Unicode.

(** [t.split(sep)] for a one-character separator: never an empty list. *)
Fixpoint split (sep : N) (t : text) : list text :=
  match t with
  | [] => [[]]
  | c :: r =>
      if (c =? sep)%N then [] :: split sep r
      else match split sep r with
           | line :: lines => (c :: line) :: lines
           | [] => [[c]]
           end
  end.

Fixpoint startswith (t prefix : text) : bool :=
  match prefix, t with
  | [], _ => true
  | p :: prefix', c :: t' => (c =? p)%N && startswith t' prefix'
  | _ :: _, [] => false
  end.

(** [needle in t]: substring test. *)
Fixpoint contains (t needle : text) : bool :=
  startswith t needle
  || match t with
     | [] => false
     | _ :: t' => contains t' needle
     end.

(** [str(n)] for an integer. *)
Definition digit_char (d : N) : ascii := ascii_of_N (48 + d).

Fixpoint digits_of (fuel : nat) (n : N) (acc : string) : string :=
  match fuel with
  | O => acc
  | S fuel' =>
      let acc' := String (digit_char (n mod 10)) acc in
      if (n <? 10)%N then acc' else digits_of fuel' (n / 10) acc'
  end.

Definition str_of_N (n : N) : string := digits_of (S (N.to_nat (N.log2 n))) n "".

Definition str_of_Z (z : Z) : string :=
  if z <? 0 then String "-" (str_of_N (Z.to_N (- z))) else str_of_N (Z.to_N z).

(** Values stored in the loosely typed dictionaries of the code. *)
Inductive value :=
| VNone
| VBool (b : bool)
| VInt (z : Z)
| VFloat (f : float)
| VStr (s : string)
| VList (l : list string).

(** Exceptions the modelled code raises. *)
Inductive exn :=
| ValueError (msg : string)
| RuntimeError (msg : string)
| HTTPException (status_code : Z) (detail : string)
| Exception (msg : string).

(** [str(e)] for an exception built from one message. *)
Definition exn_message (e : exn) : string :=
  match e with
  | ValueError m | RuntimeError m | Exception m => m
  | HTTPException _ d => d
  end.

End Py.

(** ** The pattern of the label extractor, as [re] runs it *)

Module Re.
Import Py.

Section WithUnicode.
Context `{UnicodeTables}.

(** [\w]: alphanumeric or underscore. *)
Definition is_word (c : N) : bool := isalnum c || (c =? 95)%N.

Definition is_word_opt (c : option N) : bool :=
  match c with Some c => is_word c | None => false end.

(** [\b] between the character before the position ([None] at the start
    of the string) and the one after it ([None] at the end). *)
Definition at_boundary (before after : option N) : bool :=
  xorb (is_word_opt before) (is_word_opt after).

(** The entries of [sre_compile._equivalences] that mention a letter of
    the vocabulary: dotless i with [i], long s with [s]. *)
Definition sre_fixes (lo : N) : list N :=
  if (lo =? 105)%N then [305%N]
  else if (lo =? 115)%N then [383%N]
  else [].

Definition iscased (c : N) : bool :=
  negb (c =? tolower c)%N || negb (c =? toupper c)%N.

(** A literal [p] of a pattern compiled with IGNORECASE, against the text
    character [c]. *)
Definition literal_ignorecase (p c : N) : bool :=
  if iscased p
  then let lo := tolower p in
       let lc := tolower c in
       (lc =? lo)%N || existsb (N.eqb lc) (sre_fixes lo)
  else (c =? p)%N.

(** The escaped label: one literal per character. Returns the text
    matched and what follows it. *)
Fixpoint match_literals (pattern t : text) : option (text * text) :=
  match pattern with
  | [] => Some ([], t)
  | p :: pattern' =>
      match t with
      | c :: t' =>
          if literal_ignorecase p c
          then match match_literals pattern' t' with
               | Some (m, rest) => Some (c :: m, rest)
               | None => None
               end
          else None
      | [] => None
      end
  end.

(** A greedy run: the longest prefix of characters satisfying [p]. *)
Fixpoint span (p : N -> bool) (t : text) : text * text :=
  match t with
  | c :: t' =>
      if p c then let '(m, rest) := span p t' in (c :: m, rest)
      else ([], t)
  | [] => ([], [])
  end.

End WithUnicode.

(** [[0-9]]: the ten ASCII digits. *)
Definition is_digit (c : N) : bool := between 48 57 c.

(** [[\:\-]?] *)
Definition match_punct (t : text) : text * text :=
  match t with
  | c :: t' => if (c =? 58)%N || (c =? 45)%N then ([c], t') else ([], t)
  | [] => ([], [])
  end.

(** After a first digit: [[0-9]*(?:\.[0-9]+)*], greedy. A period is taken
    only when a digit follows it. *)
Fixpoint match_int_tail (t : text) : text * text :=
  match t with
  | c :: t' =>
      if is_digit c
      then let '(m, rest) := match_int_tail t' in (c :: m, rest)
      else if (c =? 46)%N
           then match t' with
                | d :: _ =>
                    if is_digit d
                    then let '(m, rest) := match_int_tail t' in (c :: m, rest)
                    else ([], t)
                | [] => ([], t)
                end
           else ([], t)
  | [] => ([], [])
  end.

(** [(?:,[0-9]+)?] *)
Definition match_fraction (t : text) : text * text :=
  match t with
  | c :: t' =>
      if (c =? 44)%N
      then match span is_digit t' with
           | ([], _) => ([], t)
           | (ds, rest) => (c :: ds, rest)
           end
      else ([], t)
  | [] => ([], [])
  end.

(** The capture group [([0-9]+(?:\.[0-9]+)*(?:,[0-9]+)?)]. *)
Definition match_number (t : text) : option (text * text) :=
  match t with
  | d :: t' =>
      if is_digit d
      then let '(int_tail, r1) := match_int_tail t' in
           let '(frac, r2) := match_fraction r1 in
           Some (d :: int_tail ++ frac, r2)
      else None
  | [] => None
  end.

(** A match object, as far as the code reads it: [start()], the text of
    the whole match cut at the places the pattern has them, and
    [group(1)]. *)
Record match_object := {
  start : nat;
  matched_label : text;
  matched_separator : text;
  group1 : text
}.

Definition match_length (m : match_object) : nat :=
  (length (matched_label m) + length (matched_separator m)
   + length (group1 m))%nat.

Section Scan.
Context `{UnicodeTables}.

(** The whole pattern
    [\b<label>\b\s*[\:\-]?\s*([0-9]+(?:\.[0-9]+)*(?:,[0-9]+)?)]
    tried at one position: [before] is the character in front of it, [t]
    the text from it on. No step of it has an alternative that could
    succeed where the greedy choice fails (spaces, the two punctuation
    marks and digits are disjoint classes), so there is nothing to
    backtrack to. *)
Definition match_at (label : text) (pos : nat) (before : option N) (t : text)
  : option match_object :=
  if at_boundary before (head t)
  then match match_literals label t with
       | Some (lab, r1) =>
           if at_boundary (match last lab with Some c => Some c | None => before end)
                          (head r1)
           then let '(ws1, r2) := span isspace r1 in
                let '(punct, r3) := match_punct r2 in
                let '(ws2, r4) := span isspace r3 in
                match match_number r4 with
                | Some (number, _) =>
                    Some {| start := pos; matched_label := lab;
                            matched_separator := ws1 ++ punct ++ ws2;
                            group1 := number |}
                | None => None
                end
           else None
       | None => None
       end
  else None.

(** [pattern.finditer(line)]: the matches from left to right, each search
    resuming where the previous match ended. [skip] counts the characters
    still covered by the last match. *)
Fixpoint finditer_from (label : text) (pos skip : nat) (before : option N)
    (t : text) : list match_object :=
  match t with
  | [] => []
  | c :: t' =>
      match skip with
      | S skip' => finditer_from label (S pos) skip' (Some c) t'
      | O =>
          match match_at label pos before t with
          | Some m =>
              m :: finditer_from label (S pos) (pred (match_length m))
                                 (Some c) t'
          | None => finditer_from label (S pos) 0 (Some c) t'
          end
      end
  end.

Definition finditer (label line : text) : list match_object :=
  finditer_from label 0 0 None line.

End Scan.

End Re.

(** ** Python floats (binary64) *)

Module PyFloat.

(** The nearest binary64 to [num / den] (both positive), ties to even,
    with sign [s]: what [float()] gives for an exact decimal. *)
Definition scaled_le (den l num : Z) : bool :=
  if 0 <=? l then den * 2 ^ l <=? num else den <=? num * 2 ^ (- l).

Definition round_half_even (n d : Z) : Z :=
  let q := n / d in
  let r := n mod d in
  if (d <? 2 * r) || ((2 * r =? d) && Z.odd q) then q + 1 else q.

Definition of_ratio (s : bool) (num den : Z) : float :=
  let l0 := Z.log2 num - Z.log2 den in
  let l := if scaled_le den l0 num then l0 else l0 - 1 in
  let k := Z.max (l - 52) (-1074) in
  let q := if 0 <=? k then round_half_even num (den * 2 ^ k)
           else round_half_even (num * 2 ^ (- k)) den in
  match q with
  | Zpos m => SF2Prim (S754_finite s m k)
  | _ => SF2Prim (S754_zero s)
  end.

(** [x or 0] for a slot holding a float or [None]. *)
Definition or_zero (x : option float) : float :=
  match x with
  | Some v => if PrimFloat.eqb v 0 then 0%float else v
  | None => 0%float
  end.

(** [abs(x) > bound] for an integer bound that is a binary64 value. *)
Definition abs_gt (x : float) (bound : Z) : bool :=
  PrimFloat.ltb (SF2Prim (match bound with
                          | Zpos m => S754_finite false m 0
                          | Zneg m => S754_finite true m 0
                          | Z0 => S754_zero false
                          end))
                (PrimFloat.abs x).

(** Digits of [n] in groups of three, separated by commas. *)
Fixpoint group_thousands (fuel : nat) (n : N) : string :=
  match fuel with
  | O => Py.str_of_N n
  | S fuel' =>
      if (n <? 1000)%N then Py.str_of_N n
      else
        let low := (n mod 1000)%N in
        (group_thousands fuel' (n / 1000) +:+ ","
         +:+ (if (low <? 10)%N then "00" else if (low <? 100)%N then "0" else "")
         +:+ Py.str_of_N low)%string
  end.

(** [f"{x:,.2f}"]: two decimals, correctly rounded from the exact binary
    value, thousands separated by commas. *)
Definition format_money (x : float) : string :=
  match Prim2SF x with
  | S754_nan => "nan"
  | S754_infinity s => if s then "-inf" else "inf"
  | S754_zero s => if s then "-0.00" else "0.00"
  | S754_finite s m e =>
      let cents :=
        Z.to_N (if 0 <=? e then Zpos m * 2 ^ e * 100
                else round_half_even (Zpos m * 100) (2 ^ (- e))) in
      let frac := (cents mod 100)%N in
      ((if s then "-" else "")
       +:+ group_thousands (N.to_nat (N.log2 cents)) (cents / 100) +:+ "."
       +:+ (if (frac <? 10)%N then "0" else "") +:+ Py.str_of_N frac)%string
  end.

(** The built-in [sum] over floats is not the same function in every
    Python: a left-to-right chain of additions up to 3.11, a compensated
    summation from 3.12. It is a parameter here. *)
Class FloatSum := float_sum : list float -> float.

(** The chain of additions, starting from the integer 0. *)
Definition chained_sum : FloatSum :=
  fun xs => fold_left PrimFloat.add xs 0%float.

End PyFloat.

(** ** [decimal.Decimal], as far as the extractor uses it *)

Module Decimal.
Import Py.

(** A finite [decimal.Decimal]: [(-1)^sign * coefficient * 10^exponent]. *)
Record t := {
  sign : bool;
  coefficient : N;
  exponent : Z
}.

Section Parse.
Context `{UnicodeTables}.

(** The longest run of decimal digits, as their values. *)
Fixpoint span_digits (s : text) : list N * text :=
  match s with
  | c :: s' =>
      match decimal_digit c with
      | Some d => let '(ds, rest) := span_digits s' in (d :: ds, rest)
      | None => ([], s)
      end
  | [] => ([], [])
  end.

Definition digits_value (ds : list N) : N :=
  fold_left (fun acc d => (10 * acc + d)%N) ds 0%N.

Definition split_sign (s : text) : bool * text :=
  match s with
  | c :: s' =>
      if (c =? 45)%N then (true, s')
      else if (c =? 43)%N then (false, s')
      else (false, s)
  | [] => (false, [])
  end.

(** [Decimal(s)] for a string, on the finite numbers: optional sign,
    digits with an optional fractional part, optional exponent;
    underscores are dropped and surrounding white space is stripped.
    [None] stands for [InvalidOperation] and also for the infinities and
    NaNs, which [parse_brazilian_number] turns into [None] all the same
    (an infinity is out of bounds, comparing a NaN raises
    [InvalidOperation]). Exponents are not bounded here. *)
Definition of_text (s : text) : option t :=
  let s := List.filter (fun c => negb (c =? 95)%N) (strip s) in
  let '(sg, s1) := split_sign s in
  let '(int_part, s2) := span_digits s1 in
  let '(frac_part, s3) :=
    match s2 with
    | c :: s2' => if (c =? 46)%N then span_digits s2' else ([], s2)
    | [] => ([], [])
    end in
  match int_part ++ frac_part with
  | [] => None
  | digits =>
      let finite e :=
        Some {| sign := sg; coefficient := digits_value digits;
                exponent := e - Z.of_nat (length frac_part) |} in
      match s3 with
      | [] => finite 0
      | c :: s4 =>
          if Re.literal_ignorecase 69 c
          then let '(esg, s5) := split_sign s4 in
               match span_digits s5 with
               | (d :: ds, []) =>
                   let e := Z.of_N (digits_value (d :: ds)) in
                   finite (if esg then - e else e)
               | _ => None
               end
          else None
      end
  end.

End Parse.

Definition signed_coefficient (d : t) : Z :=
  if sign d then - Z.of_N (coefficient d) else Z.of_N (coefficient d).

(** [d > n] and [d < n] for an integer [n], exactly. *)
Definition gt_int (d : t) (n : Z) : bool :=
  if 0 <=? exponent d
  then n <? signed_coefficient d * 10 ^ exponent d
  else n * 10 ^ (- exponent d) <? signed_coefficient d.

Definition lt_int (d : t) (n : Z) : bool :=
  if 0 <=? exponent d
  then signed_coefficient d * 10 ^ exponent d <? n
  else signed_coefficient d <? n * 10 ^ (- exponent d).

(** [float(d)]: the nearest binary64. *)
Definition to_float (d : t) : float :=
  if (coefficient d =? 0)%N then SF2Prim (S754_zero (sign d))
  else PyFloat.of_ratio (sign d)
         (Z.of_N (coefficient d) * 10 ^ Z.max 0 (exponent d))
         (10 ^ Z.max 0 (- exponent d)).

End Decimal.

(** ** services/pdf_service.py *)

Module PDFService.

(** [PDFService.calculate_batches]: one [(start, end)] pair per element of
    [range(1, total_pages + 1, batch_size)]. *)
Definition calculate_batches (total_pages batch_size : Z)
  : option (list (Z * Z)) :=
  starts ← Py.range 1 (total_pages + 1) batch_size;
  Some (map (fun start => (start, Z.min (start + batch_size - 1) total_pages))
            starts).

(** The pages a batch [(start, end)] asks the rasterizer for
    ([first_page = start], [last_page = end], both inclusive). *)
Definition pages_of (batch : Z * Z) : list Z :=
  seqZ batch.1 (batch.2 - batch.1 + 1).

(** [ceil(n / b)] for a positive [b]. *)
Definition ceil_div (n b : Z) : Z := - ((- n) / b).

(** The batch the loop appends at its [i]-th iteration (from 0). *)
Definition batch_at (total_pages batch_size : Z) (i : nat) : Z * Z :=
  (1 + Z.of_nat i * batch_size,
   Z.min (1 + Z.of_nat i * batch_size + batch_size - 1) total_pages).

End PDFService.

(** ** services/page_filter.py *)

Module PageFilter.
Import Py.

(** One entry of the OCR result list: the dictionary
    [{"page", "text", "has_content"}], with ["error"] on a failed page. *)
Record ocr_result := {
  page : Z;
  text_of : text;
  has_content : bool;
  error : option string
}.

(** [self.keywords], in the order of the source (with its repeated entry). *)
Definition keywords : list text :=
  map u [ "CONVÊNIO"; "CONVENIO"; "BANCO"; "DADOS BANCÁRIOS";
          "DADOS BANCARIOS"; "AGÊNCIA"; "AGENCIA"; "CONTA";
          "CONTA CORRENTE"; "CONTA POUPANÇA"; "POUPANCA"; "CPF"; "CNPJ";
          "INSTITUIÇÃO FINANCEIRA"; "INSTITUICAO FINANCEIRA";
          "BANCO DO BRASIL"; "BRADESCO"; "ITAU"; "ITAU"; "SANTANDER";
          "CAIXA"; "CAIXA ECONOMICA"; "NUBANK"; "INTER" ]%string.

Definition high_priority_keywords : list text :=
  map u [ "CONVÊNIO"; "CONVENIO"; "DADOS BANCÁRIOS"; "DADOS BANCARIOS" ]%string.

Section WithUnicode.
Context `{UnicodeTables}.

Definition is_relevant_page (t : text) : bool :=
  if (length (strip t) =? 0)%nat then false
  else
    let text_upper := upper t in
    let keyword_count :=
      length (List.filter (fun keyword => contains text_upper keyword)
                          keywords) in
    let has_high_priority :=
      existsb (fun kw => contains text_upper kw) high_priority_keywords in
    (2 <=? keyword_count)%nat || has_high_priority.

Definition filter_pages (ocr_results : list ocr_result) : list ocr_result :=
  flat_map
    (fun page_data =>
       if negb (has_content page_data) then []
       else if is_relevant_page (text_of page_data)
            then [ {| page := page page_data; text_of := text_of page_data;
                      has_content := true; error := None |} ]
            else [])
    ocr_results.

(** The rule in the words of the specification, for comparison: at least
    two distinct keywords of the set occur in the text, or one of the
    high-priority keywords does. *)
Definition distinct_keywords_found (t : text) : list text :=
  remove_dups (List.filter (fun keyword => contains (upper t) keyword)
                           keywords).

Definition relevant_by_spec (t : text) : bool :=
  (2 <=? length (distinct_keywords_found t))%nat
  || existsb (fun kw => contains (upper t) kw) high_priority_keywords.

End WithUnicode.

End PageFilter.

(** ** jobs/models.py *)

Module Models.

Inductive JobStatus := PENDING | PROCESSING | DONE | ERROR | CANCELLED.

#[global] Instance JobStatus_eq_dec : EqDecision JobStatus.
Proof. solve_decision. Defined.

(** How an f-string prints a member (Python 3.11 and later; earlier
    versions print the member's value, e.g. [processing]). *)
Definition status_str (s : JobStatus) : string :=
  match s with
  | PENDING => "JobStatus.PENDING"
  | PROCESSING => "JobStatus.PROCESSING"
  | DONE => "JobStatus.DONE"
  | ERROR => "JobStatus.ERROR"
  | CANCELLED => "JobStatus.CANCELLED"
  end.

(** [datetime] values are readings of the clock, in any fixed unit. *)
Abbreviation datetime := Z.

Record JobMetadata := {
  job_id : string;
  filename : string;
  file_path : string;
  status : JobStatus;
  created_at : datetime;
  started_at : option datetime;
  completed_at : option datetime;
  total_pages : option Z;
  processed_pages : Z;
  error_message : option string
}.

Record JobResult := {
  result_job_id : string;
  result_status : JobStatus;
  result_total_pages : Z;
  relevant_pages : Z;
  records_found : Z;
  items : list (gmap string Py.value);
  processing_time_seconds : option float;
  result_error_message : option string
}.

Record JobProgress := {
  progress_job_id : string;
  progress_status : JobStatus;
  progress_percent : float;
  progress_total_pages : option Z;
  progress_processed_pages : Z;
  message : string
}.

End Models.

(** ** jobs/job_manager.py *)

Module JobManager.
Import Models.

(** The manager's two dictionaries. Every method runs under [self._lock],
    so each one is a single atomic step on this state; [now] is the value
    [datetime.now()] returns inside the call. *)
Record t := {
  _jobs : gmap string JobMetadata;
  _results : gmap string JobResult
}.

Definition empty : t := {| _jobs := ∅; _results := ∅ |}.

Definition create_job (self : t) (now : datetime)
    (job_id filename file_path : string) : Py.exn + (t * JobMetadata) :=
  match _jobs self !! job_id with
  | Some _ => inl (Py.ValueError ("Job " +:+ job_id +:+ " já existe"))
  | None =>
      let metadata :=
        {| job_id := job_id; filename := filename; file_path := file_path;
           status := PENDING; created_at := now;
           started_at := None; completed_at := None;
           total_pages := None; processed_pages := 0;
           error_message := None |} in
      inr ({| _jobs := <[job_id := metadata]> (_jobs self);
              _results := _results self |}, metadata)
  end.

Definition start_job (self : t) (now : datetime)
    (job_id : string) (total_pages : Z) : Py.exn + t :=
  match _jobs self !! job_id with
  | None => inl (Py.ValueError ("Job " +:+ job_id +:+ " não encontrado"))
  | Some j =>
      inr {| _jobs :=
               <[job_id :=
                   {| job_id := Models.job_id j; filename := filename j;
                      file_path := file_path j;
                      status := PROCESSING;
                      created_at := created_at j;
                      started_at := Some now;
                      completed_at := completed_at j;
                      total_pages := Some total_pages;
                      processed_pages := processed_pages j;
                      error_message := error_message j |}]> (_jobs self);
             _results := _results self |}
  end.

Definition update_progress (self : t) (job_id : string)
    (processed_pages : Z) : t :=
  match _jobs self !! job_id with
  | None => self
  | Some j =>
      {| _jobs :=
           <[job_id :=
               {| job_id := Models.job_id j; filename := filename j;
                  file_path := file_path j;
                  status := status j;
                  created_at := created_at j;
                  started_at := started_at j;
                  completed_at := completed_at j;
                  total_pages := total_pages j;
                  processed_pages := processed_pages;
                  error_message := error_message j |}]> (_jobs self);
         _results := _results self |}
  end.

Definition complete_job (self : t) (now : datetime)
    (job_id : string) (result : JobResult) : Py.exn + t :=
  match _jobs self !! job_id with
  | None => inl (Py.ValueError ("Job " +:+ job_id +:+ " não encontrado"))
  | Some j =>
      inr {| _jobs :=
               <[job_id :=
                   {| job_id := Models.job_id j; filename := filename j;
                      file_path := file_path j;
                      status := DONE;
                      created_at := created_at j;
                      started_at := started_at j;
                      completed_at := Some now;
                      total_pages := total_pages j;
                      processed_pages := processed_pages j;
                      error_message := error_message j |}]> (_jobs self);
             _results := <[job_id := result]> (_results self) |}
  end.

Definition fail_job (self : t) (now : datetime)
    (job_id : string) (error_message : string) : t :=
  match _jobs self !! job_id with
  | None => self
  | Some j =>
      {| _jobs :=
           <[job_id :=
               {| job_id := Models.job_id j; filename := filename j;
                  file_path := file_path j;
                  status := ERROR;
                  created_at := created_at j;
                  started_at := started_at j;
                  completed_at := Some now;
                  total_pages := total_pages j;
                  processed_pages := processed_pages j;
                  error_message := Some error_message |}]> (_jobs self);
         _results := _results self |}
  end.

Definition cancel_job (self : t) (now : datetime) (job_id : string) : t :=
  match _jobs self !! job_id with
  | None => self
  | Some j =>
      {| _jobs :=
           <[job_id :=
               {| job_id := Models.job_id j; filename := filename j;
                  file_path := file_path j;
                  status := CANCELLED;
                  created_at := created_at j;
                  started_at := started_at j;
                  completed_at := Some now;
                  total_pages := total_pages j;
                  processed_pages := processed_pages j;
                  error_message := error_message j |}]> (_jobs self);
         _results := _results self |}
  end.

Definition get_job (self : t) (job_id : string) : option JobMetadata :=
  _jobs self !! job_id.

Definition get_result (self : t) (job_id : string) : option JobResult :=
  _results self !! job_id.

(** The mutating calls a client of the manager can make, and the state
    after one of them; a call that raises leaves the dictionaries as they
    were. *)
Inductive call :=
| CreateJob (now : datetime) (job_id filename file_path : string)
| StartJob (now : datetime) (job_id : string) (total_pages : Z)
| UpdateProgress (job_id : string) (processed_pages : Z)
| CompleteJob (now : datetime) (job_id : string) (result : JobResult)
| FailJob (now : datetime) (job_id : string) (error_message : string)
| CancelJob (now : datetime) (job_id : string).

Definition run (self : t) (c : call) : t :=
  match c with
  | CreateJob now id fn fp =>
      match create_job self now id fn fp with
      | inr (self', _) => self'
      | inl _ => self
      end
  | StartJob now id n =>
      match start_job self now id n with inr self' => self' | inl _ => self end
  | UpdateProgress id n => update_progress self id n
  | CompleteJob now id r =>
      match complete_job self now id r with
      | inr self' => self'
      | inl _ => self
      end
  | FailJob now id msg => fail_job self now id msg
  | CancelJob now id => cancel_job self now id
  end.

Definition terminal (s : JobStatus) : bool :=
  match s with
  | DONE | ERROR | CANCELLED => true
  | PENDING | PROCESSING => false
  end.

(** The id a call is aimed at, and the status it writes when that id is in
    the table. *)
Definition call_target (c : call) : string :=
  match c with
  | CreateJob _ id _ _ | StartJob _ id _ | UpdateProgress id _
  | CompleteJob _ id _ | FailJob _ id _ | CancelJob _ id => id
  end.

Definition status_written (c : call) : option JobStatus :=
  match c with
  | StartJob _ _ _ => Some PROCESSING
  | CompleteJob _ _ _ => Some DONE
  | FailJob _ _ _ => Some ERROR
  | CancelJob _ _ => Some CANCELLED
  | CreateJob _ _ _ _ | UpdateProgress _ _ => None
  end.

(** The attributes no manager call ever rewrites. *)
Definition same_identity (j j' : JobMetadata) : Prop :=
  job_id j' = job_id j /\ filename j' = filename j
  /\ file_path j' = file_path j /\ created_at j' = created_at j.

(** [processed_pages <= total_pages] for every job whose total is known. *)
Definition progress_bounded (self : t) : Prop :=
  forall id j n,
    _jobs self !! id = Some j -> total_pages j = Some n ->
    processed_pages j <= n.

(** A call that keeps the caller's side of the progress contract: progress
    is reported within the known total, and a total is recorded that is not
    below the progress already reported. *)
Definition respects_total (self : t) (c : call) : Prop :=
  match c with
  | UpdateProgress id p =>
      forall j n, _jobs self !! id = Some j -> total_pages j = Some n -> p <= n
  | StartJob _ id n =>
      forall j, _jobs self !! id = Some j -> processed_pages j <= n
  | _ => True
  end.

(** States the manager reaches from the empty table through calls that all
    satisfy [ok]. *)
Inductive reachable (ok : t -> call -> Prop) : t -> Prop :=
| reachable_empty : reachable ok empty
| reachable_run self c :
    reachable ok self -> ok self c -> reachable ok (run self c).

End JobManager.

(** ** workers/ocr_worker.py *)

Module OcrWorker.
Import Py Models PageFilter.

Section Collaborators.
Context `{UnicodeTables}.

(** The collaborators of the worker: rasterizer, OCR engine and bank-data
    extractor. Each call may raise. *)
Variable Image : Type.
Variable get_page_count : string -> exn + Z.
Variable extract_page_batch : string -> Z -> Z -> exn + list Image.
Variable ocr_image : Image -> exn + text.
Variable extract_multiple_records : list text -> exn + list (gmap string value).

(** The inner loop over the images of one batch. *)
Fixpoint ocr_batch (page_num : Z) (images : list Image) : list ocr_result :=
  match images with
  | [] => []
  | image :: rest =>
      (match ocr_image image with
       | inr t =>
           {| page := page_num; text_of := t;
              has_content := (0 <? length (strip t))%nat; error := None |}
       | inl e =>
           {| page := page_num; text_of := []; has_content := false;
              error := Some (exn_message e) |}
       end) :: ocr_batch (page_num + 1) rest
  end.

(** [process_ocr_job] as [main_refactored] calls it, with no progress
    callback; [elapsed] is the measured processing time. An exception of
    the page count or of the data extractor reaches the outer [except],
    which returns an ERROR result with no pages. *)
Definition process_ocr_job (job_id pdf_path : string) (elapsed : float)
  : JobResult :=
  let failed total relevant msg :=
    {| result_job_id := job_id; result_status := ERROR;
       result_total_pages := total; relevant_pages := relevant;
       records_found := 0; items := [];
       processing_time_seconds := None;
       result_error_message := Some msg |} in
  match get_page_count pdf_path with
  | inl e => failed 0 0 (exn_message e)
  | inr total_pages =>
      match PDFService.calculate_batches total_pages 10 with
      | None => failed 0 0 "range() arg 3 must not be zero"%string
      | Some batches =>
          let all_ocr_results :=
            flat_map
              (fun '(start_page, end_page) =>
                 match extract_page_batch pdf_path start_page end_page with
                 | inr images => ocr_batch start_page images
                 | inl _ => []
                 end)
              batches in
          let relevant := filter_pages all_ocr_results in
          match relevant with
          | [] =>
              failed total_pages 0
                "Nenhuma página relevante encontrada no documento"%string
          | _ =>
              let texts := map text_of relevant in
              match extract_multiple_records texts with
              | inl e => failed 0 0 (exn_message e)
              | inr extracted_data =>
                  match extracted_data with
                  | [] =>
                      failed total_pages (Z.of_nat (length relevant))
                        "Nenhum dado bancário encontrado"%string
                  | _ =>
                      {| result_job_id := job_id; result_status := DONE;
                         result_total_pages := total_pages;
                         relevant_pages := Z.of_nat (length relevant);
                         records_found := Z.of_nat (length extracted_data);
                         items := extracted_data;
                         processing_time_seconds := Some elapsed;
                         result_error_message := None |}
                  end
              end
          end
      end
  end.

End Collaborators.

End OcrWorker.

(** ** main_refactored.py *)

Module MainRefactored.
Import Py Models.

(** The state the endpoints and the background task act on: the global
    [job_manager] and the files present under [storage/uploads]. *)
Record app := {
  job_manager : JobManager.t;
  uploads : gset string
}.

(** POST /process/{job_id}. The endpoint reads the state and changes
    nothing; on success it hands [run_ocr_in_background(job_id, file_path)]
    to the background tasks, and the pair returned here is that call. *)
Definition process_pdf (st : app) (job_id : string)
  : exn + (string * string) :=
  match JobManager.get_job (job_manager st) job_id with
  | None => inl (HTTPException 404 "Job não encontrado")
  | Some job =>
      if bool_decide (status job <> PENDING)
      then inl (HTTPException 400 ("Job já está em estado: "
                                   +:+ status_str (status job)))
      else if bool_decide (file_path job ∈ uploads st)
           then inr (job_id, file_path job)
           else inl (HTTPException 404 "Arquivo PDF não encontrado no servidor")
  end.

(** DELETE /job/{job_id} *)
Definition cancel_job (st : app) (now : datetime) (job_id : string)
  : exn + (app * string) :=
  match JobManager.get_job (job_manager st) job_id with
  | None => inl (HTTPException 404 "Job não encontrado")
  | Some job =>
      if bool_decide (status job = DONE \/ status job = ERROR)
      then inl (HTTPException 400 "Job já finalizado")
      else inr ({| job_manager :=
                     JobManager.cancel_job (job_manager st) now job_id;
                   uploads := uploads st |},
                "Job cancelado"%string)
  end.

(** What the executor hands back to [run_ocr_in_background]: the worker's
    [JobResult], or an exception raised while awaiting it. *)
Inductive worker_outcome :=
| Returned (result : JobResult)
| Raised (e : exn).

(** [run_ocr_in_background(job_id, pdf_path)]. *)
Definition run_ocr_in_background (st : app) (now : datetime)
    (job_id pdf_path : string) (outcome : worker_outcome) : app :=
  let fail msg :=
    {| job_manager := JobManager.fail_job (job_manager st) now job_id msg;
       uploads := uploads st |} in
  match outcome with
  | Returned result =>
      if bool_decide (result_status result = DONE)
      then match JobManager.complete_job (job_manager st) now job_id result with
           | inr jm => {| job_manager := jm; uploads := uploads st |}
           | inl e => fail (exn_message e)
           end
      else fail (match result_error_message result with
                 | Some msg => if String.eqb msg "" then "Erro desconhecido"
                               else msg
                 | None => "Erro desconhecido"
                 end)%string
  | Raised e => fail (exn_message e)
  end.

End MainRefactored.

(** ** main.py (the earlier, cache-based API) *)

Module Main.
Import Py.

(** [processing_cache] (entries are dictionaries; expiry is not modelled)
    and the files present under the upload directory. *)
Record app := {
  processing_cache : gmap string (gmap string value);
  uploads : gset string
}.

Inductive worker_outcome :=
| Returned (result : gmap string value)
| Raised (e : exn).

Definition update_entry (cache : gmap string (gmap string value))
    (job_id : string) (f : gmap string value -> gmap string value)
  : gmap string (gmap string value) :=
  match cache !! job_id with
  | Some entry => <[job_id := f entry]> cache
  | None => cache
  end.

(** [process_in_background(job_id, pdf_path)]; [t0] and [t1] are the ISO
    timestamps read before and after the worker runs. The [finally] block
    unlinks the uploaded file. *)
Definition process_in_background (st : app) (t0 t1 : string)
    (job_id pdf_path : string) (outcome : worker_outcome) : app :=
  let cache0 :=
    update_entry (processing_cache st) job_id
      (fun e => <["started_at"%string := VStr t0]>
                  (<["status"%string := VStr "processing"]> e)) in
  let cache1 :=
    match outcome with
    | Returned result =>
        update_entry cache0 job_id
          (fun e => <["completed_at"%string := VStr t1]> (result ∪ e))
    | Raised e =>
        update_entry cache0 job_id
          (fun entry => <["error"%string := VStr (exn_message e)]>
                          (<["status"%string := VStr "error"]> entry))
    end in
  {| processing_cache := cache1;
     uploads := uploads st ∖ {[ pdf_path ]} |}.

End Main.

(** ** services/financial_label_extractor.py *)

Module FinancialLabelExtractor.
Import Py.

(** [ROTULOS_VALIDOS], in the order of the source. *)
Definition ROTULOS_VALIDOS : list (text * string) :=
  [ (u "SALDO ANTERIOR", "saldo_anterior");
    (u "SALDO ATUAL", "saldo_atual");
    (u "SALDO", "saldo");
    (u "ENTRADA", "entrada");
    (u "SAIDA", "saida");
    (u "SAÍDA", "saida");
    (u "APLICACAO", "aplicacao");
    (u "APLICAÇÃO", "aplicacao");
    (u "APLICACOES", "aplicacao");
    (u "APLICAÇÕES", "aplicacao");
    (u "RESGATE", "resgate");
    (u "RESGATES", "resgate");
    (u "RENDIMENTO", "rendimento");
    (u "RENDIMENTOS", "rendimento");
    (u "RENDIMENTO BRUTO", "rendimento_bruto");
    (u "RENDIMENTO LIQUIDO", "rendimento_liquido");
    (u "RENDIMENTO LÍQUIDO", "rendimento_liquido");
    (u "IMPOSTO DE RENDA", "ir");
    (u "IR", "ir");
    (u "IOF", "iof");
    (u "TARIFA", "tarifa");
    (u "TARIFA PAGA", "tarifa_paga");
    (u "TARIFA DEVOLVIDA", "tarifa_devolvida");
    (u "VALOR DA COTA", "valor_cota");
    (u "RENTABILIDADE", "rentabilidade") ]%string.

Definition VALOR_MAX_RAZOAVEL : Z := 1000000000.
Definition VALOR_MIN_RAZOAVEL : Z := -1000000000.

Inductive status := OK | SUSPEITO.

#[global] Instance status_eq_dec : EqDecision status.
Proof. solve_decision. Defined.

(** One extracted value: the dictionary [extract_from_line] appends.
    [motivo] is present on SUSPEITO values only, [posicao_match] on OK
    ones only. *)
Record labeled_value := {
  rotulo : text;
  campo : string;
  valor_texto : text;
  valor_decimal : option float;
  pagina : Z;
  linha_original : text;
  status_validacao : status;
  motivo : option text;
  posicao_match : option nat
}.

Section WithUnicode.
Context `{UnicodeTables}.

Definition parse_brazilian_number (texto : text) : option Decimal.t :=
  let texto := strip texto in
  let texto_normalizado :=
    map (fun c => if (c =? 44)%N then 46%N else c)
        (List.filter (fun c => negb (c =? 46)%N) texto) in
  match Decimal.of_text texto_normalizado with
  | None => None
  | Some valor =>
      if Decimal.gt_int valor VALOR_MAX_RAZOAVEL then None
      else if Decimal.lt_int valor VALOR_MIN_RAZOAVEL then None
      else Some valor
  end.

(** The dictionary built for one match of the pattern of [rotulo]. *)
Definition value_of_match (rotulo : text) (campo : string) (linha : text)
    (page_num : Z) (m : Re.match_object) : labeled_value :=
  let texto_valor := Re.group1 m in
  match parse_brazilian_number texto_valor with
  | Some valor_decimal =>
      {| rotulo := rotulo; campo := campo; valor_texto := texto_valor;
         valor_decimal := Some (Decimal.to_float valor_decimal);
         pagina := page_num; linha_original := strip linha;
         status_validacao := OK; motivo := None;
         posicao_match := Some (Re.start m) |}
  | None =>
      {| rotulo := rotulo; campo := campo; valor_texto := texto_valor;
         valor_decimal := None;
         pagina := page_num; linha_original := strip linha;
         status_validacao := SUSPEITO;
         motivo := Some (u "Valor fora dos limites razoáveis: "
                         ++ texto_valor);
         posicao_match := None |}
  end.

Definition extract_from_line (linha : text) (page_num : Z)
  : list labeled_value :=
  flat_map
    (fun '(rotulo, campo) =>
       map (value_of_match rotulo campo linha page_num)
           (Re.finditer rotulo linha))
    ROTULOS_VALIDOS.

(** [valores_por_campo[campo].append(valor)] on an insertion-ordered
    dictionary of lists. *)
Fixpoint append_to_field (valores_por_campo : list (string * list labeled_value))
    (valor : labeled_value) : list (string * list labeled_value) :=
  match valores_por_campo with
  | [] => [(campo valor, [valor])]
  | (c, vs) :: rest =>
      if String.eqb c (campo valor) then (c, vs ++ [valor]) :: rest
      else (c, vs) :: append_to_field rest valor
  end.

Definition extract_from_text (texto : text) (page_num : Z)
  : list (string * list labeled_value) :=
  let linhas := split 10 texto in
  let todos_valores :=
    flat_map (fun linha =>
                match strip linha with
                | [] => []
                | _ => extract_from_line linha page_num
                end)
             linhas in
  fold_left append_to_field todos_valores [].

End WithUnicode.

(** The two list comprehensions of [calculate_totals_safe]. *)
Definition valores_suspeitos (valores : list labeled_value)
  : list labeled_value :=
  List.filter (fun v => bool_decide (status_validacao v = SUSPEITO)) valores.

Definition valores_ok (valores : list labeled_value) : list float :=
  omap (fun v => if bool_decide (status_validacao v = OK)
                 then valor_decimal v else None) valores.

Section Totals.
Context `{PyFloat.FloatSum}.

(** One turn of the loop of [calculate_totals_safe], on the dictionary
    [totais] and the list [campos_com_erro]. *)
Definition totals_step (acc : gmap string value * list string)
    (field : string * list labeled_value) : gmap string value * list string :=
  let '(totais, campos_com_erro) := acc in
  let '(campo, valores) := field in
  match valores_suspeitos valores with
  | _ :: _ =>
      (<["total_" +:+ campo +:+ "_count" := VInt 0]>
         (<["total_" +:+ campo +:+ "_erro" :=
              VStr (str_of_Z (Z.of_nat (length (valores_suspeitos valores)))
                    +:+ " valores suspeitos detectados")]>
            (<["total_" +:+ campo := VNone]> totais)),
       campos_com_erro ++ [campo])
  | [] =>
      match valores_ok valores with
      | _ :: _ =>
          let total := PyFloat.float_sum (valores_ok valores) in
          if PyFloat.abs_gt total VALOR_MAX_RAZOAVEL
          then
            (<["total_" +:+ campo +:+ "_erro" :=
                 VStr ("Total absurdo: " +:+ PyFloat.format_money total)]>
               (<["total_" +:+ campo := VNone]> totais),
             campos_com_erro ++ [campo])
          else
            (<["total_" +:+ campo +:+ "_count" :=
                 VInt (Z.of_nat (length (valores_ok valores)))]>
               (<["total_" +:+ campo := VFloat total]> totais),
             campos_com_erro)
      | [] =>
          (<["total_" +:+ campo +:+ "_count" := VInt 0]>
             (<["total_" +:+ campo := VFloat 0]> totais),
           campos_com_erro)
      end
  end.

Definition calculate_totals_safe
    (valores_por_campo : list (string * list labeled_value))
  : gmap string value :=
  let '(totais, campos_com_erro) :=
    fold_left totals_step valores_por_campo (∅, []) in
  <["campos_com_erro" := VList campos_com_erro]>
    (<["tem_valores_suspeitos" :=
         VBool (0 <? length campos_com_erro)%nat]> totais).

(** Whether the loop blocks the total of a field with these values. *)
Definition blocks (valores : list labeled_value) : bool :=
  match valores_suspeitos valores, valores_ok valores with
  | _ :: _, _ => true
  | [], _ :: _ =>
      PyFloat.abs_gt (PyFloat.float_sum (valores_ok valores)) VALOR_MAX_RAZOAVEL
  | [], [] => false
  end.

End Totals.

(** The fields the vocabulary maps to. *)
Definition canonical_field (campo : string) : Prop :=
  In campo (map snd ROTULOS_VALIDOS).

(** No field name is another field name followed by [_erro] or [_count]:
    the keys [total_<campo>], [total_<campo>_erro] and
    [total_<campo>_count] of different fields are then all different. *)
Definition independent_fields (campos : list string) : Prop :=
  forall c1 c2, In c1 campos -> In c2 campos ->
    c1 <> c2 +:+ "_erro" /\ c1 <> c2 +:+ "_count".

End FinancialLabelExtractor.

(** ** services/safe_convenio_extractor.py *)

Module SafeConvenioExtractor.
Import Py FinancialLabelExtractor.

(** A movement: the dictionary [_create_movimentacao_from_label] builds
    (the constant entries [data], [tipo_documento], [linha_origem],
    [metodo_extracao], [confianca] are left out). *)
Record movimentacao := {
  id : string;
  descricao_item : text;
  entrada : option float;
  saida : option float;
  saldo : option float;
  aplicacao : option float;
  resgate : option float;
  rendimentos : option float;
  tarifa_paga : option float;
  tarifa_devolvida : option float;
  saldo_tarifa : float;
  origem_documento : string;
  documento_id : string;
  texto_original : text;
  valor_validado : bool
}.

(** The eight value slots of a movement, in the order [entrada], [saida],
    [saldo], [aplicacao], [resgate], [rendimentos], [tarifa_paga],
    [tarifa_devolvida]. *)
Definition slots : Type :=
  option float * option float * option float * option float
  * option float * option float * option float * option float.

(** The [if]/[elif] chain that maps the value to its slots, starting from
    the initial dictionary ([0.0] for the first three, [None] for the
    others). *)
Definition slots_of (campo : string) (valor : option float) : slots :=
  let zero := Some 0%float in
  if String.eqb campo "entrada"
  then (valor, zero, zero, None, None, None, None, None)
  else if String.eqb campo "saida"
  then (zero, valor, zero, None, None, None, None, None)
  else if existsb (String.eqb campo) ["saldo"; "saldo_atual"; "saldo_anterior"]%string
  then (zero, zero, valor, None, None, None, None, None)
  else if String.eqb campo "aplicacao"
  then (valor, zero, zero, valor, None, None, None, None)
  else if String.eqb campo "resgate"
  then (zero, valor, zero, None, valor, None, None, None)
  else if existsb (String.eqb campo)
                  ["rendimento"; "rendimento_bruto"; "rendimento_liquido"]%string
  then (valor, zero, zero, None, None, valor, None, None)
  else if String.eqb campo "tarifa_paga"
  then (zero, valor, zero, None, None, None, valor, None)
  else if String.eqb campo "tarifa_devolvida"
  then (valor, zero, zero, None, None, None, None, valor)
  else (zero, zero, zero, None, None, None, None, None).

(** [uuid] is the value [uuid.uuid4()] returns in the call. *)
Definition _create_movimentacao_from_label (uuid : string)
    (valor_info : labeled_value) (documento_id : string) (page_num : Z)
  : movimentacao :=
  let campo := campo valor_info in
  let valor := valor_decimal valor_info in
  let '(entrada, saida, saldo, aplicacao, resgate, rendimentos,
        tarifa_paga, tarifa_devolvida) := slots_of campo valor in
  {| id := uuid;
     descricao_item := rotulo valor_info;
     entrada := entrada;
     saida := saida;
     saldo := saldo;
     aplicacao := aplicacao;
     resgate := resgate;
     rendimentos := rendimentos;
     tarifa_paga := tarifa_paga;
     tarifa_devolvida := tarifa_devolvida;
     saldo_tarifa := 0%float;
     origem_documento := "pagina_" +:+ str_of_Z page_num +:+ ".pdf";
     documento_id := documento_id;
     texto_original := linha_original valor_info;
     valor_validado := true |}.

(** The five running sums of [_calculate_safe_totals]. *)
Record sums := {
  total_entrada : float;
  total_saida : float;
  total_aplicacao : float;
  total_resgate : float;
  total_rendimentos : float
}.

Definition add_movimentacao (acc : sums) (mov : movimentacao) : sums :=
  if valor_validado mov
  then {| total_entrada := total_entrada acc + PyFloat.or_zero (entrada mov);
          total_saida := total_saida acc + PyFloat.or_zero (saida mov);
          total_aplicacao :=
            total_aplicacao acc + PyFloat.or_zero (aplicacao mov);
          total_resgate := total_resgate acc + PyFloat.or_zero (resgate mov);
          total_rendimentos :=
            total_rendimentos acc + PyFloat.or_zero (rendimentos mov) |}%float
  else acc.

Definition accumulate (movimentacoes : list movimentacao) : sums :=
  fold_left add_movimentacao movimentacoes
    {| total_entrada := 0; total_saida := 0; total_aplicacao := 0;
       total_resgate := 0; total_rendimentos := 0 |}%float.

Definition MAX_RAZOAVEL : Z := 1000000000.

(** [isinstance(valor, (int, float)) and abs(valor) > MAX_RAZOAVEL] *)
Definition absurd (valor : value) : bool :=
  match valor with
  | VFloat x => PyFloat.abs_gt x MAX_RAZOAVEL
  | VInt n => MAX_RAZOAVEL <? Z.abs n
  | VBool _ | VNone | VStr _ | VList _ => false
  end.

(** [_calculate_safe_totals]. The validation loop iterates over
    [totais.items()] and, for an absurd total, adds the key
    [<campo>_erro] to the dictionary it is iterating over; the next step
    of the iteration then raises [RuntimeError]. So the function returns
    only when no total is absurd. *)
Definition _calculate_safe_totals (movimentacoes : list movimentacao)
  : exn + gmap string value :=
  let s := accumulate movimentacoes in
  let totais : list (string * value) :=
    [ ("total_entrada", VFloat (total_entrada s));
      ("total_saida", VFloat (total_saida s));
      ("saldo_final", VFloat (total_entrada s - total_saida s));
      ("total_aplicacao", VFloat (total_aplicacao s));
      ("total_resgate", VFloat (total_resgate s));
      ("total_rendimentos", VFloat (total_rendimentos s));
      ("count_movimentacoes", VInt (Z.of_nat (length movimentacoes))) ]%string in
  if existsb (fun kv => absurd kv.2) totais
  then inl (RuntimeError "dictionary changed size during iteration")
  else inr (<["campos_bloqueados"%string := VList []]>
              (<["tem_valores_suspeitos"%string := VBool false]>
                 (list_to_map totais))).

Section WithUnicode.
Context `{UnicodeTables}.

(** The part of [extract_from_page] that builds the movements: one per OK
    value, field by field; [uuids i] is the id drawn for the [i]-th. *)
Definition movimentacoes_of_page (uuids : nat -> string) (texto : text)
    (page_num : Z) (documento_id : string) : list movimentacao :=
  let valores_por_campo := extract_from_text texto page_num in
  imap (fun i valor_info =>
          _create_movimentacao_from_label (uuids i) valor_info
                                          documento_id page_num)
       (List.filter (fun v => bool_decide (status_validacao v = OK))
                    (flat_map snd valores_por_campo)).

End WithUnicode.

End SafeConvenioExtractor.

(** ** What it means for a value to be anchored to a label *)

Module LabelSpec.
Import Py FinancialLabelExtractor.

(** A non-empty run of ASCII digits. *)
Definition digits1 (t : text) : Prop :=
  t <> [] /\ Forall (fun c => Re.is_digit c = true) t.

(** A numeral: digits, then any number of groups "period, digits", then
    optionally "comma, digits". *)
Inductive numeral : text -> Prop :=
| numeral_intro (int : text) (groups : list text) (frac : text) :
    digits1 int ->
    Forall digits1 groups ->
    (frac = [] \/ exists f, frac = 44%N :: f /\ digits1 f) ->
    numeral (int ++ flat_map (cons 46%N) groups ++ frac).

Section WithUnicode.
Context `{UnicodeTables}.

(** White space, then at most one of [:] and [-], then white space. *)
Definition separator (t : text) : Prop :=
  exists ws1 punct ws2,
    t = ws1 ++ punct ++ ws2
    /\ Forall (fun c => isspace c = true) ws1
    /\ Forall (fun c => isspace c = true) ws2
    /\ (punct = [] \/ punct = [58%N] \/ punct = [45%N]).

(** [lab] spells [label], letter case aside. *)
Definition spells (label lab : text) : Prop :=
  Forall2 (fun p c => Re.literal_ignorecase p c = true) label lab.

(** The value [r] read on [linha] stands right after a label of the
    vocabulary: the line is [before ++ lab ++ sep ++ number ++ after] with
    [lab] spelling a label of [ROTULOS_VALIDOS] between two word
    boundaries, [sep] a separator, and [number] a numeral that is the
    value's text; the value carries that label and its field. *)
Definition label_anchored (linha : text) (r : labeled_value) : Prop :=
  exists label field before lab sep after,
    In (label, field) ROTULOS_VALIDOS
    /\ rotulo r = label /\ campo r = field
    /\ linha = before ++ lab ++ sep ++ valor_texto r ++ after
    /\ spells label lab
    /\ Re.at_boundary (last before) (head (lab ++ sep ++ valor_texto r)) = true
    /\ Re.at_boundary (last lab) (head (sep ++ valor_texto r)) = true
    /\ separator sep
    /\ numeral (valor_texto r).

(** What one successful match at a position says about the text there. *)
Definition match_describes (label : text) (before : option N) (m : Re.match_object)
    : Prop :=
  spells label (Re.matched_label m)
  /\ Re.at_boundary before
       (head (Re.matched_label m ++ Re.matched_separator m ++ Re.group1 m)) = true
  /\ Re.at_boundary (match last (Re.matched_label m) with
                  | Some c => Some c
                  | None => before
                  end)
       (head (Re.matched_separator m ++ Re.group1 m)) = true
  /\ separator (Re.matched_separator m)
  /\ numeral (Re.group1 m).

End WithUnicode.

End LabelSpec.

(** Two fields as [extract_from_text] would hand them over: one with an OK
    and a SUSPEITO value, one with two OK values. *)
Module TotalsSample.
Import Py FinancialLabelExtractor.

Definition value (label : string) (field : string) (txt : string)
    (v : option float) : labeled_value :=
  {| rotulo := u label; campo := field; valor_texto := u txt;
     valor_decimal := v; pagina := 1; linha_original := u (label +:+ " " +:+ txt);
     status_validacao := match v with Some _ => OK | None => SUSPEITO end;
     motivo := match v with
               | Some _ => None
               | None => Some (u "Valor fora dos limites razoáveis: " ++ u txt)
               end;
     posicao_match := match v with Some _ => Some 0%nat | None => None end |}.

Definition fields : list (string * list labeled_value) :=
  [ ("saldo"%string,
     [ value "SALDO" "saldo" "100,00" (Some 100%float);
       value "SALDO" "saldo" "3.254.269.459,98" None ]);
    ("entrada"%string,
     [ value "ENTRADA" "entrada" "10,50" (Some 10.5%float);
       value "ENTRADA" "entrada" "20,25" (Some 20.25%float) ]) ].

End TotalsSample.

(** ** The totals of a field, in the words of the specification *)

Module TotalsSpec.
Import Py FinancialLabelExtractor.

(** The number of SUSPECT values of a field. *)
Fixpoint suspect_count (valores : list labeled_value) : nat :=
  match valores with
  | [] => 0
  | v :: rest =>
      match status_validacao v with
      | SUSPEITO => S (suspect_count rest)
      | OK => suspect_count rest
      end
  end.

(** The amounts of the OK values of a field, in the order of the values. *)
Fixpoint ok_amounts (valores : list labeled_value) : list float :=
  match valores with
  | [] => []
  | v :: rest =>
      match status_validacao v, valor_decimal v with
      | OK, Some x => x :: ok_amounts rest
      | OK, None | SUSPEITO, _ => ok_amounts rest
      end
  end.

End TotalsSpec.

(** ** Which fields count as money in and money out *)

Module MovementSpec.
Import Py FinancialLabelExtractor SafeConvenioExtractor.

(** Fields whose value [_create_movimentacao_from_label] also writes to
    [entrada], and those it also writes to [saida]. *)
Definition feeds_entrada (campo : string) : bool :=
  existsb (String.eqb campo)
    ["entrada"; "aplicacao"; "rendimento"; "rendimento_bruto";
     "rendimento_liquido"; "tarifa_devolvida"]%string.

Definition feeds_saida (campo : string) : bool :=
  existsb (String.eqb campo) ["saida"; "resgate"; "tarifa_paga"]%string.

(** The amount a value stands for in a sum: the number it holds, a zero of
    either sign counting as 0.0, and nothing when it holds none. *)
Definition amount (valor : option float) : float :=
  match valor with
  | Some x =>
      match Prim2SF x with
      | S754_zero _ => 0%float
      | S754_finite _ _ _ | S754_infinity _ | S754_nan => x
      end
  | None => 0%float
  end.

(** What a value adds to the entries and to the exits: its amount when
    its field is entry-like, respectively exit-like. *)
Definition entrada_of (v : labeled_value) : float :=
  if feeds_entrada (campo v) then amount (valor_decimal v) else 0%float.

Definition saida_of (v : labeled_value) : float :=
  if feeds_saida (campo v) then amount (valor_decimal v) else 0%float.

(** What it adds to the applications, the redemptions and the yields. *)
Definition aplicacao_of (v : labeled_value) : float :=
  if String.eqb (campo v) "aplicacao" then amount (valor_decimal v)
  else 0%float.

Definition resgate_of (v : labeled_value) : float :=
  if String.eqb (campo v) "resgate" then amount (valor_decimal v)
  else 0%float.

Definition rendimentos_of (v : labeled_value) : float :=
  if existsb (String.eqb (campo v))
       ["rendimento"; "rendimento_bruto"; "rendimento_liquido"]%string
  then amount (valor_decimal v) else 0%float.

(** The running sum, from 0.0 and in the order of the values, of what
    each value adds. *)
Definition running_sum (adds : labeled_value -> float)
    (valores : list labeled_value) : float :=
  fold_left (fun a v => (a + adds v)%float) valores 0%float.

(** Some aggregate of the values is beyond 1,000,000,000 in absolute
    value: the entries, the exits, their difference, the applications,
    the redemptions, the yields, or the number of values. *)
Definition beyond_bound (valores : list labeled_value) : bool :=
  let entradas := running_sum entrada_of valores in
  let saidas := running_sum saida_of valores in
  PyFloat.abs_gt entradas 1000000000
  || PyFloat.abs_gt saidas 1000000000
  || PyFloat.abs_gt (entradas - saidas) 1000000000
  || PyFloat.abs_gt (running_sum aplicacao_of valores) 1000000000
  || PyFloat.abs_gt (running_sum resgate_of valores) 1000000000
  || PyFloat.abs_gt (running_sum rendimentos_of valores) 1000000000
  || (1000000000 <? Z.of_nat (length valores)).

(** Four OK values: an application, a yield, a redemption, a plain entry. *)
Definition sample : list labeled_value :=
  [ TotalsSample.value "APLICAÇÃO" "aplicacao" "100.000,00" (Some 100000%float);
    TotalsSample.value "RENDIMENTO" "rendimento" "1.234,50" (Some 1234.5%float);
    TotalsSample.value "RESGATE" "resgate" "50.000,00" (Some 50000%float);
    TotalsSample.value "ENTRADA" "entrada" "10,00" (Some 10%float) ].

End MovementSpec.

(** ** Sample data used in examples *)

Module Samples.
Import Models JobManager.

Definition upload_path : string := "storage/uploads/job-1.pdf".

Definition created : t :=
  run empty (CreateJob 0 "job-1" "extrato.pdf" upload_path).

Definition started : t := run created (StartJob 1 "job-1" 25).

Definition done_result : JobResult :=
  {| result_job_id := "job-1"; result_status := DONE;
     result_total_pages := 25; relevant_pages := 3; records_found := 2;
     items := [∅; ∅]; processing_time_seconds := None;
     result_error_message := None |}.

Definition failed_result : JobResult :=
  {| result_job_id := "job-1"; result_status := ERROR;
     result_total_pages := 25; relevant_pages := 0; records_found := 0;
     items := []; processing_time_seconds := None;
     result_error_message :=
       Some "Nenhuma página relevante encontrada no documento"%string |}.

Definition done : t := run created (CompleteJob 5 "job-1" done_result).

(** The record of job-1 in [done]. *)
Definition done_job : JobMetadata :=
  {| job_id := "job-1"; filename := "extrato.pdf"; file_path := upload_path;
     status := DONE; created_at := 0; started_at := None;
     completed_at := Some 5; total_pages := None; processed_pages := 0;
     error_message := None |}.

Definition uploaded : MainRefactored.app :=
  {| MainRefactored.job_manager := created;
     MainRefactored.uploads := {[ upload_path ]} |}.

End Samples.

(** ** More of Python's numbers *)

Module PyNum.

(** [a / b] for integers with [b > 0]: the nearest binary64 to the
    quotient, or [OverflowError] when that is beyond the largest float. *)
Definition int_truediv (a b : Z) : Py.exn + float :=
  match a with
  | Z0 => inr 0%float
  | Zpos _ | Zneg _ =>
      let q := PyFloat.of_ratio (a <? 0) (Z.abs a) b in
      if PrimFloat.is_infinity q
      then inl (Py.Exception "integer division result too large for a float")
      else inr q
  end.

(** [round(x, 2)]: the nearest binary64 to the exact value of [x] rounded
    to two decimals, ties to even; infinities and NaN are returned as they
    are. *)
Definition round2 (x : float) : float :=
  match Prim2SF x with
  | S754_finite s m e =>
      let cents :=
        if 0 <=? e then Zpos m * 2 ^ e * 100
        else PyFloat.round_half_even (Zpos m * 100) (2 ^ (- e)) in
      match cents with
      | Zpos _ => PyFloat.of_ratio s cents 100
      | _ => SF2Prim (S754_zero s)
      end
  | _ => x
  end.

(** [x > n] for a float and an integer, compared exactly. *)
Definition float_gt_int (x : float) (n : Z) : bool :=
  match Prim2SF x with
  | S754_nan => false
  | S754_infinity s => negb s
  | S754_zero _ => n <? 0
  | S754_finite s m e =>
      let v := if s then Zneg m else Zpos m in
      if 0 <=? e then n <? v * 2 ^ e else n * 2 ^ (- e) <? v
  end.

(** [s.endswith(suffix)] *)
Definition endswith (s suffix : string) : bool :=
  let n := String.length s in
  let k := String.length suffix in
  (k <=? n)%nat && String.eqb (String.substring (n - k) k s) suffix.

End PyNum.

(** ** jobs/job_manager.py: the queries and the sweep *)

Module JobManagerQueries.
Import Py Models JobManager.

(** [str(x)] of an optional value inside an f-string. *)
Definition str_opt_Z (x : option Z) : string :=
  match x with Some n => str_of_Z n | None => "None" end.

Definition str_opt (x : option string) : string :=
  match x with Some s => s | None => "None" end.

(** [message_map.get(job.status, "")] *)
Definition status_message (job : JobMetadata) : string :=
  match status job with
  | PENDING => "Aguardando processamento"
  | PROCESSING =>
      "Processando página " +:+ str_of_Z (processed_pages job) +:+ "/"
      +:+ str_opt_Z (total_pages job)
  | DONE => "Processamento concluído"
  | ERROR => "Erro: " +:+ str_opt (error_message job)
  | CANCELLED => "Processamento cancelado"
  end.

(** [if job.total_pages and job.total_pages > 0] *)
Definition total_known_positive (job : JobMetadata) : option Z :=
  match total_pages job with
  | Some n => if 0 <? n then Some n else None
  | None => None
  end.

(** [get_progress]: [inr None] for an unknown job; the division of two
    integers can raise. *)
Definition get_progress (self : t) (job_id : string)
  : exn + option JobProgress :=
  match _jobs self !! job_id with
  | None => inr None
  | Some job =>
      let report percent :=
        inr (Some {| progress_job_id := job_id;
                     progress_status := status job;
                     progress_percent := PyNum.round2 percent;
                     progress_total_pages := total_pages job;
                     progress_processed_pages := processed_pages job;
                     message := status_message job |}) in
      match total_known_positive job with
      | None => report 0%float
      | Some total =>
          match PyNum.int_truediv (processed_pages job) total with
          | inl e => inl e
          | inr ratio => report (ratio * 100)%float
          end
      end
  end.

(** Whether the sweep removes a job: it is finished and older, in hours,
    than [max_age_hours]. Clock readings are taken in microseconds, the
    resolution of [datetime]; the difference of two [datetime] values is
    small enough for its division never to overflow. *)
Definition age_hours (now : datetime) (job : JobMetadata) : float :=
  match PyNum.int_truediv (now - created_at job) 1000000 with
  | inr seconds => (seconds / 3600)%float
  | inl _ => infinity
  end.

Definition expired (now : datetime) (max_age_hours : Z) (job : JobMetadata)
  : bool :=
  terminal (status job)
  && PyNum.float_gt_int (age_hours now job) max_age_hours.

(** Whether the sweep puts [job_id] on its [to_remove] list. *)
Definition to_remove (self : t) (now : datetime) (max_age_hours : Z)
    (job_id : string) : bool :=
  match _jobs self !! job_id with
  | Some job => expired now max_age_hours job
  | None => false
  end.

(** [cleanup_old_jobs]: the listed jobs are deleted, each with its result
    when it has one. *)
Definition cleanup_old_jobs (self : t) (now : datetime) (max_age_hours : Z)
  : t :=
  {| _jobs :=
       filter (fun kv => to_remove self now max_age_hours kv.1 = false)
              (_jobs self);
     _results :=
       filter (fun kv => to_remove self now max_age_hours kv.1 = false)
              (_results self) |}.

(** What can happen to the manager: one of its mutating calls, or a
    sweep. *)
Inductive op :=
| Call (c : call)
| Sweep (now : datetime) (max_age_hours : Z).

Definition exec (self : t) (o : op) : t :=
  match o with
  | Call c => run self c
  | Sweep now max_age_hours => cleanup_old_jobs self now max_age_hours
  end.

(** The attributes of a job that its status tells to be filled in, or
    still to be empty. *)
Definition filled_by_status (j : JobMetadata) : Prop :=
  match status j with
  | PENDING =>
      started_at j = None /\ completed_at j = None
      /\ total_pages j = None /\ error_message j = None
  | PROCESSING => is_Some (started_at j) /\ is_Some (total_pages j)
  | DONE | CANCELLED => is_Some (completed_at j)
  | ERROR => is_Some (completed_at j) /\ is_Some (error_message j)
  end.

(** The two dictionaries agree with each other and with the records they
    hold. *)
Definition consistent (self : t) : Prop :=
  forall id,
    (forall j, _jobs self !! id = Some j ->
       job_id j = id /\ filled_by_status j
       /\ (status j = DONE -> is_Some (_results self !! id)))
    /\ (is_Some (_results self !! id) -> is_Some (_jobs self !! id)).

End JobManagerQueries.

(** ** main_refactored.py: the other endpoints *)

Module Api.
Import Py Models MainRefactored.

Definition MAX_FILE_SIZE : Z := 100 * 1024 * 1024.

Record UploadResponse := {
  upload_job_id : string;
  upload_filename : string;
  upload_message : string
}.

(** POST /upload. [job_id] is the string [uuid.uuid4()] gives, [filename]
    the name the client sent (it is taken to be present), [content] the
    bytes of the uploaded file; writing the file is taken to succeed. The
    file is written before the job is created, so it is there even when
    [create_job] raises and the request ends in a 500. *)
Definition upload_pdf (st : app) (now : datetime) (job_id filename : string)
    (content : list N) : app * (exn + UploadResponse) :=
  if negb (PyNum.endswith filename ".pdf")
  then (st, inl (HTTPException 400 "Apenas arquivos PDF são aceitos"))
  else if negb (startswith (take 4 content) (u "%PDF"))
  then (st, inl (HTTPException 400 "Arquivo não é um PDF válido"))
  else if MAX_FILE_SIZE <? Z.of_nat (length content)
  then (st, inl (HTTPException 413 "Arquivo muito grande (máx 100MB)"))
  else
    let file_path := "storage/uploads/" +:+ job_id +:+ ".pdf" in
    let files := {[ file_path ]} ∪ uploads st in
    match JobManager.create_job (job_manager st) now job_id filename file_path with
    | inr (jm, _) =>
        ({| job_manager := jm; uploads := files |},
         inr {| upload_job_id := job_id; upload_filename := filename;
                upload_message :=
                  "Upload realizado com sucesso. Use POST /process/{job_id} para iniciar OCR." |})
    | inl e =>
        ({| job_manager := job_manager st; uploads := files |},
         inl (HTTPException 500 ("Erro ao processar upload: " +:+ exn_message e)))
    end.

(** GET /status/{job_id} *)
Definition get_status (st : app) (job_id : string) : exn + JobProgress :=
  match JobManagerQueries.get_progress (job_manager st) job_id with
  | inl e => inl e
  | inr None => inl (HTTPException 404 "Job não encontrado")
  | inr (Some progress) => inr progress
  end.

(** GET /result/{job_id} *)
Definition get_result (st : app) (job_id : string) : exn + JobResult :=
  match JobManager.get_job (job_manager st) job_id with
  | None => inl (HTTPException 404 "Job não encontrado")
  | Some job =>
      match status job with
      | PROCESSING => inl (HTTPException 425 "Processamento ainda em andamento")
      | PENDING =>
          inl (HTTPException 400 "Job não foi iniciado. Use POST /process/{job_id}")
      | ERROR =>
          inl (HTTPException 500 ("Processamento falhou: "
                                  +:+ JobManagerQueries.str_opt (error_message job)))
      | CANCELLED => inl (HTTPException 410 "Job foi cancelado")
      | DONE =>
          match JobManager.get_result (job_manager st) job_id with
          | None => inl (HTTPException 404 "Resultado não encontrado")
          | Some result => inr result
          end
      end
  end.

(** GET /export/{job_id}, up to the call of the exporter: the result whose
    items are written to the spreadsheet, or the 404. *)
Definition export_excel (st : app) (job_id : string) : exn + JobResult :=
  match JobManager.get_result (job_manager st) job_id with
  | None => inl (HTTPException 404 "Resultado não disponível")
  | Some result =>
      if bool_decide (result_status result <> DONE)
      then inl (HTTPException 404 "Resultado não disponível")
      else inr result
  end.

(** What a client, or the background task scheduled for one, does to the
    state. *)
Inductive request :=
| Upload (now : datetime) (job_id filename : string) (content : list N)
| Cancel (now : datetime) (job_id : string)
| RunTask (now : datetime) (job_id pdf_path : string)
          (outcome : worker_outcome).

Definition serve (st : app) (r : request) : app :=
  match r with
  | Upload now id fn content => (upload_pdf st now id fn content).1
  | Cancel now id =>
      match cancel_job st now id with
      | inr (st', _) => st'
      | inl _ => st
      end
  | RunTask now id path outcome => run_ocr_in_background st now id path outcome
  end.

Definition initial : app :=
  {| job_manager := JobManager.empty; uploads := ∅ |}.

(** The states the service reaches from start-up. (POST /process and the
    GET endpoints change nothing.) *)
Inductive reachable : app -> Prop :=
| reachable_initial : reachable initial
| reachable_serve st r : reachable st -> reachable (serve st r).

(** A job on which neither [start_job] nor [update_progress] has acted. *)
Definition never_started (j : JobMetadata) : Prop :=
  status j <> PROCESSING /\ started_at j = None
  /\ total_pages j = None /\ processed_pages j = 0.

(** The manager calls the service makes: it never starts a job nor
    reports progress, and it completes a job only with a DONE result. *)
Definition service_call (c : JobManager.call) : Prop :=
  match c with
  | JobManager.CreateJob _ _ _ _ | JobManager.FailJob _ _ _
  | JobManager.CancelJob _ _ => True
  | JobManager.CompleteJob _ _ result => result_status result = DONE
  | JobManager.StartJob _ _ _ | JobManager.UpdateProgress _ _ => False
  end.

(** The path [upload_pdf] stores the file of [job_id] under. *)
Definition upload_path (job_id : string) : string :=
  "storage/uploads/" +:+ job_id +:+ ".pdf".

End Api.

(** ** services/page_filter.py: the concatenated text *)

Module PageFilterText.
Import Py PageFilter.

(** [sep.join(texts)] *)
Fixpoint join (sep : text) (texts : list text) : text :=
  match texts with
  | [] => []
  | [t] => t
  | t :: rest => t ++ sep ++ join sep rest
  end.

Section WithUnicode.
Context `{UnicodeTables}.

Definition get_relevant_text (ocr_results : list ocr_result) : text :=
  let relevant_pages := filter_pages ocr_results in
  let texts := map text_of relevant_pages in
  join [10; 10]%N texts.

End WithUnicode.

End PageFilterText.

(** ** workers/ocr_worker.py: the loop over the batches *)

Module OcrWorkerLoop.
Import Py Models PageFilter.

Section Collaborators.
Context `{UnicodeTables}.

Variable Image : Type.
Variable extract_page_batch : string -> Z -> Z -> exn + list Image.
Variable ocr_image : Image -> exn + text.

(** [all_ocr_results] when the loop over [batches] ends: a batch whose
    extraction raises contributes nothing. *)
Definition ocr_batches (pdf_path : string) (batches : list (Z * Z))
  : list ocr_result :=
  flat_map
    (fun '(start_page, end_page) =>
       match extract_page_batch pdf_path start_page end_page with
       | inr images => OcrWorker.ocr_batch Image ocr_image start_page images
       | inl _ => []
       end)
    batches.

(** The entry the loop appends for the page [page_num] rendered as
    [image]: its text, or the error of its OCR. *)
Definition ocr_page (page_num : Z) (image : Image) : ocr_result :=
  match ocr_image image with
  | inr t =>
      {| page := page_num; text_of := t;
         has_content := (0 <? length (strip t))%nat; error := None |}
  | inl e =>
      {| page := page_num; text_of := []; has_content := false;
         error := Some (exn_message e) |}
  end.

(** The rasterizer hands back, for every range of pages of a document of
    [total_pages] pages, the images of these pages: [page_image i] is the
    image of page [i]. *)
Definition rasterizes (page_image : Z -> Image) (pdf_path : string)
    (total_pages : Z) : Prop :=
  forall start_page end_page,
    1 <= start_page -> start_page <= end_page -> end_page <= total_pages ->
    extract_page_batch pdf_path start_page end_page
    = inr (map page_image (seqZ start_page (end_page - start_page + 1))).

End Collaborators.

End OcrWorkerLoop.

(** ** services/financial_label_extractor.py: the values before grouping,
       and the validation report *)

Module LabelReport.
Import Py FinancialLabelExtractor.

Section WithUnicode.
Context `{UnicodeTables}.

(** [todos_valores] in [extract_from_text]: the values of the non-blank
    lines, in the order of the lines. *)
Definition todos_valores (texto : text) (page_num : Z) : list labeled_value :=
  flat_map (fun linha =>
              match strip linha with
              | [] => []
              | _ => extract_from_line linha page_num
              end)
           (split 10 texto).

End WithUnicode.

(** The values filed under [campo] in an insertion-ordered dictionary of
    lists ([[]] when the key is absent). *)
Definition lookup_field (campo : string)
    (valores_por_campo : list (string * list labeled_value))
  : list labeled_value :=
  match List.find (fun g => String.eqb g.1 campo) valores_por_campo with
  | Some g => g.2
  | None => []
  end.

(** [totais_bloqueados] in [validate_extraction]: the keys of [totais]
    that end in [_erro] (as a set: the order of the list is the order of
    the dictionary, which the map does not keep). *)
Definition totais_bloqueados (totais : gmap string value) : gset string :=
  dom (filter (fun kv => PyNum.endswith kv.1 "_erro" = true) totais).

Record report := {
  total_valores_extraidos : Z;
  report_valores_ok : Z;
  report_valores_suspeitos : Z;
  percentual_ok : value;
  tem_erros_bloqueantes : bool;
  erros_bloqueantes : gset string;
  campos_processados : list string
}.

(** [validate_extraction]. The percentage is a float, or the integer [0]
    when nothing was extracted. *)
Definition validate_extraction
    (valores_por_campo : list (string * list labeled_value))
    (totais : gmap string value) : exn + report :=
  let total_valores :=
    Z.of_nat (list_sum (map (fun f => length f.2) valores_por_campo)) in
  let valores_ok :=
    Z.of_nat (list_sum
                (map (fun f =>
                        length (List.filter
                                  (fun x => bool_decide (status_validacao x = OK))
                                  f.2))
                     valores_por_campo)) in
  let valores_suspeitos := total_valores - valores_ok in
  let totais_bloqueados := totais_bloqueados totais in
  let percentual :=
    if 0 <? total_valores
    then match PyNum.int_truediv valores_ok total_valores with
         | inr q => inr (VFloat (q * 100))
         | inl e => inl e
         end
    else inr (VInt 0) in
  match percentual with
  | inl e => inl e
  | inr percentual_ok =>
      inr {| total_valores_extraidos := total_valores;
             report_valores_ok := valores_ok;
             report_valores_suspeitos := valores_suspeitos;
             percentual_ok := percentual_ok;
             tem_erros_bloqueantes := bool_decide (totais_bloqueados <> ∅);
             erros_bloqueantes := totais_bloqueados;
             campos_processados := map fst valores_por_campo |}
  end.

End LabelReport.

(** ** The number a numeral stands for *)

Module NumeralSpec.
Import Py.

(** In the Brazilian notation the docstring of [parse_brazilian_number]
    gives, periods group the digits and the comma is the decimal point:
    the number is the digits read as one integer, scaled down by the
    number of digits after the comma. *)
Definition digit_values (t : text) : list N :=
  map (fun c => (c - 48)%N) (List.filter Re.is_digit t).

Fixpoint after_comma (t : text) : text :=
  match t with
  | [] => []
  | c :: r => if (c =? 44)%N then r else after_comma r
  end.

Definition numeral_decimal (t : text) : Decimal.t :=
  {| Decimal.sign := false;
     Decimal.coefficient := Decimal.digits_value (digit_values t);
     Decimal.exponent :=
       - Z.of_nat (length (List.filter Re.is_digit (after_comma t))) |}.

(** The fractional part as [Decimal] is given it: the comma replaced by a
    period. *)
Definition decimal_point (frac : text) : text :=
  match frac with
  | [] => []
  | _ :: f => 46%N :: f
  end.

(** The separators of plain text: spaces, with at most one [:] or [-]
    among them, and not empty. *)
Definition plain_separator (sep : text) : Prop :=
  exists (n1 : nat) (punct : text) (n2 : nat),
    sep = repeat 32%N n1 ++ punct ++ repeat 32%N n2
    /\ (punct = [] \/ punct = [58%N] \/ punct = [45%N])
    /\ sep <> [].

(** What may follow a numeral on the line without being read as part of
    it: nothing, or a character that is no digit, period or comma. *)
Definition ends_numeral (after : text) : Prop :=
  match after with
  | [] => True
  | c :: _ => Re.is_digit c = false /\ c <> 46%N /\ c <> 44%N
  end.

(** What may stand in front of a label without hiding it from the search:
    text in which the first letter of the label does not occur, in either
    case, and which does not end in a letter, digit or underscore. *)
Definition precedes_label `{UnicodeTables} (before label : text) : Prop :=
  Forall (fun c => Re.literal_ignorecase (default 0%N (head label)) c = false)
         before
  /\ Re.is_word_opt (last before) = false.

End NumeralSpec.

(** ** services/safe_convenio_extractor.py: pages and documents *)

Module SafeConvenioPages.
Import Py FinancialLabelExtractor SafeConvenioExtractor.

(** What [extract_from_page] returns. *)
Record page_result := {
  result_page : Z;
  result_movimentacoes : list movimentacao;
  valores_raw : list (string * list labeled_value);
  tem_erros : bool
}.

(** What [extract_convenio_data_from_pages] returns (the constant entries
    [tipo_documento] and [cabecalho] and the [relatorio_detalhado], which
    is computed from the same pages and movements and raises nothing, are
    left out). *)
Record convenio_data := {
  data_documento_id : string;
  todas_movimentacoes : list movimentacao;
  totais : gmap string value;
  total_movimentacoes : Z;
  paginas_processadas : Z;
  paginas_com_erro : list Z;
  tem_valores_bloqueados : value
}.

Section WithUnicode.
Context `{UnicodeTables}.

(** [uuids i] is the id drawn for the [i]-th movement created. *)
Definition extract_from_page (uuids : nat -> string)
    (ocr_result : PageFilter.ocr_result) (documento_id : string)
  : page_result :=
  let page_num := PageFilter.page ocr_result in
  let texto := PageFilter.text_of ocr_result in
  let valores_por_campo := extract_from_text texto page_num in
  {| result_page := page_num;
     result_movimentacoes :=
       movimentacoes_of_page uuids texto page_num documento_id;
     valores_raw := valores_por_campo;
     tem_erros :=
       existsb (fun v => negb (bool_decide (status_validacao v = OK)))
               (flat_map snd valores_por_campo) |}.

(** The loop over the pages: all movements, and the pages with errors. *)
Fixpoint extract_pages (uuids : nat -> string)
    (ocr_results : list PageFilter.ocr_result) (documento_id : string)
  : list movimentacao * list Z :=
  match ocr_results with
  | [] => ([], [])
  | ocr_result :: rest =>
      let resultado_pagina := extract_from_page uuids ocr_result documento_id in
      let drawn := length (result_movimentacoes resultado_pagina) in
      let '(movs, erros) :=
        extract_pages (fun i => uuids (drawn + i)%nat) rest documento_id in
      (result_movimentacoes resultado_pagina ++ movs,
       (if tem_erros resultado_pagina then [result_page resultado_pagina]
        else []) ++ erros)
  end.

Definition extract_convenio_data_from_pages (uuids : nat -> string)
    (ocr_results : list PageFilter.ocr_result) (documento_id : string)
  : exn + convenio_data :=
  let '(movs, erros) := extract_pages uuids ocr_results documento_id in
  match _calculate_safe_totals movs with
  | inl e => inl e
  | inr totais =>
      inr {| data_documento_id := documento_id;
             todas_movimentacoes := movs;
             totais := totais;
             total_movimentacoes := Z.of_nat (length movs);
             paginas_processadas := Z.of_nat (length ocr_results);
             paginas_com_erro := erros;
             tem_valores_bloqueados :=
               default (VBool false) (totais !! "tem_valores_suspeitos"%string) |}
  end.

End WithUnicode.

End SafeConvenioPages.

(** ** services/extractor.py: many records *)

Module DataExtractor.
Import Py.

(** The dictionary [extract_all] returns. *)
Record record := {
  banco : option text;
  agencia : option text;
  conta : option text;
  tipo_conta : option text;
  cpf_cnpj : option text;
  valor : option float
}.

(** Truth value of an optional string: [None] and the empty string are
    false. *)
Definition truthy (x : option text) : bool :=
  match x with
  | Some (_ :: _) => true
  | Some [] | None => false
  end.

(** [str(x)] inside the f-string of the key. *)
Definition str_opt (x : option text) : text :=
  match x with Some t => t | None => u "None" end.

(** [f"{record.get('agencia', '')}_{record.get('conta', '')}"]: the keys
    are always present, so the defaults never apply. *)
Definition key (r : record) : text :=
  str_opt (agencia r) ++ [95%N] ++ str_opt (conta r).

(** The de-duplication loop, with the set [seen]. *)
Fixpoint unique_from (seen : list text) (all_records : list record)
  : list record :=
  match all_records with
  | [] => []
  | r :: rest =>
      let k := key r in
      if negb (length k =? 0)%nat && negb (bool_decide (k ∈ seen))
      then r :: unique_from (k :: seen) rest
      else if (length k =? 0)%nat
           then r :: unique_from seen rest
           else unique_from seen rest
  end.

Section WithUnicode.
Context `{UnicodeTables}.

(** [extract_all] runs the regular expressions of the six fields; here it
    is any function from a page text to a record. *)
Variable extract_all : text -> record.

Definition all_records (pages_text : list text) : list record :=
  flat_map
    (fun t =>
       if (length (strip t) =? 0)%nat then []
       else
         let r := extract_all t in
         if truthy (banco r) || (truthy (agencia r) && truthy (conta r))
         then [r] else [])
    pages_text.

Definition extract_multiple_records (pages_text : list text) : list record :=
  let all_records := all_records pages_text in
  let unique_records := unique_from [] all_records in
  match unique_records with
  | [] => all_records
  | _ => unique_records
  end.

End WithUnicode.

End DataExtractor.

(* ===================================================================== *)
(** * Part II: properties *)
(* ===================================================================== *)

(** ** Batching *)

Section Batches.
Import PDFService.

Variables N b : Z.
Hypothesis HN : 0 <= N.
Hypothesis Hb : 0 < b.

Lemma ceil_div_range_length : Py.range_length 1 (N + 1) b = ceil_div N b.
Proof.
  unfold Py.range_length, ceil_div.
  destruct (Z.ltb_spec 0 b) as [_|]; [|lia].
  destruct (Z.ltb_spec 1 (N + 1)) as [H1|H1].
  - replace (N + 1 - 1 - 1) with (N - 1) by lia.
    assert (Hq : - N = b * (- ((N - 1) / b + 1)) + (b - 1 - (N - 1) mod b)).
    { pose proof (Z.div_mod (N - 1) b ltac:(lia)). lia. }
    pose proof (Z.mod_pos_bound (N - 1) b Hb).
    assert (- N / b = - ((N - 1) / b + 1)); [|lia].
    symmetry.
    apply Z.div_unique with (r := b - 1 - (N - 1) mod b); [lia | exact Hq].
  - assert (N = 0) by lia. subst. simpl. rewrite Z.div_0_l; lia.
Qed.

Lemma calculate_batches_unfold :
  calculate_batches N b
  = Some (map (batch_at N b) (seq 0 (Z.to_nat (ceil_div N b)))).
Proof.
  unfold calculate_batches, Py.range.
  destruct (Z.eqb_spec b 0) as [|_]; [lia|].
  simpl. rewrite ceil_div_range_length, map_map. reflexivity.
Qed.

Lemma ceil_div_nonneg : 0 <= ceil_div N b.
Proof.
  unfold ceil_div.
  assert (- N / b <= 0); [|lia].
  apply Z.div_le_upper_bound; lia.
Qed.

(** A batch index below the batch count starts inside the document. *)
Lemma batch_start_in_range (i : nat) :
  (i < Z.to_nat (ceil_div N b))%nat -> Z.of_nat i * b < N.
Proof.
  intros Hi. pose proof ceil_div_nonneg as H0.
  assert (Hlt : Z.of_nat i < ceil_div N b) by lia.
  unfold ceil_div in Hlt.
  assert (Hd : - N / b < - Z.of_nat i) by lia.
  destruct (Z.lt_ge_cases (Z.of_nat i * b) N) as [|Hge]; [assumption|].
  exfalso.
  assert (- Z.of_nat i <= - N / b); [|lia].
  apply Z.div_le_lower_bound; lia.
Qed.

Lemma batches_cover_prefix (k : nat) :
  (k <= Z.to_nat (ceil_div N b))%nat ->
  concat (map pages_of (map (batch_at N b) (seq 0 k)))
  = seqZ 1 (Z.min (Z.of_nat k * b) N).
Proof.
  induction k as [|k IH]; intros Hk.
  - simpl. rewrite Z.min_l by lia. reflexivity.
  - rewrite seq_S, !map_app, concat_app, IH by lia. simpl.
    rewrite app_nil_r.
    pose proof (batch_start_in_range k ltac:(lia)) as Hin.
    unfold pages_of, batch_at. simpl.
    rewrite (Z.min_l (Z.of_nat k * b)) by lia.
    replace (Z.min (Z.of_nat (S k) * b) N)
      with (Z.of_nat k * b
            + (Z.min (1 + Z.of_nat k * b + b - 1) N
               - (1 + Z.of_nat k * b) + 1)) by lia.
    symmetry. apply seqZ_app; lia.
Qed.

Lemma ceil_div_covers : N <= ceil_div N b * b.
Proof.
  unfold ceil_div.
  pose proof (Z.div_mod (- N) b ltac:(lia)).
  pose proof (Z.mod_pos_bound (- N) b Hb). nia.
Qed.

(** C5. For a page count [N >= 0] and a batch size [b > 0],
    [calculate_batches N b] returns [ceil(N / b)] ranges; each lies within
    [1..N], is non-empty and holds at most [b] pages; an earlier range ends
    before a later one starts; and the pages of the ranges, read in order,
    are exactly [1, 2, ..., N], each once. *)
Theorem calculate_batches_partition :
  exists batches,
    calculate_batches N b = Some batches
    /\ Z.of_nat (length batches) = ceil_div N b
    /\ Forall (fun r => 1 <= r.1 /\ r.1 <= r.2 /\ r.2 <= N
                        /\ r.2 - r.1 + 1 <= b) batches
    /\ (forall (i j : nat) r1 r2,
           batches !! i = Some r1 -> batches !! j = Some r2 ->
           (i < j)%nat -> r1.2 < r2.1)
    /\ concat (map pages_of batches) = seqZ 1 N.
Proof.
  pose proof ceil_div_nonneg as H0.
  eexists. split; [apply calculate_batches_unfold|].
  split; [rewrite length_map, length_seq; lia|].
  split; [|split].
  - apply Forall_forall. intros r Hr.
    apply list_elem_of_In, in_map_iff in Hr as (i & <- & Hi).
    apply in_seq in Hi.
    pose proof (batch_start_in_range i ltac:(lia)).
    unfold batch_at; simpl. lia.
  - intros i j r1 r2 Hi Hj Hij.
    rewrite list_lookup_fmap in Hi, Hj.
    destruct (seq 0 (Z.to_nat (ceil_div N b)) !! i) as [i'|] eqn:Ei;
      [|discriminate].
    destruct (seq 0 (Z.to_nat (ceil_div N b)) !! j) as [j'|] eqn:Ej;
      [|discriminate].
    apply lookup_seq in Ei as [-> _]. apply lookup_seq in Ej as [-> _].
    simpl in Hi, Hj. injection Hi as <-. injection Hj as <-.
    unfold batch_at; simpl. nia.
  - rewrite batches_cover_prefix by lia.
    rewrite Z2Nat.id by lia.
    rewrite Z.min_r by apply ceil_div_covers. reflexivity.
Qed.

End Batches.

Lemma calculate_batches_partition_witness :
  exists batches,
    PDFService.calculate_batches 25 10 = Some batches
    /\ Z.of_nat (length batches) = PDFService.ceil_div 25 10
    /\ Forall (fun r => 1 <= r.1 /\ r.1 <= r.2 /\ r.2 <= 25
                        /\ r.2 - r.1 + 1 <= 10) batches
    /\ (forall (i j : nat) r1 r2,
           batches !! i = Some r1 -> batches !! j = Some r2 ->
           (i < j)%nat -> r1.2 < r2.1)
    /\ concat (map PDFService.pages_of batches) = seqZ 1 25.
Proof. apply (calculate_batches_partition 25 10); lia. Defined.

(** The example of the docstring. *)
Example calculate_batches_25_10 :
  PDFService.calculate_batches 25 10 = Some [(1, 10); (11, 20); (21, 25)].
Proof. reflexivity. Qed.


(** ** Job manager *)

Section JobManagerFacts.
Import Models JobManager.

Lemma run_other_job (self : t) (c : call) (id : string) :
  call_target c <> id -> _jobs (run self c) !! id = _jobs self !! id.
Proof.
  intros Hne. destruct c; simpl in *;
    unfold create_job, start_job, update_progress, complete_job,
           fail_job, cancel_job;
    destruct (_jobs self !! _) eqn:E; simpl; try reflexivity;
    rewrite lookup_insert_ne; auto.
Qed.

Lemma run_same_job (self : t) (c : call) (j : JobMetadata) :
  _jobs self !! call_target c = Some j ->
  exists j',
    _jobs (run self c) !! call_target c = Some j'
    /\ same_identity j j'
    /\ status j' = default (status j) (status_written c).
Proof.
  intros Hj. destruct c; simpl in *;
    unfold create_job, start_job, update_progress, complete_job,
           fail_job, cancel_job;
    rewrite Hj; simpl;
    try (rewrite lookup_insert_eq);
    eexists; (split; [first [reflexivity | eassumption]|]);
    unfold same_identity; simpl; auto.
Qed.

End JobManagerFacts.

Section JobManagerClaims.
Import Py Models JobManager.

Lemma start_job_found (self : t) (now : datetime) (id : string) (n : Z)
    (j : JobMetadata) :
  _jobs self !! id = Some j ->
  exists self' j',
    start_job self now id n = inr self'
    /\ _jobs self' !! id = Some j'
    /\ status j' = PROCESSING /\ total_pages j' = Some n
    /\ started_at j' = Some now
    /\ same_identity j j'
    /\ processed_pages j' = processed_pages j
    /\ completed_at j' = completed_at j
    /\ error_message j' = error_message j
    /\ (forall id', id' <> id -> _jobs self' !! id' = _jobs self !! id')
    /\ _results self' = _results self.
Proof.
  intros Hj. unfold start_job. rewrite Hj.
  eexists _, _. split; [reflexivity|]. simpl.
  split; [apply lookup_insert_eq|].
  unfold same_identity; simpl.
  do 3 (split; [reflexivity|]).
  split; [auto|].
  do 3 (split; [reflexivity|]).
  split; [|reflexivity].
  intros id' Hne. apply lookup_insert_ne; auto.
Qed.

(** C6 (amended). [start_job] raises the not-found [ValueError] exactly
    when the id is missing. On an existing job, whatever its status, it
    succeeds: the status becomes PROCESSING, [total_pages] and the start
    time are recorded, every other attribute, every other job and the
    results are left as they were. The requirement that the job be PENDING
    is checked by the POST /process endpoint instead, which answers 404
    for a missing id and 400 for a job in any other state, and changes
    nothing. *)
Theorem start_job_spec (self : t) (now : datetime) (id : string) (n : Z)
    (files : gset string) :
  let st := {| MainRefactored.job_manager := self;
               MainRefactored.uploads := files |} in
  match _jobs self !! id with
  | None =>
      start_job self now id n
      = inl (ValueError ("Job " +:+ id +:+ " não encontrado"))
      /\ MainRefactored.process_pdf st id
         = inl (HTTPException 404 "Job não encontrado")
  | Some j =>
      (exists self' j',
          start_job self now id n = inr self'
          /\ _jobs self' !! id = Some j'
          /\ status j' = PROCESSING /\ total_pages j' = Some n
          /\ started_at j' = Some now
          /\ same_identity j j'
          /\ processed_pages j' = processed_pages j
          /\ completed_at j' = completed_at j
          /\ error_message j' = error_message j
          /\ (forall id', id' <> id -> _jobs self' !! id' = _jobs self !! id')
          /\ _results self' = _results self)
      /\ (status j <> PENDING ->
          exists detail,
            MainRefactored.process_pdf st id = inl (HTTPException 400 detail))
  end.
Proof.
  cbv zeta. unfold MainRefactored.process_pdf, get_job. simpl.
  destruct (_jobs self !! id) as [j|] eqn:Hj.
  - split; [apply start_job_found; assumption|].
    intros Hst. rewrite bool_decide_eq_true_2 by assumption. eauto.
  - unfold start_job. rewrite Hj. split; reflexivity.
Qed.

(** C6, as stated, fails: a job already PROCESSING (created, then started
    with 25 pages) is started again without any rejection, and its page
    total and start time are overwritten. *)
Lemma start_job_restarts_processing_job :
  let s1 := run (run empty (CreateJob 0 "job-1" "a.pdf" "storage/uploads/job-1.pdf"))
                (StartJob 1 "job-1" 25) in
  (status <$> _jobs s1 !! "job-1"%string) = Some PROCESSING
  /\ (total_pages <$> _jobs s1 !! "job-1"%string) = Some (Some 25)
  /\ exists s2,
       start_job s1 2 "job-1" 900 = inr s2
       /\ (status <$> _jobs s2 !! "job-1"%string) = Some PROCESSING
       /\ (total_pages <$> _jobs s2 !! "job-1"%string) = Some (Some 900)
       /\ (started_at <$> _jobs s2 !! "job-1"%string) = Some (Some 2).
Proof.
  cbv zeta. split; [reflexivity|]. split; [reflexivity|].
  eexists. split; [vm_compute; reflexivity|].
  split; [reflexivity|]. split; reflexivity.
Qed.

(** C3 (amended). The manager's calls do not look at the current status.
    For a job stored under [id] -- in particular a DONE, ERROR or CANCELLED
    one -- a call aimed at [id] leaves job id, file name, file path and
    creation time alone and sets the status to the one the call writes
    (PROCESSING, DONE, ERROR, CANCELLED for start, complete, fail, cancel;
    unchanged for create and update_progress); a call aimed at another id
    leaves the job as it was. The check for a finished job is made by the
    DELETE endpoint: on a DONE or ERROR job it raises HTTP 400 and changes
    nothing; otherwise (also on a CANCELLED job) it calls [cancel_job] and
    the status is CANCELLED afterwards. *)
Theorem manager_calls_ignore_status (self : t) (c : call) (id : string)
    (j : JobMetadata) :
  _jobs self !! id = Some j ->
  (exists j',
      _jobs (run self c) !! id = Some j'
      /\ same_identity j j'
      /\ status j' = if decide (call_target c = id)
                     then default (status j) (status_written c)
                     else status j)
  /\ (forall (files : gset string) (now : datetime),
        match MainRefactored.cancel_job
                {| MainRefactored.job_manager := self;
                   MainRefactored.uploads := files |} now id with
        | inl e =>
            (status j = DONE \/ status j = ERROR)
            /\ e = HTTPException 400 "Job já finalizado"
        | inr (st', _) =>
            status j <> DONE /\ status j <> ERROR
            /\ (status <$> _jobs (MainRefactored.job_manager st') !! id)
               = Some CANCELLED
        end).
Proof.
  intros Hj. split.
  - destruct (decide (call_target c = id)) as [<-|Hne].
    + apply run_same_job; assumption.
    + exists j. rewrite run_other_job by assumption.
      unfold same_identity; auto 10.
  - intros files now. unfold MainRefactored.cancel_job, get_job. simpl.
    rewrite Hj.
    destruct (bool_decide (status j = DONE \/ status j = ERROR)) eqn:Hd.
    + apply bool_decide_eq_true in Hd. auto.
    + apply bool_decide_eq_false in Hd. simpl.
      split; [tauto|]. split; [tauto|].
      unfold cancel_job. rewrite Hj. simpl.
      rewrite lookup_insert_eq. reflexivity.
Qed.

End JobManagerClaims.

Section JobManagerInvariants.
Import Py Models JobManager.

Lemma manager_calls_ignore_status_witness :
  (exists j',
      _jobs (run Samples.done (CancelJob 9 "job-1")) !! "job-1"%string = Some j'
      /\ same_identity Samples.done_job j'
      /\ status j' = if decide (call_target (CancelJob 9 "job-1") = "job-1"%string)
                     then default (status Samples.done_job)
                                  (status_written (CancelJob 9 "job-1"))
                     else status Samples.done_job)
  /\ (forall (files : gset string) (now : datetime),
        match MainRefactored.cancel_job
                {| MainRefactored.job_manager := Samples.done;
                   MainRefactored.uploads := files |} now "job-1" with
        | inl e =>
            (status Samples.done_job = DONE \/ status Samples.done_job = ERROR)
            /\ e = HTTPException 400 "Job já finalizado"
        | inr (st', _) =>
            status Samples.done_job <> DONE /\ status Samples.done_job <> ERROR
            /\ (status <$> _jobs (MainRefactored.job_manager st') !! "job-1"%string)
               = Some CANCELLED
        end).
Proof.
  apply (manager_calls_ignore_status Samples.done (CancelJob 9 "job-1")
           "job-1" Samples.done_job).
  reflexivity.
Defined.

(** C3, as stated, fails: [cancel_job] on a job that is already DONE is
    neither rejected nor a no-op; the status becomes CANCELLED and the
    completion time is overwritten. *)
Lemma cancel_job_overwrites_done_job :
  _jobs Samples.done !! "job-1"%string = Some Samples.done_job
  /\ terminal (status Samples.done_job) = true
  /\ (status <$> _jobs (cancel_job Samples.done 9 "job-1") !! "job-1"%string)
     = Some CANCELLED
  /\ (completed_at <$> _jobs (cancel_job Samples.done 9 "job-1") !! "job-1"%string)
     = Some (Some 9).
Proof. repeat split; reflexivity. Qed.

Lemma run_preserves_progress_bound (self : t) (c : call) :
  progress_bounded self -> respects_total self c ->
  progress_bounded (run self c).
Proof.
  intros Hinv Hok id j n Hj Hn.
  destruct (decide (call_target c = id)) as [<-|Hne];
    [|rewrite (run_other_job self c id Hne) in Hj; eauto].
  destruct c; simpl in *;
    unfold create_job, start_job, update_progress, complete_job,
           fail_job, cancel_job in Hj;
    destruct (_jobs self !! _) as [j0|] eqn:E; simpl in Hj.
  all: try (rewrite E in Hj; discriminate).
  all: try (eapply Hinv; eassumption).
  all: rewrite lookup_insert_eq in Hj; injection Hj as <-; simpl in *.
  all: try discriminate.
  all: try (eapply Hinv; eassumption).
  - injection Hn as <-. apply Hok. reflexivity.
  - eapply Hok; [reflexivity | eassumption].
Qed.

(** C7 (amended). In every state the manager reaches through calls that
    keep the caller's side of the contract -- [update_progress] is given a
    count within the job's known total, [start_job] a total not below the
    count already recorded -- every job whose total is known has
    [processed_pages <= total_pages]. The manager does not check either
    argument itself. *)
Theorem progress_bounded_when_callers_respect_total (self : t) :
  reachable respects_total self -> progress_bounded self.
Proof.
  induction 1 as [|self c _ IH Hok].
  - intros id j n Hj. unfold empty in Hj. simpl in Hj.
    rewrite lookup_empty in Hj. discriminate.
  - apply run_preserves_progress_bound; assumption.
Qed.

Lemma progress_bounded_when_callers_respect_total_witness :
  progress_bounded (run Samples.started (UpdateProgress "job-1" 10)).
Proof.
  apply progress_bounded_when_callers_respect_total.
  apply reachable_run; [apply reachable_run; [apply reachable_run|]|].
  - apply reachable_empty.
  - exact I.
  - intros j Hj. vm_compute in Hj. injection Hj as <-. simpl. lia.
  - intros j n Hj Hn. vm_compute in Hj. injection Hj as <-.
    simpl in Hn. injection Hn as <-. lia.
Defined.

(** C7, as stated, fails: after create, start with 25 pages and
    [update_progress] with 26, the job has a known total of 25 and a
    processed count of 26. Every call here is one the manager accepts. *)
Lemma update_progress_exceeds_total :
  let s := run Samples.started (UpdateProgress "job-1" 26) in
  reachable (fun _ _ => True) s
  /\ exists j,
       _jobs s !! "job-1"%string = Some j
       /\ total_pages j = Some 25 /\ processed_pages j = 26
       /\ ~ progress_bounded s.
Proof.
  cbv zeta. split.
  - repeat (apply reachable_run; [|exact I]). apply reachable_empty.
  - eexists. split; [reflexivity|]. split; [reflexivity|].
    split; [reflexivity|].
    intros Hb. specialize (Hb "job-1"%string _ 25 eq_refl eq_refl).
    simpl in Hb. lia.
Qed.

End JobManagerInvariants.

(** ** Uploaded files *)

Section Uploads.
Import Py Models.

Lemma run_ocr_in_background_uploads (st : MainRefactored.app)
    (now : datetime) (job_id pdf_path : string)
    (outcome : MainRefactored.worker_outcome) :
  MainRefactored.uploads
    (MainRefactored.run_ocr_in_background st now job_id pdf_path outcome)
  = MainRefactored.uploads st.
Proof.
  unfold MainRefactored.run_ocr_in_background.
  destruct outcome as [result|e]; [|reflexivity].
  destruct (bool_decide _); [|reflexivity].
  destruct (JobManager.complete_job _ _ _ _); reflexivity.
Qed.

(** C9. [run_ocr_in_background] never touches the stored files: whatever
    the worker returns or raises, the set of uploaded files afterwards is
    the set before, so the source file of a job that was on disk is still
    on disk once the job is DONE or ERROR (the job, when it is in the
    table, does end in one of these two states). *)
Theorem run_ocr_in_background_keeps_upload (st : MainRefactored.app)
    (now : datetime) (job_id pdf_path : string)
    (outcome : MainRefactored.worker_outcome) :
  let st' := MainRefactored.run_ocr_in_background st now job_id pdf_path outcome in
  MainRefactored.uploads st' = MainRefactored.uploads st
  /\ (forall j,
        JobManager._jobs (MainRefactored.job_manager st) !! job_id = Some j ->
        exists j',
          JobManager._jobs (MainRefactored.job_manager st') !! job_id = Some j'
          /\ (status j' = DONE \/ status j' = ERROR)).
Proof.
  cbv zeta. split; [apply run_ocr_in_background_uploads|].
  unfold MainRefactored.run_ocr_in_background.
  intros j Hj.
  destruct outcome as [result|e]; [destruct (bool_decide _)|];
    unfold JobManager.complete_job, JobManager.fail_job;
    rewrite Hj; simpl; rewrite lookup_insert_eq;
    eexists; (split; [reflexivity|]); simpl; auto.
Qed.

(** The uploaded file of the sample job is still there after a successful
    run and after a failed one. *)
Example upload_survives_processing :
  let ok := MainRefactored.run_ocr_in_background Samples.uploaded 5 "job-1"
              Samples.upload_path (MainRefactored.Returned Samples.done_result) in
  let ko := MainRefactored.run_ocr_in_background Samples.uploaded 5 "job-1"
              Samples.upload_path (MainRefactored.Returned Samples.failed_result) in
  (status <$> JobManager._jobs (MainRefactored.job_manager ok) !! "job-1"%string)
  = Some DONE
  /\ Samples.upload_path ∈ MainRefactored.uploads ok
  /\ (status <$> JobManager._jobs (MainRefactored.job_manager ko) !! "job-1"%string)
     = Some ERROR
  /\ Samples.upload_path ∈ MainRefactored.uploads ko.
Proof.
  cbv zeta. split; [reflexivity|]. split.
  - rewrite run_ocr_in_background_uploads.
    simpl. set_solver.
  - split; [reflexivity|].
    rewrite run_ocr_in_background_uploads.
    simpl. set_solver.
Qed.

(** The worker itself only reads the file; whatever its collaborators do,
    the result it hands back is DONE or ERROR. *)
Lemma process_ocr_job_status {tables : UnicodeTables} (Image : Type)
    (get_page_count : string -> exn + Z)
    (extract_page_batch : string -> Z -> Z -> exn + list Image)
    (ocr_image : Image -> exn + text)
    (extract_multiple_records : list text -> exn + list (gmap string value))
    (job_id pdf_path : string) (elapsed : float) :
  let result := OcrWorker.process_ocr_job Image get_page_count
                  extract_page_batch ocr_image extract_multiple_records
                  job_id pdf_path elapsed in
  result_status result = DONE \/ result_status result = ERROR.
Proof.
  cbv zeta. unfold OcrWorker.process_ocr_job.
  destruct (get_page_count pdf_path); [auto|].
  destruct (PDFService.calculate_batches _ _); [|auto].
  destruct (PageFilter.filter_pages _); [auto|].
  destruct (extract_multiple_records _) as [e|[|item others]]; auto.
Qed.

(** The earlier API does remove the file, in its [finally] block. *)
Lemma process_in_background_unlinks (st : Main.app) (t0 t1 : string)
    (job_id pdf_path : string) (outcome : Main.worker_outcome) :
  pdf_path ∉ Main.uploads (Main.process_in_background st t0 t1 job_id pdf_path outcome).
Proof.
  unfold Main.process_in_background. simpl.
  apply not_elem_of_difference. right. apply elem_of_singleton. reflexivity.
Qed.

End Uploads.

(** ** Page relevance *)

Section PageRelevance.
Import Py PageFilter.
Context {tables : UnicodeTables}.

Lemma remove_dups_length (l : list text) :
  (length (remove_dups l) <= length l)%nat.
Proof.
  induction l as [|x l IH]; simpl; [lia|].
  destruct (decide_rel elem_of x l); simpl; lia.
Qed.

Lemma remove_dups_NoDup (l : list text) : NoDup l -> remove_dups l = l.
Proof.
  induction 1 as [|x l Hx _ IH]; simpl; [reflexivity|].
  destruct (decide_rel elem_of x l); [contradiction|]. rewrite IH. reflexivity.
Qed.

Lemma filter_NoDup (f : text -> bool) (l : list text) :
  NoDup l -> NoDup (List.filter f l).
Proof.
  induction 1 as [|x l Hx _ IH]; simpl; [constructor|].
  destruct (f x); [|assumption].
  constructor; [|assumption].
  intros Hin. apply Hx. apply list_elem_of_In in Hin.
  apply filter_In in Hin as [Hin _]. apply list_elem_of_In. exact Hin.
Qed.

Lemma filter_filter_same (f g : text -> bool) (l : list text) :
  (forall x, In x l -> f x = true -> g x = true) ->
  List.filter f (List.filter g l) = List.filter f l.
Proof.
  induction l as [|x l IH]; intros Hfg; simpl; [reflexivity|].
  assert (IH' : List.filter f (List.filter g l) = List.filter f l)
    by (apply IH; intros; apply Hfg; [right|]; assumption).
  destruct (g x) eqn:Eg; simpl; [rewrite IH'; reflexivity|].
  destruct (f x) eqn:Ef; [|exact IH'].
  rewrite (Hfg x (or_introl eq_refl) Ef) in Eg. discriminate.
Qed.

(** Blank pages and pages without any keyword are never relevant. *)
Lemma is_relevant_page_blank (t : text) :
  strip t = [] -> is_relevant_page t = false.
Proof. unfold is_relevant_page. intros ->. reflexivity. Qed.

Lemma high_priority_are_keywords (kw : text) :
  In kw high_priority_keywords -> In kw keywords.
Proof.
  intros Hkw. apply list_elem_of_In.
  simpl in Hkw. destruct Hkw as [<-|[<-|[<-|[<-|[]]]]];
    apply (bool_decide_unpack (_ ∈ keywords)); vm_compute; exact I.
Qed.

Lemma is_relevant_page_without_keyword (t : text) :
  (forall kw, In kw keywords -> contains (upper t) kw = false) ->
  is_relevant_page t = false.
Proof.
  intros Hno. unfold is_relevant_page.
  destruct (length (strip t) =? 0)%nat; [reflexivity|].
  assert (Hf : List.filter (fun keyword => contains (upper t) keyword) keywords
               = []).
  { induction keywords as [|k ks IH]; simpl; [reflexivity|].
    rewrite (Hno k (or_introl eq_refl)).
    apply IH. intros kw Hkw. apply Hno. right. exact Hkw. }
  assert (Hhp : existsb (fun kw => contains (upper t) kw)
                        high_priority_keywords = false).
  { apply not_true_is_false. intros Hex.
    apply existsb_exists in Hex as (kw & Hkw & Hc).
    rewrite (Hno kw (high_priority_are_keywords kw Hkw)) in Hc.
    discriminate. }
  cbv zeta. rewrite Hf, Hhp. reflexivity.
Qed.

(** [filter_pages] keeps exactly the pages that have content and are
    relevant, in order. *)
Lemma filter_pages_keeps (ocr_results : list ocr_result) (p : ocr_result) :
  In p (filter_pages ocr_results) ->
  has_content p = true /\ is_relevant_page (text_of p) = true
  /\ exists p0,
       In p0 ocr_results /\ has_content p0 = true
       /\ page p0 = page p /\ text_of p0 = text_of p.
Proof.
  unfold filter_pages. intros Hin.
  apply in_flat_map in Hin as (p0 & Hp0 & Hin).
  destruct (has_content p0) eqn:Hc; simpl in Hin; [|contradiction].
  destruct (is_relevant_page (text_of p0)) eqn:Hr; [|contradiction].
  destruct Hin as [<-|[]]. simpl. eauto 10.
Qed.

(** Whenever the stated rule makes a non-blank page relevant, so does the
    code. *)
Lemma relevant_by_spec_is_relevant (t : text) :
  strip t <> [] -> relevant_by_spec t = true -> is_relevant_page t = true.
Proof.
  unfold relevant_by_spec, distinct_keywords_found, is_relevant_page.
  intros Hne Hspec.
  destruct (length (strip t) =? 0)%nat eqn:Es;
    [apply Nat.eqb_eq, length_zero_iff_nil in Es; congruence|].
  apply orb_true_iff in Hspec as [Hcount|Hhp];
    apply orb_true_iff; [left|right; exact Hhp].
  apply Nat.leb_le in Hcount. apply Nat.leb_le.
  pose proof (remove_dups_length
                (List.filter (fun keyword => contains (upper t) keyword)
                             keywords)).
  lia.
Qed.

(** The other way round the two differ on the repeated keyword only. *)
Lemma is_relevant_is_relevant_by_spec (t : text) :
  is_relevant_page t = true ->
  relevant_by_spec t = true \/ contains (upper t) (u "ITAU") = true.
Proof.
  unfold relevant_by_spec, distinct_keywords_found, is_relevant_page.
  destruct (length (strip t) =? 0)%nat; [discriminate|].
  intros Hrel.
  destruct (contains (upper t) (u "ITAU")) eqn:Eitau; [right; reflexivity|].
  left.
  set (f := fun keyword => contains (upper t) keyword) in *.
  set (g := fun k : text => bool_decide (k <> u "ITAU")).
  assert (Hfg : List.filter f (List.filter g keywords) = List.filter f keywords).
  { apply filter_filter_same. intros x _ Hx. unfold g.
    apply bool_decide_eq_true. intros ->. unfold f in Hx. congruence. }
  assert (Hnd : NoDup (List.filter g keywords)).
  { apply (bool_decide_unpack (NoDup (List.filter g keywords))).
    vm_compute. exact I. }
  rewrite <- Hfg, (remove_dups_NoDup _ (filter_NoDup f _ Hnd)), Hfg.
  exact Hrel.
Qed.

(** C8. On the page text [ITAU] the code and the stated rule part ways:
    [is_relevant_page] answers true, although the text holds one distinct
    keyword only and none of the high-priority ones. The keyword list has
    the entry [ITAU] twice, and the count is taken over the list. *)
Theorem is_relevant_page_counts_repeated_keyword :
  is_relevant_page (u "ITAU") = true
  /\ distinct_keywords_found (u "ITAU") = [u "ITAU"]
  /\ existsb (fun kw => contains (upper (u "ITAU")) kw) high_priority_keywords
     = false
  /\ relevant_by_spec (u "ITAU") = false.
Proof. repeat split; vm_compute; reflexivity. Qed.

End PageRelevance.

(** ** The pattern matcher finds labelled numerals only *)

Section Matcher.
Import Py Re LabelSpec.
Context {tables : UnicodeTables}.

Lemma span_spec (p : N -> bool) (t m rest : text) :
  span p t = (m, rest) ->
  t = m ++ rest /\ Forall (fun c => p c = true) m.
Proof.
  revert m rest. induction t as [|c t IH]; intros m rest; simpl.
  - intros [= <- <-]. auto.
  - destruct (p c) eqn:E.
    + destruct (span p t) as [m' r'] eqn:E'. intros [= <- <-].
      destruct (IH _ _ eq_refl) as [-> Hf]. auto.
    + intros [= <- <-]. auto.
Qed.

Lemma match_literals_spec (label t lab rest : text) :
  match_literals label t = Some (lab, rest) ->
  t = lab ++ rest /\ spells label lab.
Proof.
  revert t lab rest. induction label as [|p label IH]; intros t lab rest; simpl.
  - intros [= <- <-]. split; [reflexivity|constructor].
  - destruct t as [|c t]; [discriminate|].
    destruct (literal_ignorecase p c) eqn:E; [|discriminate].
    destruct (match_literals label t) as [[m r]|] eqn:E'; [|discriminate].
    intros [= <- <-]. destruct (IH _ _ _ E') as [-> Hs].
    split; [reflexivity|]. constructor; assumption.
Qed.

Lemma match_punct_spec (t p rest : text) :
  match_punct t = (p, rest) ->
  t = p ++ rest /\ (p = [] \/ p = [58%N] \/ p = [45%N]).
Proof.
  destruct t as [|c t]; simpl.
  - intros [= <- <-]. auto.
  - destruct (c =? 58)%N eqn:E1; simpl.
    + apply N.eqb_eq in E1 as ->. intros [= <- <-]. auto.
    + destruct (c =? 45)%N eqn:E2.
      * apply N.eqb_eq in E2 as ->. intros [= <- <-]. auto.
      * intros [= <- <-]. auto.
Qed.

Lemma match_int_tail_spec (t m rest : text) :
  match_int_tail t = (m, rest) ->
  t = m ++ rest
  /\ exists ds groups,
       m = ds ++ flat_map (cons 46%N) groups
       /\ Forall (fun c => is_digit c = true) ds
       /\ Forall digits1 groups
       /\ (forall d t', t = d :: t' -> is_digit d = true -> ds <> []).
Proof.
  revert m rest. induction t as [|c t IH]; intros m rest; simpl.
  - intros [= <- <-]. split; [reflexivity|].
    exists [], []. repeat split; auto; discriminate.
  - destruct (is_digit c) eqn:Ed.
    + destruct (match_int_tail t) as [m' r'] eqn:E'. intros [= <- <-].
      destruct (IH _ _ eq_refl) as (-> & ds & gs & -> & Hds & Hgs & _).
      split; [reflexivity|].
      exists (c :: ds), gs. repeat split; auto; discriminate.
    + assert (Hstop : forall m0 r0, ([] : text, c :: t) = (m0, r0) ->
                c :: t = m0 ++ r0
                /\ exists ds groups,
                     m0 = ds ++ flat_map (cons 46%N) groups
                     /\ Forall (fun c => is_digit c = true) ds
                     /\ Forall digits1 groups
                     /\ (forall d t', c :: t = d :: t' ->
                                      is_digit d = true -> ds <> [])).
      { intros m0 r0 [= <- <-]. split; [reflexivity|].
        exists [], []. repeat split; auto.
        intros d t' [= <- <-] Hd. congruence. }
      destruct (c =? 46)%N eqn:Ec; [|apply Hstop].
      destruct t as [|d t']; [apply Hstop|].
      destruct (is_digit d) eqn:Ed'; [|apply Hstop].
      destruct (match_int_tail (d :: t')) as [m' r'] eqn:E'.
      intros [= <- <-].
      destruct (IH _ _ eq_refl) as (Heq & ds & gs & -> & Hds & Hgs & Hne).
      apply N.eqb_eq in Ec as ->.
      split; [rewrite Heq; reflexivity|].
      exists [], (ds :: gs). simpl. repeat split; auto.
      * constructor; [|assumption].
        split; [eapply Hne; eauto|assumption].
      * intros d0 t0 [= <- <-] Hd. discriminate.
Qed.

Lemma match_fraction_spec (t f rest : text) :
  match_fraction t = (f, rest) ->
  t = f ++ rest /\ (f = [] \/ exists f', f = 44%N :: f' /\ digits1 f').
Proof.
  destruct t as [|c t]; simpl.
  - intros [= <- <-]. auto.
  - destruct (c =? 44)%N eqn:Ec; [|intros [= <- <-]; auto].
    destruct (span is_digit t) as [ds r] eqn:E.
    destruct (span_spec _ _ _ _ E) as [-> Hds].
    apply N.eqb_eq in Ec as ->.
    destruct ds as [|d ds]; intros [= <- <-]; [auto|].
    split; [reflexivity|]. right. eexists. split; [reflexivity|].
    split; [discriminate|assumption].
Qed.

Lemma match_number_spec (t number rest : text) :
  match_number t = Some (number, rest) ->
  t = number ++ rest /\ numeral number.
Proof.
  destruct t as [|d t]; simpl; [discriminate|].
  destruct (is_digit d) eqn:Ed; [|discriminate].
  destruct (match_int_tail t) as [tail r1] eqn:E1.
  destruct (match_fraction r1) as [frac r2] eqn:E2.
  intros [= <- <-].
  destruct (match_int_tail_spec _ _ _ E1) as (-> & ds & gs & -> & Hds & Hgs & _).
  destruct (match_fraction_spec _ _ _ E2) as (-> & Hfrac).
  split; [simpl; rewrite <- !app_assoc; reflexivity|].
  replace (d :: (ds ++ flat_map (cons 46%N) gs) ++ frac)
    with ((d :: ds) ++ flat_map (cons 46%N) gs ++ frac)
    by (simpl; rewrite <- app_assoc; reflexivity).
  constructor; auto. split; [discriminate|]. constructor; assumption.
Qed.

Lemma numeral_head (number : text) :
  numeral number -> exists d rest, number = d :: rest.
Proof.
  intros [int gs frac [Hne _] _ _].
  destruct int as [|d int]; [congruence|]. simpl. eauto.
Qed.

Lemma head_app_nonempty (l1 l2 l3 : text) :
  l2 <> [] -> head (l1 ++ l2 ++ l3) = head (l1 ++ l2).
Proof.
  intros Hne. destruct l1; [|reflexivity].
  destruct l2; [congruence|reflexivity].
Qed.

Lemma match_at_spec (label : text) (pos : nat) (before : option N)
    (t : text) (m : match_object) :
  match_at label pos before t = Some m ->
  start m = pos
  /\ (exists rest,
         t = matched_label m ++ matched_separator m ++ group1 m ++ rest)
  /\ match_describes label before m.
Proof.
  unfold match_at.
  destruct (at_boundary before (head t)) eqn:Hb1; [|discriminate].
  destruct (match_literals label t) as [[lab r1]|] eqn:El; [|discriminate].
  destruct (at_boundary _ (head r1)) eqn:Hb2; [|discriminate].
  destruct (span isspace r1) as [ws1 r2] eqn:E1.
  destruct (match_punct r2) as [punct r3] eqn:E2.
  destruct (span isspace r3) as [ws2 r4] eqn:E3.
  destruct (match_number r4) as [[number r5]|] eqn:E4; [|discriminate].
  intros [= <-]. simpl.
  destruct (match_literals_spec _ _ _ _ El) as [-> Hsp].
  destruct (span_spec _ _ _ _ E1) as [-> Hws1].
  destruct (match_punct_spec _ _ _ E2) as [-> Hp].
  destruct (span_spec _ _ _ _ E3) as [-> Hws2].
  destruct (match_number_spec _ _ _ E4) as [-> Hnum].
  destruct (numeral_head _ Hnum) as (d & nrest & ->).
  split; [reflexivity|]. split.
  - exists r5. rewrite <- !app_assoc. reflexivity.
  - unfold match_describes; simpl.
    split; [assumption|]. split; [|split; [|split; [|assumption]]].
    + rewrite <- Hb1. f_equal.
      transitivity (head ((lab ++ ws1 ++ punct ++ ws2) ++ (d :: nrest) ++ r5)).
      * rewrite (head_app_nonempty (lab ++ ws1 ++ punct ++ ws2)
                                   (d :: nrest) r5) by discriminate.
        rewrite <- !app_assoc. reflexivity.
      * rewrite <- !app_assoc. reflexivity.
    + rewrite <- Hb2. f_equal.
      transitivity (head ((ws1 ++ punct ++ ws2) ++ (d :: nrest) ++ r5)).
      * rewrite (head_app_nonempty (ws1 ++ punct ++ ws2) (d :: nrest) r5)
          by discriminate.
        reflexivity.
      * rewrite <- !app_assoc. reflexivity.
    + exists ws1, punct, ws2. auto.
Qed.

Lemma finditer_from_spec (label : text) (t pre : text) (pos skip : nat)
    (before : option N) (m : match_object) :
  pos = length pre -> before = last pre ->
  In m (finditer_from label pos skip before t) ->
  exists mid rest,
    t = mid ++ matched_label m ++ matched_separator m ++ group1 m ++ rest
    /\ start m = length (pre ++ mid)
    /\ match_describes label (last (pre ++ mid)) m.
Proof.
  revert pre pos skip before.
  induction t as [|c t IH]; intros pre pos skip before Hpos Hbefore Hin;
    simpl in Hin; [contradiction|].
  assert (Hnext : forall skip',
             In m (finditer_from label (S pos) skip' (Some c) t) ->
             exists mid rest,
               c :: t = mid ++ matched_label m ++ matched_separator m
                            ++ group1 m ++ rest
               /\ start m = length (pre ++ mid)
               /\ match_describes label (last (pre ++ mid)) m).
  { intros skip' Hin'.
    destruct (IH (pre ++ [c]) (S pos) skip' (Some c)) as (mid & rest & -> & Hs & Hd).
    - rewrite length_app. simpl. lia.
    - rewrite last_snoc. reflexivity.
    - assumption.
    - exists (c :: mid), rest.
      rewrite <- app_assoc in Hs, Hd. simpl in Hs, Hd. auto. }
  destruct skip as [|skip']; [|eapply Hnext; eassumption].
  destruct (match_at label pos before (c :: t)) as [m0|] eqn:Em;
    [|eapply Hnext; eassumption].
  destruct Hin as [<-|Hin]; [|eapply Hnext; eassumption].
  destruct (match_at_spec _ _ _ _ _ Em) as (Hs & [rest Hrest] & Hd).
  exists [], rest. rewrite app_nil_r. subst. auto.
Qed.

Lemma finditer_spec (label line : text) (m : match_object) :
  In m (finditer label line) ->
  exists before after,
    line = before ++ matched_label m ++ matched_separator m ++ group1 m
                  ++ after
    /\ start m = length before
    /\ match_describes label (last before) m.
Proof.
  intros Hin.
  destruct (finditer_from_spec label line [] 0 0 None m eq_refl eq_refl Hin)
    as (mid & rest & ? & ? & ?).
  exists mid, rest. auto.
Qed.

End Matcher.

(** ** Extraction is anchored to labels *)

Section Extraction.
Import Py Re FinancialLabelExtractor LabelSpec.
Context {tables : UnicodeTables}.

Lemma vocabulary_labels_nonempty (label : text) (field : string) :
  In (label, field) ROTULOS_VALIDOS -> label <> [].
Proof.
  intros Hin.
  assert (Hall : forallb (fun p : text * string =>
                            match p.1 with [] => false | _ => true end)
                         ROTULOS_VALIDOS = true) by reflexivity.
  rewrite forallb_forall in Hall. specialize (Hall _ Hin).
  simpl in Hall. destruct label; [discriminate|discriminate].
Qed.

Lemma value_of_match_fields (label : text) (field : string) (linha : text)
    (page_num : Z) (m : match_object) :
  let r := value_of_match label field linha page_num m in
  rotulo r = label /\ campo r = field /\ valor_texto r = group1 m
  /\ pagina r = page_num /\ linha_original r = strip linha.
Proof.
  cbv zeta. unfold value_of_match.
  destruct (parse_brazilian_number (group1 m)); simpl; auto.
Qed.

Lemma extract_from_line_inv (linha : text) (page_num : Z) (r : labeled_value) :
  In r (extract_from_line linha page_num) ->
  exists label field m,
    In (label, field) ROTULOS_VALIDOS
    /\ In m (finditer label linha)
    /\ r = value_of_match label field linha page_num m.
Proof.
  unfold extract_from_line. intros Hin.
  apply in_flat_map in Hin as ([label field] & Hvoc & Hin).
  apply in_map_iff in Hin as (m & <- & Hm).
  eauto 6.
Qed.

Lemma extract_from_line_anchored (linha : text) (page_num : Z)
    (r : labeled_value) :
  In r (extract_from_line linha page_num) ->
  label_anchored linha r /\ pagina r = page_num.
Proof.
  intros Hin.
  apply extract_from_line_inv in Hin as (label & field & m & Hvoc & Hm & ->).
  destruct (value_of_match_fields label field linha page_num m)
    as (Hr & Hc & Hv & Hp & _).
  split; [|assumption].
  apply finditer_spec in Hm as (before & after & Hline & _ & Hd).
  destruct Hd as (Hsp & Hb1 & Hb2 & Hsep & Hnum).
  exists label, field, before, (matched_label m), (matched_separator m), after.
  rewrite Hr, Hc, Hv.
  assert (Hlab : exists c, last (matched_label m) = Some c).
  { pose proof (vocabulary_labels_nonempty _ _ Hvoc) as Hne.
    destruct (matched_label m) as [|c lab] using rev_ind.
    - inversion Hsp; subst. congruence.
    - rewrite last_snoc. eauto. }
  destruct Hlab as [c Hc']. rewrite Hc' in Hb2 |- *.
  auto 10.
Qed.

(** Grouping by field neither adds nor drops a value, and files each one
    under its own field. *)
Lemma append_to_field_inv (groups : list (string * list labeled_value))
    (valor : labeled_value) (c : string) (vs : list labeled_value)
    (v : labeled_value) :
  In (c, vs) (append_to_field groups valor) -> In v vs ->
  (v = valor /\ c = campo valor)
  \/ exists vs0, In (c, vs0) groups /\ In v vs0.
Proof.
  induction groups as [|[c0 vs0] groups IH]; simpl.
  - intros [[= <- <-]|[]] [<-|[]]. auto.
  - destruct (String.eqb c0 (campo valor)) eqn:E.
    + apply String.eqb_eq in E. intros [[= <- <-]|Hin] Hv.
      * apply in_app_or in Hv as [Hv|[<-|[]]]; [right|left]; eauto.
      * right. eauto.
    + intros [[= <- <-]|Hin] Hv.
      * right. eauto.
      * destruct (IH Hin Hv) as [?|(vs1 & ? & ?)]; [left|right]; eauto.
Qed.

Lemma group_by_field_inv (vals : list labeled_value)
    (groups : list (string * list labeled_value))
    (c : string) (vs : list labeled_value) (v : labeled_value) :
  In (c, vs) (fold_left append_to_field vals groups) -> In v vs ->
  (In v vals /\ c = campo v)
  \/ exists vs0, In (c, vs0) groups /\ In v vs0.
Proof.
  revert groups. induction vals as [|valor vals IH]; intros groups; simpl.
  - eauto.
  - intros Hin Hv. destruct (IH _ Hin Hv) as [[? ?]|(vs0 & Hin0 & Hv0)];
      [left; auto|].
    destruct (append_to_field_inv _ _ _ _ _ Hin0 Hv0) as [[-> ->]|?];
      [left|right]; auto.
Qed.

(** C1. Every value [extract_from_line] returns for a line stands on that
    line right after a label of [ROTULOS_VALIDOS]: the line reads
    [before ++ label ++ separator ++ numeral ++ after], where the label is
    spelled letter case aside between two word boundaries, the separator
    is white space with at most one [:] or [-], and the numeral is the
    value's text; the value carries that label, the label's field and the
    page number. Every value [extract_from_text] files under a field has
    that field and is such a value of one of the lines of the text. No
    other value is produced. *)
Theorem extracted_values_are_label_anchored (texto linha : text)
    (page_num : Z) :
  (forall r,
      In r (extract_from_line linha page_num) ->
      label_anchored linha r /\ pagina r = page_num)
  /\ (forall field valores r,
        In (field, valores) (extract_from_text texto page_num) ->
        In r valores ->
        campo r = field
        /\ pagina r = page_num
        /\ exists linha',
             In linha' (split 10 texto) /\ label_anchored linha' r).
Proof.
  split; [intros r; apply extract_from_line_anchored|].
  intros field valores r Hin Hr. unfold extract_from_text in Hin.
  destruct (group_by_field_inv _ _ _ _ _ Hin Hr) as [[Hv ->]|(? & [] & _)].
  split; [reflexivity|].
  apply in_flat_map in Hv as (linha' & Hl & Hv).
  destruct (strip linha'); [contradiction|].
  apply extract_from_line_anchored in Hv as [? ?]. eauto.
Qed.

End Extraction.

(** ** The two scenarios of the specification *)

Set Warnings "-inexact-float".

Section Scenarios.
Import Py FinancialLabelExtractor.
Context {tables : UnicodeTables} {fsum : PyFloat.FloatSum}.

(** C4. On any page, the line [SALDO ANTERIOR 168.376,96] yields exactly
    one value: label SALDO ANTERIOR, field [saldo_anterior], status OK,
    read as the decimal 16837696e-2 (period for thousands, comma for
    decimals), stored as the float 168376.96. The line
    [SALDO ANTERIOR 3.254.269.459,98] yields exactly one value, SUSPEITO,
    with no number and with a reason; the totals computed from it have
    [total_saldo_anterior] blocked ([None]) with a reason, and the flag
    [tem_valores_suspeitos] set. *)
Theorem scenario_saldo_anterior (page_num : Z) :
  extract_from_line (u "SALDO ANTERIOR 168.376,96") page_num
  = [ {| rotulo := u "SALDO ANTERIOR"; campo := "saldo_anterior";
         valor_texto := u "168.376,96";
         valor_decimal := Some 168376.96%float;
         pagina := page_num;
         linha_original := u "SALDO ANTERIOR 168.376,96";
         status_validacao := OK; motivo := None;
         posicao_match := Some 0%nat |} ]
  /\ parse_brazilian_number (u "168.376,96")
     = Some {| Decimal.sign := false; Decimal.coefficient := 16837696;
               Decimal.exponent := -2 |}
  /\ extract_from_line (u "SALDO ANTERIOR 3.254.269.459,98") page_num
     = [ {| rotulo := u "SALDO ANTERIOR"; campo := "saldo_anterior";
            valor_texto := u "3.254.269.459,98";
            valor_decimal := None;
            pagina := page_num;
            linha_original := u "SALDO ANTERIOR 3.254.269.459,98";
            status_validacao := SUSPEITO;
            motivo := Some (u "Valor fora dos limites razoáveis: 3.254.269.459,98");
            posicao_match := None |} ]
  /\ (let totais :=
        calculate_totals_safe
          (extract_from_text (u "SALDO ANTERIOR 3.254.269.459,98") page_num) in
      totais !! "total_saldo_anterior"%string = Some VNone
      /\ totais !! "total_saldo_anterior_erro"%string
         = Some (VStr "1 valores suspeitos detectados")
      /\ totais !! "tem_valores_suspeitos"%string = Some (VBool true)
      /\ totais !! "campos_com_erro"%string
         = Some (VList ["saldo_anterior"%string])).
Proof.
  split; [vm_compute; reflexivity|].
  split; [vm_compute; reflexivity|].
  split; [vm_compute; reflexivity|].
  cbv zeta. repeat split; vm_compute; reflexivity.
Qed.

End Scenarios.

(** ** Field totals *)

Section TotalKeys.

Lemma list_ascii_of_string_app (a b : string) :
  list_ascii_of_string (a +:+ b)
  = list_ascii_of_string a ++ list_ascii_of_string b.
Proof. induction a as [|c a IH]; simpl; [reflexivity|]. rewrite IH. reflexivity. Qed.

Lemma list_ascii_of_string_inj (a b : string) :
  list_ascii_of_string a = list_ascii_of_string b -> a = b.
Proof.
  intros Heq.
  transitivity (string_of_list_ascii (list_ascii_of_string a)).
  - symmetry. apply string_of_list_ascii_of_string.
  - rewrite Heq. apply string_of_list_ascii_of_string.
Qed.

Lemma append_inv_tail (a b s : string) : a +:+ s = b +:+ s -> a = b.
Proof.
  intros Heq. apply list_ascii_of_string_inj.
  apply (f_equal list_ascii_of_string) in Heq.
  rewrite !list_ascii_of_string_app in Heq.
  eapply app_inv_tail. exact Heq.
Qed.

Lemma erro_count_differ (a b : string) : a +:+ "_erro" <> b +:+ "_count".
Proof.
  intros Heq. apply (f_equal list_ascii_of_string) in Heq.
  rewrite !list_ascii_of_string_app in Heq.
  apply (f_equal (@rev ascii)) in Heq.
  rewrite !rev_app_distr in Heq. simpl in Heq. discriminate.
Qed.

Lemma total_key_inj (a b : string) : "total_" +:+ a = "total_" +:+ b -> a = b.
Proof. intros Heq. cbn in Heq. injection Heq as Heq. exact Heq. Qed.

End TotalKeys.

Section Totals.
Import Py FinancialLabelExtractor.
Context {fsum : PyFloat.FloatSum}.

(** The keys the loop writes for one field. *)
Lemma totals_step_other (acc : gmap string value * list string)
    (field : string * list labeled_value) (k : string) :
  k <> "total_" +:+ field.1 ->
  k <> "total_" +:+ field.1 +:+ "_erro" ->
  k <> "total_" +:+ field.1 +:+ "_count" ->
  (totals_step acc field).1 !! k = acc.1 !! k.
Proof.
  destruct acc as [totais erros], field as [c vs]. simpl.
  intros H0 H1 H2. unfold totals_step.
  destruct (valores_suspeitos vs); [destruct (valores_ok vs);
    [|destruct (PyFloat.abs_gt _ _)]|]; simpl;
    rewrite ?lookup_insert_ne by congruence; reflexivity.
Qed.

Lemma totals_step_errors (acc : gmap string value * list string)
    (field : string * list labeled_value) :
  (totals_step acc field).2
  = acc.2 ++ (if blocks field.2 then [field.1] else []).
Proof.
  destruct acc as [totais erros], field as [c vs]. simpl.
  unfold totals_step, blocks.
  destruct (valores_suspeitos vs); [destruct (valores_ok vs);
    [|destruct (PyFloat.abs_gt _ _)]|]; simpl;
    rewrite ?app_nil_r; reflexivity.
Qed.

Lemma fold_totals_other (fields : list (string * list labeled_value))
    (acc : gmap string value * list string) (k : string) :
  (forall c vs, In (c, vs) fields ->
     k <> "total_" +:+ c /\ k <> "total_" +:+ c +:+ "_erro"
     /\ k <> "total_" +:+ c +:+ "_count") ->
  (fold_left totals_step fields acc).1 !! k = acc.1 !! k.
Proof.
  revert acc. induction fields as [|[c vs] fields IH]; intros acc Hk; simpl;
    [reflexivity|].
  rewrite IH by (intros; eapply Hk; right; eassumption).
  destruct (Hk c vs (or_introl eq_refl)) as (? & ? & ?).
  apply totals_step_other; assumption.
Qed.

Lemma fold_totals_errors (fields : list (string * list labeled_value))
    (acc : gmap string value * list string) :
  (fold_left totals_step fields acc).2
  = acc.2 ++ map fst (List.filter (fun f => blocks f.2) fields).
Proof.
  revert acc. induction fields as [|[c vs] fields IH]; intros acc; simpl.
  - rewrite app_nil_r. reflexivity.
  - rewrite IH, totals_step_errors. simpl.
    destruct (blocks vs); simpl; rewrite <- ?app_assoc, ?app_nil_r; reflexivity.
Qed.

(** The entries of a field right after its own turn of the loop. *)
Lemma totals_step_own (totais : gmap string value) (erros : list string)
    (c : string) (vs : list labeled_value) :
  c <> c +:+ "_erro" -> c <> c +:+ "_count" ->
  let r := (totals_step (totais, erros) (c, vs)).1 in
  match valores_suspeitos vs, valores_ok vs with
  | _ :: _, _ =>
      r !! ("total_" +:+ c) = Some VNone
      /\ r !! ("total_" +:+ c +:+ "_erro")
         = Some (VStr (str_of_Z (Z.of_nat (length (valores_suspeitos vs)))
                       +:+ " valores suspeitos detectados"))
  | [], [] =>
      r !! ("total_" +:+ c) = Some (VFloat 0)
      /\ r !! ("total_" +:+ c +:+ "_erro")
         = totais !! ("total_" +:+ c +:+ "_erro")
  | [], _ :: _ =>
      let total := PyFloat.float_sum (valores_ok vs) in
      if PyFloat.abs_gt total VALOR_MAX_RAZOAVEL
      then r !! ("total_" +:+ c) = Some VNone
           /\ r !! ("total_" +:+ c +:+ "_erro")
              = Some (VStr ("Total absurdo: " +:+ PyFloat.format_money total))
      else r !! ("total_" +:+ c) = Some (VFloat total)
           /\ r !! ("total_" +:+ c +:+ "_erro")
              = totais !! ("total_" +:+ c +:+ "_erro")
  end.
Proof.
  intros He Hc. cbv zeta.
  assert (K01 : "total_" +:+ c +:+ "_erro" <> "total_" +:+ c)
    by (intros E; apply total_key_inj in E; congruence).
  assert (K02 : "total_" +:+ c +:+ "_count" <> "total_" +:+ c)
    by (intros E; apply total_key_inj in E; congruence).
  assert (K12 : "total_" +:+ c +:+ "_count" <> "total_" +:+ c +:+ "_erro").
  { intros E. apply total_key_inj in E. symmetry in E.
    exact (erro_count_differ _ _ E). }
  unfold totals_step.
  destruct (valores_suspeitos vs) eqn:Es; [destruct (valores_ok vs) eqn:Eo;
    [|cbv zeta; destruct (PyFloat.abs_gt _ _)]|]; simpl.
  - rewrite !(lookup_insert_ne _ _ _ _ K02), !(lookup_insert_ne _ _ _ _ K12).
    rewrite lookup_insert_eq.
    rewrite (lookup_insert_ne _ ("total_" +:+ c) ("total_" +:+ c +:+ "_erro"))
      by congruence.
    auto.
  - rewrite (lookup_insert_ne _ _ _ _ K01), !lookup_insert_eq. auto.
  - rewrite !(lookup_insert_ne _ _ _ _ K02), !(lookup_insert_ne _ _ _ _ K12).
    rewrite lookup_insert_eq.
    rewrite (lookup_insert_ne _ ("total_" +:+ c) ("total_" +:+ c +:+ "_erro"))
      by congruence.
    auto.
  - rewrite !(lookup_insert_ne _ _ _ _ K02), !(lookup_insert_ne _ _ _ _ K12).
    rewrite (lookup_insert_ne _ _ _ _ K01), !lookup_insert_eq. auto.
Qed.

Lemma keys_apart (c c' : string) :
  c <> c' ->
  c <> c' +:+ "_erro" -> c <> c' +:+ "_count" -> c' <> c +:+ "_erro" ->
  ("total_" +:+ c <> "total_" +:+ c'
   /\ "total_" +:+ c <> "total_" +:+ c' +:+ "_erro"
   /\ "total_" +:+ c <> "total_" +:+ c' +:+ "_count")
  /\ ("total_" +:+ c +:+ "_erro" <> "total_" +:+ c'
      /\ "total_" +:+ c +:+ "_erro" <> "total_" +:+ c' +:+ "_erro"
      /\ "total_" +:+ c +:+ "_erro" <> "total_" +:+ c' +:+ "_count").
Proof.
  intros Hne H1 H2 H3.
  repeat split; intros E; apply total_key_inj in E.
  - congruence.
  - congruence.
  - congruence.
  - congruence.
  - apply append_inv_tail in E. congruence.
  - exact (erro_count_differ _ _ E).
Qed.

Lemma flag_keys_apart (k : string) :
  "campos_com_erro"%string <> "total_" +:+ k
  /\ "tem_valores_suspeitos"%string <> "total_" +:+ k.
Proof. split; intros E; cbn in E; discriminate. Qed.

(** The entries of a field in the final dictionary. *)
Lemma field_entries (valores_por_campo : list (string * list labeled_value))
    (campo : string) (valores : list labeled_value) :
  NoDup (map fst valores_por_campo) ->
  independent_fields (map fst valores_por_campo) ->
  In (campo, valores) valores_por_campo ->
  let totais := calculate_totals_safe valores_por_campo in
  let total := totais !! ("total_" +:+ campo) in
  let erro := totais !! ("total_" +:+ campo +:+ "_erro") in
  match valores_suspeitos valores, valores_ok valores with
  | _ :: _, _ =>
      total = Some VNone
      /\ erro = Some (VStr (str_of_Z (Z.of_nat (length (valores_suspeitos valores)))
                           +:+ " valores suspeitos detectados"))
  | [], [] => total = Some (VFloat 0) /\ erro = None
  | [], _ :: _ =>
      let soma := PyFloat.float_sum (valores_ok valores) in
      if PyFloat.abs_gt soma VALOR_MAX_RAZOAVEL
      then total = Some VNone
           /\ erro = Some (VStr ("Total absurdo: "
                                 +:+ PyFloat.format_money soma))
      else total = Some (VFloat soma) /\ erro = None
  end.
Proof.
  intros Hnd Hind Hin. cbv zeta.
  apply in_split in Hin as (l1 & l2 & ->).
  assert (Hself : In campo (map fst (l1 ++ (campo, valores) :: l2))).
  { rewrite map_app. apply in_or_app. right. left. reflexivity. }
  assert (Hothers : forall c vs, In (c, vs) (l1 ++ l2) ->
            ("total_" +:+ campo <> "total_" +:+ c
             /\ "total_" +:+ campo <> "total_" +:+ c +:+ "_erro"
             /\ "total_" +:+ campo <> "total_" +:+ c +:+ "_count")
            /\ ("total_" +:+ campo +:+ "_erro" <> "total_" +:+ c
                /\ "total_" +:+ campo +:+ "_erro" <> "total_" +:+ c +:+ "_erro"
                /\ "total_" +:+ campo +:+ "_erro" <> "total_" +:+ c +:+ "_count")).
  { intros c vs Hc.
    assert (Hc' : In c (map fst (l1 ++ (campo, valores) :: l2))).
    { rewrite map_app. rewrite in_app_iff in Hc |- *. simpl.
      destruct Hc as [Hc|Hc]; [left|right; right];
        apply (in_map fst) in Hc; exact Hc. }
    rewrite map_app in Hnd. simpl in Hnd.
    apply NoDup_app in Hnd as (_ & Hdisj & Hnd2).
    apply NoDup_cons in Hnd2 as [Hnotin _].
    assert (campo <> c).
    { intros ->. apply in_app_or in Hc as [Hc|Hc];
        apply (in_map fst) in Hc; apply list_elem_of_In in Hc.
      - apply (Hdisj _ Hc). left.
      - exact (Hnotin Hc). }
    destruct (Hind campo c Hself Hc') as [? ?].
    destruct (Hind c campo Hc' Hself) as [? ?].
    apply keys_apart; assumption. }
  destruct (Hind campo campo Hself Hself) as [Hse Hsc].
  unfold calculate_totals_safe.
  rewrite fold_left_app. simpl.
  destruct (fold_left totals_step l1 (∅, [])) as [t1 e1] eqn:E1.
  destruct (fold_left totals_step l2 (totals_step (t1, e1) (campo, valores)))
    as [t2 e2] eqn:E2.
  destruct (flag_keys_apart campo) as [F1 F2].
  destruct (flag_keys_apart (campo +:+ "_erro")) as [G1 G2].
  rewrite !(lookup_insert_ne _ _ _ _ F1), !(lookup_insert_ne _ _ _ _ F2).
  rewrite !(lookup_insert_ne _ _ _ _ G1), !(lookup_insert_ne _ _ _ _ G2).
  assert (Ht2 : forall k,
             (forall c vs, In (c, vs) l2 ->
                k <> "total_" +:+ c /\ k <> "total_" +:+ c +:+ "_erro"
                /\ k <> "total_" +:+ c +:+ "_count") ->
             t2 !! k = (totals_step (t1, e1) (campo, valores)).1 !! k).
  { intros k Hk. change t2 with (t2, e2).1. rewrite <- E2.
    apply fold_totals_other. exact Hk. }
  rewrite !Ht2
    by (intros c vs Hc; apply (Hothers c vs); apply in_or_app; right; exact Hc).
  assert (Ht1 : t1 !! ("total_" +:+ campo +:+ "_erro") = None).
  { change t1 with (t1, e1).1. rewrite <- E1.
    rewrite fold_totals_other; [apply lookup_empty|].
    intros c vs Hc. apply (Hothers c vs). apply in_or_app. left. exact Hc. }
  pose proof (totals_step_own t1 e1 campo valores Hse Hsc) as Hown.
  cbv zeta in Hown. rewrite Ht1 in Hown. exact Hown.
Qed.

End Totals.

Section TotalsClaim.
Import Py FinancialLabelExtractor.
Context {fsum : PyFloat.FloatSum}.

Lemma total_none_iff_blocked
    (valores_por_campo : list (string * list labeled_value))
    (campo : string) (valores : list labeled_value) :
  NoDup (map fst valores_por_campo) ->
  independent_fields (map fst valores_por_campo) ->
  In (campo, valores) valores_por_campo ->
  calculate_totals_safe valores_por_campo !! ("total_" +:+ campo) = Some VNone
  <-> blocks valores = true.
Proof.
  intros Hnd Hind Hin.
  pose proof (field_entries _ _ _ Hnd Hind Hin) as He. cbv zeta in He.
  unfold blocks.
  destruct (valores_suspeitos valores); [destruct (valores_ok valores)|].
  - destruct He as [-> _]. split; discriminate.
  - destruct (PyFloat.abs_gt _ _); destruct He as [-> _];
      split; (reflexivity || discriminate).
  - destruct He as [-> _]. split; reflexivity.
Qed.

Lemma valores_suspeitos_count (valores : list labeled_value) :
  length (valores_suspeitos valores) = TotalsSpec.suspect_count valores.
Proof.
  unfold valores_suspeitos.
  induction valores as [|v valores IH]; [reflexivity|].
  cbn [List.filter TotalsSpec.suspect_count].
  destruct (status_validacao v).
  - rewrite bool_decide_eq_false_2 by discriminate. exact IH.
  - rewrite bool_decide_eq_true_2 by reflexivity.
    cbn [length]. rewrite IH. reflexivity.
Qed.

Lemma valores_ok_amounts (valores : list labeled_value) :
  valores_ok valores = TotalsSpec.ok_amounts valores.
Proof.
  unfold valores_ok.
  induction valores as [|v valores IH]; [reflexivity|].
  cbn [omap list_omap TotalsSpec.ok_amounts].
  destruct (status_validacao v).
  - rewrite bool_decide_eq_true_2 by reflexivity.
    destruct (valor_decimal v); rewrite IH; reflexivity.
  - rewrite bool_decide_eq_false_2 by discriminate. exact IH.
Qed.

Lemma suspect_count_positive (valores : list labeled_value) :
  (exists v, In v valores /\ status_validacao v = SUSPEITO)
  <-> (0 < TotalsSpec.suspect_count valores)%nat.
Proof.
  induction valores as [|v valores IH]; cbn [TotalsSpec.suspect_count].
  - split; [intros (v & [] & _)|lia].
  - destruct (status_validacao v) eqn:Ev.
    + rewrite <- IH. split.
      * intros (w & [<-|Hw] & Hs); [congruence|eauto].
      * intros (w & Hw & Hs). exists w. split; [right|]; assumption.
    + split; [lia|]. intros _. exists v. split; [left; reflexivity|exact Ev].
Qed.

(** C2. For the fields of an input whose names do not clash (no name is
    another name followed by [_erro] or [_count]; the fields of the
    vocabulary are such): a field with at least one SUSPEITO value has its
    total blocked ([None]) with a reason that gives the number of suspect
    values, whatever OK values it also holds; a field without one has as
    total the sum of the amounts of its OK values (0.0 when it has none),
    unless the absolute value of that sum exceeds 1,000,000,000, in which
    case the total is blocked with a reason too; a total that is not
    blocked has no reason entry. The flag [tem_valores_suspeitos] is true
    exactly when some field's total is blocked. *)
Theorem field_totals_blocked_or_summed
    (valores_por_campo : list (string * list labeled_value)) :
  NoDup (map fst valores_por_campo) ->
  independent_fields (map fst valores_por_campo) ->
  let totais := calculate_totals_safe valores_por_campo in
  (forall campo valores,
      In (campo, valores) valores_por_campo ->
      let total := totais !! ("total_" +:+ campo) in
      let erro := totais !! ("total_" +:+ campo +:+ "_erro") in
      ((exists v, In v valores /\ status_validacao v = SUSPEITO) ->
       total = Some VNone
       /\ erro = Some (VStr (str_of_Z (Z.of_nat (TotalsSpec.suspect_count
                                                   valores))
                            +:+ " valores suspeitos detectados")))
      /\ ((forall v, In v valores -> status_validacao v = OK) ->
          match TotalsSpec.ok_amounts valores with
          | [] => total = Some (VFloat 0) /\ erro = None
          | _ :: _ =>
              let soma := PyFloat.float_sum (TotalsSpec.ok_amounts valores) in
              if PyFloat.abs_gt soma 1000000000
              then total = Some VNone
                   /\ erro = Some (VStr ("Total absurdo: "
                                         +:+ PyFloat.format_money soma))
              else total = Some (VFloat soma) /\ erro = None
          end))
  /\ exists flag,
       totais !! "tem_valores_suspeitos"%string = Some (VBool flag)
       /\ (flag = true <->
           exists campo valores,
             In (campo, valores) valores_por_campo
             /\ totais !! ("total_" +:+ campo) = Some VNone).
Proof.
  intros Hnd Hind. cbv zeta. split.
  - intros campo valores Hin.
    pose proof (field_entries _ _ _ Hnd Hind Hin) as He. cbv zeta in He.
    pose proof (valores_suspeitos_count valores) as Hcount.
    rewrite (valores_ok_amounts valores) in He.
    split.
    + intros Hsus. apply suspect_count_positive in Hsus.
      rewrite <- Hcount in Hsus |- *.
      destruct (valores_suspeitos valores); [simpl in Hsus; lia|exact He].
    + intros Hok.
      assert (H0 : TotalsSpec.suspect_count valores = 0%nat).
      { destruct (TotalsSpec.suspect_count valores) eqn:E; [reflexivity|].
        assert (Hpos : (0 < TotalsSpec.suspect_count valores)%nat) by lia.
        apply suspect_count_positive in Hpos as (v & Hv & Hs).
        rewrite (Hok v Hv) in Hs. discriminate. }
      rewrite H0 in Hcount.
      destruct (valores_suspeitos valores); [|discriminate].
      exact He.
  - exists (0 <? length (map fst (List.filter (fun f => blocks f.2)
                                              valores_por_campo)))%nat.
    split.
    + unfold calculate_totals_safe.
      destruct (fold_left totals_step valores_por_campo (∅, []))
        as [t e] eqn:E.
      rewrite lookup_insert_ne by discriminate.
      rewrite lookup_insert_eq.
      change e with (t, e).2. rewrite <- E, fold_totals_errors. reflexivity.
    + rewrite length_map. split.
      * intros Hflag.
        destruct (List.filter (fun f => blocks f.2) valores_por_campo)
          as [|[c vs] rest] eqn:Ef; [discriminate|].
        assert (Hin : In (c, vs) (List.filter (fun f => blocks f.2)
                                              valores_por_campo))
          by (rewrite Ef; left; reflexivity).
        apply filter_In in Hin as [Hin Hb]. simpl in Hb.
        exists c, vs. split; [assumption|].
        apply (total_none_iff_blocked _ _ _ Hnd Hind Hin). exact Hb.
      * intros (c & vs & Hin & Hnone).
        apply (total_none_iff_blocked _ _ _ Hnd Hind Hin) in Hnone.
        assert (Hf : In (c, vs) (List.filter (fun f => blocks f.2)
                                             valores_por_campo))
          by (apply filter_In; auto).
        destruct (List.filter _ _); [contradiction|reflexivity].
Qed.

End TotalsClaim.

Section TotalsInputs.
Import Py Re FinancialLabelExtractor.

(** A check that decides [independent_fields] on a given list. *)
Lemma independent_fields_check (campos : list string) :
  forallb (fun c1 =>
             forallb (fun c2 =>
                        negb (String.eqb c1 (c2 +:+ "_erro"))
                        && negb (String.eqb c1 (c2 +:+ "_count")))
                     campos)
          campos = true ->
  independent_fields campos.
Proof.
  intros Hall c1 c2 H1 H2.
  rewrite forallb_forall in Hall. specialize (Hall c1 H1).
  rewrite forallb_forall in Hall. specialize (Hall c2 H2).
  apply andb_true_iff in Hall as [Ha Hb].
  apply negb_true_iff, String.eqb_neq in Ha.
  apply negb_true_iff, String.eqb_neq in Hb. auto.
Qed.

(** The fields of the vocabulary do not clash. *)
Lemma canonical_fields_independent (campos : list string) :
  Forall canonical_field campos -> independent_fields campos.
Proof.
  intros Hall c1 c2 H1 H2.
  rewrite Forall_forall in Hall.
  apply (independent_fields_check (map snd ROTULOS_VALIDOS));
    [vm_compute; reflexivity| |].
  - apply (Hall c1). apply list_elem_of_In. exact H1.
  - apply (Hall c2). apply list_elem_of_In. exact H2.
Qed.

Lemma append_to_field_keys (groups : list (string * list labeled_value))
    (valor : labeled_value) :
  NoDup (map fst groups) ->
  NoDup (map fst (append_to_field groups valor))
  /\ (forall c, In c (map fst (append_to_field groups valor)) ->
                c = campo valor \/ In c (map fst groups)).
Proof.
  induction groups as [|[c0 vs0] groups IH]; simpl; intros Hnd.
  - split; [repeat constructor; apply not_elem_of_nil|].
    intros c [<-|[]]. auto.
  - apply NoDup_cons in Hnd as [Hnotin Hnd].
    destruct (String.eqb c0 (campo valor)) eqn:E; simpl.
    + split; [apply NoDup_cons; auto|]. intros c Hc. auto.
    + destruct (IH Hnd) as [Hnd' Hsub].
      apply String.eqb_neq in E.
      split.
      * apply NoDup_cons. split; [|assumption].
        intros Hin. apply list_elem_of_In in Hin.
        destruct (Hsub _ Hin) as [->|Hin']; [congruence|].
        apply Hnotin, list_elem_of_In, Hin'.
      * intros c [<-|Hc]; [auto|].
        destruct (Hsub _ Hc); auto.
Qed.

Lemma group_by_field_keys (vals : list labeled_value)
    (groups : list (string * list labeled_value)) :
  NoDup (map fst groups) ->
  NoDup (map fst (fold_left append_to_field vals groups))
  /\ (forall c, In c (map fst (fold_left append_to_field vals groups)) ->
                (exists v, In v vals /\ c = campo v) \/ In c (map fst groups)).
Proof.
  revert groups. induction vals as [|v vals IH]; intros groups Hnd; simpl.
  - auto.
  - destruct (append_to_field_keys groups v Hnd) as [Hnd' Hsub].
    destruct (IH _ Hnd') as [Hnd'' Hsub'].
    split; [assumption|].
    intros c Hc. destruct (Hsub' c Hc) as [(v' & ? & ?)|Hc']; [eauto|].
    destruct (Hsub c Hc') as [->|?]; eauto.
Qed.

(** What [extract_from_text] returns is an input the theorem on totals
    applies to: its field names are distinct fields of the vocabulary. *)
Lemma extract_from_text_fields {tables : UnicodeTables} (texto : text)
    (page_num : Z) :
  let campos := map fst (extract_from_text texto page_num) in
  NoDup campos /\ Forall canonical_field campos
  /\ independent_fields campos.
Proof.
  cbv zeta.
  assert (Hnil : NoDup (map fst ([] : list (string * list labeled_value))))
    by constructor.
  unfold extract_from_text.
  destruct (group_by_field_keys
              (flat_map (fun linha => match strip linha with
                                      | [] => []
                                      | _ => extract_from_line linha page_num
                                      end) (split 10 texto))
              [] Hnil) as [Hnd Hsub].
  assert (Hcanon : Forall canonical_field
            (map fst (fold_left append_to_field
               (flat_map (fun linha => match strip linha with
                                       | [] => []
                                       | _ => extract_from_line linha page_num
                                       end) (split 10 texto)) []))).
  { apply Forall_forall. intros c Hc. apply list_elem_of_In in Hc.
    destruct (Hsub c Hc) as [(v & Hv & ->)|[]].
    apply in_flat_map in Hv as (linha & _ & Hv).
    destruct (strip linha); [contradiction|].
    apply extract_from_line_inv in Hv as (label & field & m & Hvoc & _ & ->).
    destruct (value_of_match_fields label field linha page_num m)
      as (_ & -> & _).
    unfold canonical_field. apply (in_map snd) in Hvoc. exact Hvoc. }
  split; [assumption|]. split; [assumption|].
  apply canonical_fields_independent. assumption.
Qed.

Lemma field_totals_blocked_or_summed_witness :
  let fsum := PyFloat.chained_sum in
  let valores_por_campo := TotalsSample.fields in
  let totais := calculate_totals_safe valores_por_campo in
  (forall campo valores,
      In (campo, valores) valores_por_campo ->
      let total := totais !! ("total_" +:+ campo) in
      let erro := totais !! ("total_" +:+ campo +:+ "_erro") in
      ((exists v, In v valores /\ status_validacao v = SUSPEITO) ->
       total = Some VNone
       /\ erro = Some (VStr (str_of_Z (Z.of_nat (TotalsSpec.suspect_count
                                                   valores))
                            +:+ " valores suspeitos detectados")))
      /\ ((forall v, In v valores -> status_validacao v = OK) ->
          match TotalsSpec.ok_amounts valores with
          | [] => total = Some (VFloat 0) /\ erro = None
          | _ :: _ =>
              let soma := PyFloat.float_sum (TotalsSpec.ok_amounts valores) in
              if PyFloat.abs_gt soma 1000000000
              then total = Some VNone
                   /\ erro = Some (VStr ("Total absurdo: "
                                         +:+ PyFloat.format_money soma))
              else total = Some (VFloat soma) /\ erro = None
          end))
  /\ exists flag,
       totais !! "tem_valores_suspeitos"%string = Some (VBool flag)
       /\ (flag = true <->
           exists campo valores,
             In (campo, valores) valores_por_campo
             /\ totais !! ("total_" +:+ campo) = Some VNone).
Proof.
  cbv zeta.
  apply (@field_totals_blocked_or_summed PyFloat.chained_sum TotalsSample.fields).
  - apply (bool_decide_unpack (NoDup (map fst TotalsSample.fields))).
    vm_compute. exact I.
  - apply independent_fields_check. vm_compute. reflexivity.
Defined.

(** The totals of the sample: [saldo] is blocked by its one suspect value
    although it has an OK value of 100.00; [entrada] is the sum 30.75. *)
Example sample_totals :
  let totais := @calculate_totals_safe PyFloat.chained_sum TotalsSample.fields in
  totais !! "total_saldo"%string = Some VNone
  /\ totais !! "total_saldo_erro"%string
     = Some (VStr "1 valores suspeitos detectados")
  /\ totais !! "total_entrada"%string = Some (VFloat 30.75)
  /\ totais !! "total_entrada_erro"%string = None
  /\ totais !! "tem_valores_suspeitos"%string = Some (VBool true).
Proof. cbv zeta. repeat split; vm_compute; reflexivity. Qed.

End TotalsInputs.

(** ** Movements and their totals *)

Section Movements.
Import Py FinancialLabelExtractor SafeConvenioExtractor MovementSpec.

Ltac campo_cases c :=
  repeat match goal with
         | |- context [String.eqb c ?s] =>
             destruct (String.eqb_spec c s) as [->|?]; cbn
         end.

Lemma slots_of_spec (c : string) (valor : option float) :
  let '(entrada, saida, saldo, aplicacao, resgate, rendimentos,
        tarifa_paga, tarifa_devolvida) := slots_of c valor in
  entrada = (if feeds_entrada c then valor else Some 0%float)
  /\ saida = (if feeds_saida c then valor else Some 0%float)
  /\ aplicacao = (if String.eqb c "aplicacao" then valor else None)
  /\ resgate = (if String.eqb c "resgate" then valor else None)
  /\ rendimentos
     = (if existsb (String.eqb c)
             ["rendimento"; "rendimento_bruto"; "rendimento_liquido"]%string
        then valor else None)
  /\ tarifa_paga = (if String.eqb c "tarifa_paga" then valor else None)
  /\ tarifa_devolvida
     = (if String.eqb c "tarifa_devolvida" then valor else None).
Proof.
  unfold slots_of, feeds_entrada, feeds_saida. cbn.
  campo_cases c; repeat split; reflexivity.
Qed.

Lemma create_movimentacao_slots (uuid : string) (v : labeled_value)
    (documento_id : string) (page_num : Z) :
  let mov := _create_movimentacao_from_label uuid v documento_id page_num in
  let valor := valor_decimal v in
  entrada mov = (if feeds_entrada (campo v) then valor else Some 0%float)
  /\ saida mov = (if feeds_saida (campo v) then valor else Some 0%float)
  /\ aplicacao mov = (if String.eqb (campo v) "aplicacao" then valor else None)
  /\ resgate mov = (if String.eqb (campo v) "resgate" then valor else None)
  /\ rendimentos mov
     = (if existsb (String.eqb (campo v))
             ["rendimento"; "rendimento_bruto"; "rendimento_liquido"]%string
        then valor else None)
  /\ tarifa_paga mov
     = (if String.eqb (campo v) "tarifa_paga" then valor else None)
  /\ tarifa_devolvida mov
     = (if String.eqb (campo v) "tarifa_devolvida" then valor else None)
  /\ valor_validado mov = true.
Proof.
  cbv zeta. unfold _create_movimentacao_from_label.
  pose proof (slots_of_spec (campo v) (valor_decimal v)) as Hs.
  destruct (slots_of (campo v) (valor_decimal v))
    as [[[[[[[e s] sd] a] r] rd] tp] td].
  simpl. destruct Hs as (? & ? & ? & ? & ? & ? & ?). auto 10.
Qed.

Lemma or_zero_amount (valor : option float) :
  PyFloat.or_zero valor = amount valor.
Proof.
  destruct valor as [x|]; [|reflexivity].
  unfold PyFloat.or_zero, amount. rewrite FloatAxioms.eqb_spec.
  change (Prim2SF 0) with (S754_zero false).
  destruct (Prim2SF x) as [[|]|[|]| |[|] m e]; reflexivity.
Qed.

Lemma add_created (uuid : string) (v : labeled_value) (documento_id : string)
    (page_num : Z) (acc : sums) :
  add_movimentacao acc
    (_create_movimentacao_from_label uuid v documento_id page_num)
  = {| total_entrada := total_entrada acc + entrada_of v;
       total_saida := total_saida acc + saida_of v;
       total_aplicacao := total_aplicacao acc + aplicacao_of v;
       total_resgate := total_resgate acc + resgate_of v;
       total_rendimentos := total_rendimentos acc + rendimentos_of v |}%float.
Proof.
  destruct (create_movimentacao_slots uuid v documento_id page_num)
    as (He & Hs & Ha & Hr & Hd & _ & _ & Hv).
  unfold add_movimentacao. rewrite Hv. cbv zeta in He, Hs, Ha, Hr, Hd.
  rewrite He, Hs, Ha, Hr, Hd.
  unfold entrada_of, saida_of, aplicacao_of, resgate_of, rendimentos_of.
  f_equal; f_equal;
    match goal with
    | |- PyFloat.or_zero (if ?b then _ else _) = _ =>
        destruct b; [apply or_zero_amount|reflexivity]
    end.
Qed.

Lemma accumulate_created (uuids : nat -> string) (valores : list labeled_value)
    (documento_id : string) (page_num : Z) (acc : sums) :
  let movs := imap (fun i v => _create_movimentacao_from_label
                                 (uuids i) v documento_id page_num) valores in
  let sum_from adds init :=
    fold_left (fun a v => (a + adds v)%float) valores init in
  fold_left add_movimentacao movs acc
  = {| total_entrada := sum_from entrada_of (total_entrada acc);
       total_saida := sum_from saida_of (total_saida acc);
       total_aplicacao := sum_from aplicacao_of (total_aplicacao acc);
       total_resgate := sum_from resgate_of (total_resgate acc);
       total_rendimentos := sum_from rendimentos_of (total_rendimentos acc) |}.
Proof.
  cbv zeta. revert uuids acc.
  induction valores as [|v valores IH]; intros uuids acc;
    [destruct acc; reflexivity|].
  cbn [imap fold_left]. rewrite add_created.
  rewrite (IH (uuids ∘ S)). reflexivity.
Qed.

Lemma accumulate_running_sums (uuids : nat -> string)
    (valores : list labeled_value) (documento_id : string) (page_num : Z) :
  accumulate (imap (fun i v => _create_movimentacao_from_label
                                 (uuids i) v documento_id page_num) valores)
  = {| total_entrada := running_sum entrada_of valores;
       total_saida := running_sum saida_of valores;
       total_aplicacao := running_sum aplicacao_of valores;
       total_resgate := running_sum resgate_of valores;
       total_rendimentos := running_sum rendimentos_of valores |}.
Proof.
  unfold accumulate. rewrite accumulate_created. reflexivity.
Qed.

Lemma calculate_safe_totals_returns (movs : list movimentacao) :
  match _calculate_safe_totals movs with
  | inr totais =>
      totais !! "total_entrada"%string
      = Some (VFloat (total_entrada (accumulate movs)))
      /\ totais !! "total_saida"%string
         = Some (VFloat (total_saida (accumulate movs)))
      /\ PyFloat.abs_gt (total_entrada (accumulate movs)) MAX_RAZOAVEL = false
      /\ PyFloat.abs_gt (total_saida (accumulate movs)) MAX_RAZOAVEL = false
  | inl e =>
      e = RuntimeError "dictionary changed size during iteration"
      /\ existsb absurd
           [ VFloat (total_entrada (accumulate movs));
             VFloat (total_saida (accumulate movs));
             VFloat (total_entrada (accumulate movs)
                     - total_saida (accumulate movs));
             VFloat (total_aplicacao (accumulate movs));
             VFloat (total_resgate (accumulate movs));
             VFloat (total_rendimentos (accumulate movs));
             VInt (Z.of_nat (length movs)) ] = true
  end.
Proof.
  unfold _calculate_safe_totals.
  generalize (accumulate movs) as s. intros s.
  generalize (Z.of_nat (length movs)) as n. intros n.
  match goal with
  | |- match (if ?b then _ else _) with _ => _ end => destruct b eqn:E
  end.
  - split; [reflexivity|exact E].
  - cbn [existsb snd absurd] in E.
    apply orb_false_iff in E as [E1 E].
    apply orb_false_iff in E as [E2 _].
    repeat split; first [reflexivity | assumption].
Qed.

(** C10. A movement built from a labelled value carries the value in the
    slot of its own field and, besides, in [entrada] when the field is
    [aplicacao], [rendimento], [rendimento_bruto], [rendimento_liquido] or
    [tarifa_devolvida] (as for a plain [entrada]), and in [saida] when the
    field is [resgate] or [tarifa_paga] (as for a plain [saida]). So
    [_calculate_safe_totals] returns exactly when no aggregate of the
    values is beyond 1,000,000,000, and then reports as [total_entrada]
    the running sum of the amounts of all these entry-like fields and as
    [total_saida] the running sum of the exit-like ones: applications,
    yields, redemptions and fees are counted in, not only plain entries
    and exits; [saldo_final] is their difference, and the applications,
    redemptions and yields are summed on their own as well. When some
    aggregate is beyond the bound it raises. *)
Theorem totals_count_applications_yields_and_fees (uuids : nat -> string)
    (valores : list labeled_value) (documento_id : string) (page_num : Z) :
  let movs := imap (fun i v => _create_movimentacao_from_label
                                 (uuids i) v documento_id page_num) valores in
  (forall (i : nat) v,
      valores !! i = Some v ->
      exists mov,
        movs !! i = Some mov
        /\ entrada mov = (if feeds_entrada (campo v) then valor_decimal v
                          else Some 0%float)
        /\ saida mov = (if feeds_saida (campo v) then valor_decimal v
                        else Some 0%float)
        /\ aplicacao mov = (if String.eqb (campo v) "aplicacao"
                            then valor_decimal v else None)
        /\ resgate mov = (if String.eqb (campo v) "resgate"
                          then valor_decimal v else None)
        /\ rendimentos mov
           = (if existsb (String.eqb (campo v))
                   ["rendimento"; "rendimento_bruto"; "rendimento_liquido"]%string
              then valor_decimal v else None)
        /\ tarifa_paga mov = (if String.eqb (campo v) "tarifa_paga"
                              then valor_decimal v else None)
        /\ tarifa_devolvida mov = (if String.eqb (campo v) "tarifa_devolvida"
                                   then valor_decimal v else None))
  /\ match _calculate_safe_totals movs with
     | inr totais =>
         beyond_bound valores = false
         /\ totais !! "total_entrada"%string
            = Some (VFloat (running_sum entrada_of valores))
         /\ totais !! "total_saida"%string
            = Some (VFloat (running_sum saida_of valores))
         /\ totais !! "saldo_final"%string
            = Some (VFloat (running_sum entrada_of valores
                            - running_sum saida_of valores))
         /\ totais !! "total_aplicacao"%string
            = Some (VFloat (running_sum aplicacao_of valores))
         /\ totais !! "total_resgate"%string
            = Some (VFloat (running_sum resgate_of valores))
         /\ totais !! "total_rendimentos"%string
            = Some (VFloat (running_sum rendimentos_of valores))
         /\ totais !! "count_movimentacoes"%string
            = Some (VInt (Z.of_nat (length valores)))
     | inl e =>
         beyond_bound valores = true
         /\ e = RuntimeError "dictionary changed size during iteration"
     end.
Proof.
  cbv zeta. split.
  - intros i v Hv. eexists. split.
    + rewrite list_lookup_imap, Hv. reflexivity.
    + destruct (create_movimentacao_slots (uuids i) v documento_id page_num)
        as (? & ? & ? & ? & ? & ? & ? & _).
      auto 10.
  - unfold _calculate_safe_totals.
    rewrite accumulate_running_sums, length_imap.
    cbn [total_entrada total_saida total_aplicacao total_resgate
         total_rendimentos].
    assert (Hb :
      existsb (fun kv : string * value => absurd kv.2)
        [ ("total_entrada"%string, VFloat (running_sum entrada_of valores));
          ("total_saida"%string, VFloat (running_sum saida_of valores));
          ("saldo_final"%string,
           VFloat (running_sum entrada_of valores
                   - running_sum saida_of valores));
          ("total_aplicacao"%string,
           VFloat (running_sum aplicacao_of valores));
          ("total_resgate"%string, VFloat (running_sum resgate_of valores));
          ("total_rendimentos"%string,
           VFloat (running_sum rendimentos_of valores));
          ("count_movimentacoes"%string, VInt (Z.of_nat (length valores))) ]
      = beyond_bound valores).
    { unfold beyond_bound. cbn [existsb snd absurd]. unfold MAX_RAZOAVEL.
      rewrite Z.abs_eq by lia. rewrite orb_false_r, !orb_assoc.
      reflexivity. }
    rewrite Hb.
    destruct (beyond_bound valores); [split; reflexivity|].
    repeat split; reflexivity.
Qed.

(** On the sample (an application of 100000, a yield of 1234.5, a
    redemption of 50000 and a plain entry of 10) the totals are returned,
    with 101244.5 in and 50000 out. *)
Example sample_movement_totals :
  match _calculate_safe_totals
          (imap (fun i v => _create_movimentacao_from_label "id" v "doc" 1)
                sample) with
  | inr totais =>
      totais !! "total_entrada"%string = Some (VFloat 101244.5)
      /\ totais !! "total_saida"%string = Some (VFloat 50000)
      /\ totais !! "total_aplicacao"%string = Some (VFloat 100000)
      /\ totais !! "tem_valores_suspeitos"%string = Some (VBool false)
  | inl _ => False
  end.
Proof. vm_compute. repeat split; reflexivity. Qed.

(** With a total beyond the bound the function does not return a blocked
    total: it raises. *)
Example absurd_movement_total_raises :
  _calculate_safe_totals
    (imap (fun i v => _create_movimentacao_from_label "id" v "doc" 1)
          [ TotalsSample.value "ENTRADA" "entrada" "900.000.000,00"
                               (Some 900000000%float);
            TotalsSample.value "ENTRADA" "entrada" "900.000.000,00"
                               (Some 900000000%float) ])
  = inl (RuntimeError "dictionary changed size during iteration").
Proof. vm_compute. reflexivity. Qed.

End Movements.

(** ** A page, end to end *)

Section PageExample.
Import Py FinancialLabelExtractor SafeConvenioExtractor.
Context {tables : UnicodeTables}.

(** The movements of a page are the movements of its OK values, field by
    field. *)
Lemma movimentacoes_of_page_unfold (uuids : nat -> string) (texto : text)
    (page_num : Z) (documento_id : string) :
  movimentacoes_of_page uuids texto page_num documento_id
  = imap (fun i v => _create_movimentacao_from_label (uuids i) v
                                                     documento_id page_num)
         (List.filter (fun v => bool_decide (status_validacao v = OK))
                      (flat_map snd (extract_from_text texto page_num))).
Proof. reflexivity. Qed.

(** The statement used by the repository's own test script: the
    application and the yield are counted as money in, the redemption as
    money out; the two balances and the unlabelled numbers are not. *)
Example statement_page_totals (uuids : nat -> string) :
  match _calculate_safe_totals
          (movimentacoes_of_page uuids
             (u "
Banco do Brasil
Extrato Conta Corrente

SALDO ANTERIOR 168.376,96
30/09/2015 APLICAÇÃO 100.000,00
04/11/2015 RESGATE 50.000,00  
15/11/2015 RENDIMENTO 1.234,56
SALDO ATUAL 219.611,52

Quantidade de cotas: 55.443,265418
Código transação: 3169800722
") 1 "doc") with
  | inr totais =>
      totais !! "total_entrada"%string = Some (VFloat (100000 + 1234.56))
      /\ totais !! "total_saida"%string = Some (VFloat 50000)
      /\ totais !! "total_aplicacao"%string = Some (VFloat 100000)
      /\ totais !! "total_resgate"%string = Some (VFloat 50000)
      /\ totais !! "total_rendimentos"%string = Some (VFloat 1234.56)
      /\ totais !! "count_movimentacoes"%string = Some (VInt 5)
  | inl _ => False
  end.
Proof. vm_compute. repeat split; reflexivity. Qed.

End PageExample.

(** ** The job table, through calls and sweeps *)

Section JobTable.
Import Py Models JobManager JobManagerQueries.

Lemma cleanup_old_jobs_jobs (self : t) (now : datetime) (h : Z) (id : string) :
  _jobs (cleanup_old_jobs self now h) !! id
  = if to_remove self now h id then None else _jobs self !! id.
Proof.
  unfold cleanup_old_jobs. simpl.
  destruct (to_remove self now h id) eqn:Er.
  - apply map_lookup_filter_None. right. intros x _ Hx. simpl in Hx. congruence.
  - destruct (_jobs self !! id) as [j|] eqn:Ej.
    + apply map_lookup_filter_Some. split; [assumption|exact Er].
    + apply map_lookup_filter_None. left. assumption.
Qed.

Lemma cleanup_old_jobs_results (self : t) (now : datetime) (h : Z)
    (id : string) :
  _results (cleanup_old_jobs self now h) !! id
  = if to_remove self now h id then None else _results self !! id.
Proof.
  unfold cleanup_old_jobs. simpl.
  destruct (to_remove self now h id) eqn:Er.
  - apply map_lookup_filter_None. right. intros x _ Hx. simpl in Hx. congruence.
  - destruct (_results self !! id) as [r|] eqn:Ej.
    + apply map_lookup_filter_Some. split; [assumption|exact Er].
    + apply map_lookup_filter_None. left. assumption.
Qed.

Lemma to_remove_terminal (self : t) (now : datetime) (h : Z) (id : string)
    (j : JobMetadata) :
  _jobs self !! id = Some j -> to_remove self now h id = true ->
  terminal (status j) = true.
Proof.
  unfold to_remove, expired. intros ->.
  intros Hr. apply andb_true_iff in Hr as [Ht _]. exact Ht.
Qed.

Lemma run_results_other (self : t) (c : call) (id : string) :
  call_target c <> id -> _results (run self c) !! id = _results self !! id.
Proof.
  intros Hne. destruct c as [now i fn fp|now i n|i n|now i r|now i msg|now i]; simpl in *;
    unfold create_job, start_job, update_progress, complete_job, fail_job,
           cancel_job;
    destruct (_jobs self !! _); simpl; try reflexivity.
  apply lookup_insert_ne. congruence.
Qed.

Lemma run_results_kept (self : t) (c : call) (id : string) :
  is_Some (_results self !! id) -> is_Some (_results (run self c) !! id).
Proof.
  intros Hs. destruct c as [now i fn fp|now i n|i n|now i r|now i msg|now i]; simpl;
    unfold create_job, start_job, update_progress, complete_job, fail_job,
           cancel_job;
    destruct (_jobs self !! _); simpl; try assumption.
  destruct (decide (i = id)) as [->|Hne].
  - rewrite lookup_insert_eq. eauto.
  - rewrite lookup_insert_ne by assumption. assumption.
Qed.

Lemma run_jobs_kept (self : t) (c : call) (id : string) :
  is_Some (_jobs self !! id) -> is_Some (_jobs (run self c) !! id).
Proof.
  intros Hs.
  destruct (decide (call_target c = id)) as [<-|Hne];
    [|rewrite run_other_job by assumption; assumption].
  destruct Hs as [j Hj].
  destruct c as [now i fn fp|now i n|i n|now i r|now i msg|now i];
    simpl in *;
    unfold create_job, start_job, update_progress, complete_job, fail_job,
           cancel_job;
    rewrite Hj; simpl; try rewrite lookup_insert_eq; eauto.
Qed.

Lemma run_consistent (self : t) (c : call) :
  consistent self -> consistent (run self c).
Proof.
  intros Hc id. split.
  - intros j' Hj'.
    destruct (decide (call_target c = id)) as [<-|Hne].
    + revert Hj'.
      destruct c as [now i fn fp|now i n|i n|now i r|now i msg|now i];
        simpl;
        unfold create_job, start_job, update_progress, complete_job, fail_job,
               cancel_job;
        destruct (_jobs self !! i) as [j|] eqn:Ej; simpl;
        try rewrite lookup_insert_eq; try rewrite Ej;
        intros Hj'; try discriminate; injection Hj' as <-;
        try (destruct (proj1 (Hc i) j Ej) as (Hid & Hf & Hr));
        unfold filled_by_status in *; simpl;
        try rewrite lookup_insert_eq;
        repeat split; eauto; try discriminate.
    + rewrite run_other_job in Hj' by assumption.
      destruct (proj1 (Hc id) j' Hj') as (Hid & Hf & Hr).
      split; [assumption|]. split; [assumption|].
      intros Hd. apply run_results_kept. auto.
  - intros Hs.
    destruct (decide (call_target c = id)) as [<-|Hne].
    + revert Hs.
      destruct c as [now i fn fp|now i n|i n|now i r|now i msg|now i];
        simpl;
        unfold create_job, start_job, update_progress, complete_job, fail_job,
               cancel_job;
        destruct (_jobs self !! i) as [j|] eqn:Ej; simpl;
        repeat rewrite lookup_insert_eq; try rewrite Ej; eauto;
        intros Hs; apply (proj2 (Hc i)) in Hs; rewrite Ej in Hs; exact Hs.
    + rewrite run_results_other in Hs by assumption.
      rewrite run_other_job by assumption. apply (proj2 (Hc id)). exact Hs.
Qed.

Lemma cleanup_old_jobs_consistent (self : t) (now : datetime) (h : Z) :
  consistent self -> consistent (cleanup_old_jobs self now h).
Proof.
  intros Hc id. rewrite cleanup_old_jobs_jobs, cleanup_old_jobs_results.
  destruct (to_remove self now h id).
  - split; [discriminate|]. intros [? ?]. discriminate.
  - apply Hc.
Qed.

Lemma empty_consistent : consistent empty.
Proof.
  intros id. split.
  - intros j Hj. simpl in Hj. rewrite lookup_empty in Hj. discriminate.
  - simpl. rewrite lookup_empty. intros [? ?]. discriminate.
Qed.

Lemma exec_consistent (self : t) (o : op) :
  consistent self -> consistent (exec self o).
Proof.
  destruct o; simpl;
    [apply run_consistent | apply cleanup_old_jobs_consistent].
Qed.

(** X1. Whatever sequence of manager calls and sweeps is run from the empty
    manager, the two dictionaries stay consistent: a job sits under its own
    id; a PENDING job has no start time, completion time, page total or
    error message; a PROCESSING job has a start time and a page total; a
    DONE, ERROR or CANCELLED job has a completion time, an ERROR job an
    error message as well; a DONE job has a stored result; and every stored
    result belongs to a job of the table. *)
Theorem job_table_consistent (ops : list op) :
  consistent (fold_left exec ops empty).
Proof.
  generalize empty_consistent. generalize empty as self.
  induction ops as [|o ops IH]; intros self Hc; simpl; [exact Hc|].
  apply IH, exec_consistent, Hc.
Qed.

End JobTable.

(** ** The sweep *)

Section Sweep.
Import Py Models JobManager JobManagerQueries.

Lemma to_remove_after_cleanup (self : t) (now : datetime) (h : Z)
    (id : string) :
  to_remove (cleanup_old_jobs self now h) now h id = false.
Proof.
  unfold to_remove at 1. rewrite cleanup_old_jobs_jobs.
  destruct (to_remove self now h id) eqn:Er; [reflexivity|].
  unfold to_remove in Er. exact Er.
Qed.

(** The age test at the hour: for every whole number of hours up to a
    year, a job created exactly that many hours ago, or a microsecond later
    than that, is not older than that many hours, and a job created a
    microsecond earlier is. *)
Lemma age_test_on_the_hour :
  forallb
    (fun h =>
       negb (PyNum.float_gt_int
               (match PyNum.int_truediv (h * 3600000000 - 1) 1000000 with
                | inr seconds => (seconds / 3600)%float
                | inl _ => infinity
                end) h)
       && negb (PyNum.float_gt_int
                  (match PyNum.int_truediv (h * 3600000000) 1000000 with
                   | inr seconds => (seconds / 3600)%float
                   | inl _ => infinity
                   end) h)
       && PyNum.float_gt_int
            (match PyNum.int_truediv (h * 3600000000 + 1) 1000000 with
             | inr seconds => (seconds / 3600)%float
             | inl _ => infinity
             end) h)
    (seqZ 0 8761) = true.
Proof. vm_compute. reflexivity. Qed.

Lemma expired_on_the_hour (now : datetime) (h : Z) (job : JobMetadata) :
  0 <= h <= 8760 -> terminal (status job) = true ->
  (now - created_at job = h * 3600000000 - 1 -> expired now h job = false)
  /\ (now - created_at job = h * 3600000000 -> expired now h job = false)
  /\ (now - created_at job = h * 3600000000 + 1 -> expired now h job = true).
Proof.
  intros Hh Ht.
  pose proof age_test_on_the_hour as Hall.
  rewrite forallb_forall in Hall.
  assert (Hin : In h (seqZ 0 8761)).
  { apply list_elem_of_In, elem_of_seqZ. lia. }
  apply Hall in Hin. apply andb_prop in Hin as [Hin H3].
  apply andb_prop in Hin as [H1 H2].
  apply negb_true_iff in H1, H2.
  unfold expired, age_hours. rewrite Ht. cbn [andb].
  repeat split; intros ->; assumption.
Qed.

(** X2. The sweep [cleanup_old_jobs] removes exactly the jobs that are
    finished (DONE, ERROR or CANCELLED) and older than the given number of
    hours, each together with its stored result: a job that is PENDING or
    PROCESSING is never removed, however old; a job that stays is
    unchanged, and so is its result; no job and no result is added; and a
    second sweep at the same time and age removes nothing more. Older
    means strictly older, by the clock's microsecond: for a limit of
    [max_age_hours] whole hours, up to a year, a finished job created
    exactly that many hours before the sweep, or a microsecond less, stays
    with its result, and one created a microsecond more than that many
    hours before the sweep is removed with its result. *)
Theorem cleanup_old_jobs_removes_expired_only (self : t) (now : datetime)
    (max_age_hours : Z) :
  let self' := cleanup_old_jobs self now max_age_hours in
  (forall id,
      get_job self' id
      = match get_job self id with
        | Some job => if expired now max_age_hours job then None else Some job
        | None => None
        end)
  /\ (forall id,
        get_result self' id
        = match get_job self id with
          | Some job =>
              if expired now max_age_hours job then None
              else get_result self id
          | None => get_result self id
          end)
  /\ (forall id job,
        get_job self id = Some job -> terminal (status job) = false ->
        get_job self' id = Some job)
  /\ cleanup_old_jobs self' now max_age_hours = self'
  /\ (forall id job,
        get_job self id = Some job ->
        status job = DONE \/ status job = ERROR \/ status job = CANCELLED ->
        0 <= max_age_hours <= 8760 ->
        (now - created_at job = max_age_hours * 3600000000 - 1
         \/ now - created_at job = max_age_hours * 3600000000 ->
         get_job self' id = Some job
         /\ get_result self' id = get_result self id)
        /\ (now - created_at job = max_age_hours * 3600000000 + 1 ->
            get_job self' id = None /\ get_result self' id = None)).
Proof.
  cbv zeta. unfold get_job, get_result.
  split; [|split; [|split; [|split]]].
  - intros id. rewrite cleanup_old_jobs_jobs. unfold to_remove.
    destruct (_jobs self !! id) as [job|]; reflexivity.
  - intros id. rewrite cleanup_old_jobs_results. unfold to_remove.
    destruct (_jobs self !! id) as [job|]; reflexivity.
  - intros id job Hj Ht. rewrite cleanup_old_jobs_jobs. unfold to_remove.
    rewrite Hj. unfold expired. rewrite Ht. reflexivity.
  - set (self' := cleanup_old_jobs self now max_age_hours).
    assert (Hj : _jobs (cleanup_old_jobs self' now max_age_hours) = _jobs self').
    { apply map_eq. intros id. rewrite cleanup_old_jobs_jobs.
      unfold self'. rewrite to_remove_after_cleanup. reflexivity. }
    assert (Hr : _results (cleanup_old_jobs self' now max_age_hours)
                 = _results self').
    { apply map_eq. intros id. rewrite cleanup_old_jobs_results.
      unfold self'. rewrite to_remove_after_cleanup. reflexivity. }
    destruct (cleanup_old_jobs self' now max_age_hours) as [js rs].
    destruct self' as [js' rs']. simpl in Hj, Hr. congruence.
  - intros id job Hj Hst Hh.
    assert (Ht : terminal (status job) = true).
    { destruct Hst as [-> | [-> | ->]]; reflexivity. }
    destruct (expired_on_the_hour now max_age_hours job Hh Ht)
      as (Hless & Hat & Hmore).
    rewrite cleanup_old_jobs_jobs, cleanup_old_jobs_results.
    unfold to_remove. rewrite Hj.
    split.
    + intros [Hd | Hd]; [rewrite (Hless Hd) | rewrite (Hat Hd)];
        split; reflexivity.
    + intros Hd. rewrite (Hmore Hd). split; reflexivity.
Qed.

End Sweep.

(** ** The endpoints *)

Section Service.
Import Py Models MainRefactored Api.

(** X3. For an id the manager does not know, every endpoint that takes a
    job id answers 404 with the detail [Job não encontrado], and a
    background task run for that id changes nothing: neither the job
    table, nor the stored results, nor the uploaded files. *)
Theorem unknown_job_is_not_found (st : app) (id : string) :
  JobManager.get_job (job_manager st) id = None ->
  process_pdf st id = inl (HTTPException 404 "Job não encontrado")
  /\ Api.get_status st id = inl (HTTPException 404 "Job não encontrado")
  /\ Api.get_result st id = inl (HTTPException 404 "Job não encontrado")
  /\ (forall now,
        cancel_job st now id = inl (HTTPException 404 "Job não encontrado"))
  /\ (forall now pdf_path outcome,
        run_ocr_in_background st now id pdf_path outcome = st).
Proof.
  intros Hj. unfold JobManager.get_job in Hj.
  unfold process_pdf, Api.get_status, Api.get_result, cancel_job,
         JobManagerQueries.get_progress, JobManager.get_job.
  rewrite Hj. repeat split; try reflexivity.
  intros now pdf_path outcome. unfold run_ocr_in_background.
  unfold JobManager.complete_job, JobManager.fail_job. rewrite Hj.
  destruct st as [jm files]. simpl.
  destruct outcome as [result|e]; [destruct (bool_decide _)|]; reflexivity.
Qed.

Lemma unknown_job_is_not_found_witness :
  JobManager.get_job (job_manager Api.initial) "job-0" = None
  /\ process_pdf Api.initial "job-0"
     = inl (HTTPException 404 "Job não encontrado")
  /\ Api.get_status Api.initial "job-0"
     = inl (HTTPException 404 "Job não encontrado")
  /\ Api.get_result Api.initial "job-0"
     = inl (HTTPException 404 "Job não encontrado")
  /\ (forall now,
        cancel_job Api.initial now "job-0"
        = inl (HTTPException 404 "Job não encontrado"))
  /\ (forall now pdf_path outcome,
        run_ocr_in_background Api.initial now "job-0" pdf_path outcome
        = Api.initial).
Proof.
  split; [reflexivity|].
  apply (unknown_job_is_not_found Api.initial "job-0"). reflexivity.
Defined.

(** X4. An upload whose file name ends in [.pdf], whose content starts
    with the bytes [%PDF] and is no longer than 100 MB, made under a fresh
    job id, is accepted: the file is stored under
    [storage/uploads/<job_id>.pdf], a PENDING job is registered for it and
    the other jobs are left as they were. After that, POST /process for the
    id is accepted and schedules the task on the stored file, and GET
    /status reports the job as PENDING at 0 percent. *)
Theorem valid_upload_can_be_processed (st : app) (now : datetime)
    (id filename : string) (content : list N) :
  PyNum.endswith filename ".pdf" = true ->
  startswith (take 4 content) (u "%PDF") = true ->
  Z.of_nat (length content) <= MAX_FILE_SIZE ->
  JobManager.get_job (job_manager st) id = None ->
  exists st' resp,
    upload_pdf st now id filename content = (st', inr resp)
    /\ upload_job_id resp = id /\ upload_filename resp = filename
    /\ uploads st' = {[ upload_path id ]} ∪ uploads st
    /\ process_pdf st' id = inr (id, upload_path id)
    /\ Api.get_status st' id
       = inr {| progress_job_id := id; progress_status := PENDING;
                progress_percent := 0; progress_total_pages := None;
                progress_processed_pages := 0;
                message := "Aguardando processamento" |}
    /\ (forall id', id' <> id ->
          JobManager.get_job (job_manager st') id'
          = JobManager.get_job (job_manager st) id').
Proof.
  intros Hext Hmagic Hsize Hfresh.
  unfold upload_pdf. rewrite Hext, Hmagic. simpl negb. cbv iota.
  destruct (Z.ltb_spec MAX_FILE_SIZE (Z.of_nat (length content))) as [|_];
    [lia|].
  unfold JobManager.get_job in Hfresh.
  unfold JobManager.create_job. rewrite Hfresh.
  eexists _, _. split; [reflexivity|].
  split; [reflexivity|]. split; [reflexivity|]. split; [reflexivity|].
  unfold process_pdf, Api.get_status, JobManagerQueries.get_progress,
         JobManager.get_job.
  simpl. rewrite lookup_insert_eq. simpl.
  split; [|split].
  - rewrite bool_decide_eq_true_2; [reflexivity|].
    apply elem_of_union_l, elem_of_singleton. reflexivity.
  - reflexivity.
  - intros id' Hne. apply lookup_insert_ne. congruence.
Qed.

Lemma valid_upload_can_be_processed_witness :
  exists st' resp,
    upload_pdf Api.initial 0 "job-1" "extrato.pdf" (u "%PDF-1.4")
    = (st', inr resp)
    /\ upload_job_id resp = "job-1"%string
    /\ upload_filename resp = "extrato.pdf"%string
    /\ uploads st' = {[ upload_path "job-1" ]} ∪ uploads Api.initial
    /\ process_pdf st' "job-1" = inr ("job-1"%string, upload_path "job-1")
    /\ Api.get_status st' "job-1"
       = inr {| progress_job_id := "job-1"; progress_status := PENDING;
                progress_percent := 0; progress_total_pages := None;
                progress_processed_pages := 0;
                message := "Aguardando processamento" |}
    /\ (forall id', id' <> "job-1"%string ->
          JobManager.get_job (job_manager st') id'
          = JobManager.get_job (job_manager Api.initial) id').
Proof.
  apply (valid_upload_can_be_processed Api.initial 0 "job-1" "extrato.pdf"
           (u "%PDF-1.4")).
  - reflexivity.
  - reflexivity.
  - vm_compute. discriminate.
  - reflexivity.
Defined.

End Service.

(** ** The states the service reaches *)

Section ServiceStates.
Import Py Models MainRefactored Api.

(** Each request is at most one manager call, of the kind the service
    makes. *)
Lemma serve_manager (st : app) (r : request) :
  job_manager (serve st r) = job_manager st
  \/ exists c, service_call c
               /\ job_manager (serve st r) = JobManager.run (job_manager st) c.
Proof.
  destruct r as [now id fn content|now id|now id path outcome]; simpl.
  - unfold upload_pdf.
    destruct (negb _); [left; reflexivity|].
    destruct (negb _); [left; reflexivity|].
    destruct (_ <? _); [left; reflexivity|].
    destruct (JobManager.create_job _ _ _ _ _) as [e|[jm m]] eqn:E.
    + left. reflexivity.
    + right. exists (JobManager.CreateJob now id fn (upload_path id)).
      split; [exact I|]. simpl. unfold upload_path. rewrite E. reflexivity.
  - unfold cancel_job.
    destruct (JobManager.get_job _ _); [|left; reflexivity].
    destruct (bool_decide _); [left; reflexivity|].
    right. exists (JobManager.CancelJob now id). split; [exact I|reflexivity].
  - unfold run_ocr_in_background.
    destruct outcome as [result|e].
    + destruct (bool_decide (result_status result = DONE)) eqn:Ed.
      * apply bool_decide_eq_true in Ed.
        destruct (JobManager.complete_job _ _ _ _) as [e|jm] eqn:E.
        -- right. exists (JobManager.FailJob now id (exn_message e)).
           split; [exact I|reflexivity].
        -- right. exists (JobManager.CompleteJob now id result).
           split; [exact Ed|]. simpl. rewrite E. reflexivity.
      * right. eexists (JobManager.FailJob now id _).
        split; [exact I|reflexivity].
    + right. exists (JobManager.FailJob now id (exn_message e)).
      split; [exact I|reflexivity].
Qed.

Lemma service_call_never_starts (self : JobManager.t) (c : JobManager.call) :
  service_call c ->
  (forall id j, JobManager._jobs self !! id = Some j -> never_started j) ->
  forall id j,
    JobManager._jobs (JobManager.run self c) !! id = Some j -> never_started j.
Proof.
  intros Hc Hall id j'.
  destruct (decide (JobManager.call_target c = id)) as [<-|Hne];
    [|rewrite run_other_job by assumption; apply Hall].
  destruct c as [now i fn fp|now i n|i n|now i r|now i msg|now i];
    simpl in *; try contradiction;
    unfold JobManager.create_job, JobManager.complete_job,
           JobManager.fail_job, JobManager.cancel_job;
    destruct (JobManager._jobs self !! i) as [j|] eqn:Ej; simpl;
    try rewrite lookup_insert_eq; try rewrite Ej;
    intros Hj'; try discriminate; injection Hj' as <-;
    try (destruct (Hall i j Ej) as (Hs & Ha & Ht & Hp));
    unfold never_started; simpl; repeat split; auto; discriminate.
Qed.

Lemma reachable_never_started (st : app) :
  reachable st ->
  forall id j,
    JobManager._jobs (job_manager st) !! id = Some j -> never_started j.
Proof.
  induction 1 as [|st r _ IH].
  - intros id j Hj. simpl in Hj. rewrite lookup_empty in Hj. discriminate.
  - destruct (serve_manager st r) as [->|(c & Hc & ->)]; [exact IH|].
    apply service_call_never_starts; assumption.
Qed.

(** Every stored result is a DONE result. *)
Lemma service_call_results_done (self : JobManager.t) (c : JobManager.call) :
  service_call c ->
  (forall id r, JobManager._results self !! id = Some r -> result_status r = DONE) ->
  forall id r,
    JobManager._results (JobManager.run self c) !! id = Some r ->
    result_status r = DONE.
Proof.
  intros Hc Hall id r'.
  destruct c as [now i fn fp|now i n|i n|now i r|now i msg|now i];
    simpl in *; try contradiction;
    unfold JobManager.create_job, JobManager.complete_job,
           JobManager.fail_job, JobManager.cancel_job;
    destruct (JobManager._jobs self !! i) as [j|] eqn:Ej; simpl;
    try apply Hall.
  destruct (decide (i = id)) as [->|Hne].
  - rewrite lookup_insert_eq. intros [= <-]. exact Hc.
  - rewrite lookup_insert_ne by assumption. apply Hall.
Qed.

Lemma reachable_results_done (st : app) :
  reachable st ->
  forall id r,
    JobManager._results (job_manager st) !! id = Some r ->
    result_status r = DONE.
Proof.
  induction 1 as [|st r _ IH].
  - intros id r Hr. simpl in Hr. rewrite lookup_empty in Hr. discriminate.
  - destruct (serve_manager st r) as [->|(c & Hc & ->)]; [exact IH|].
    apply service_call_results_done; assumption.
Qed.

Lemma reachable_consistent (st : app) :
  reachable st -> JobManagerQueries.consistent (job_manager st).
Proof.
  induction 1 as [|st r _ IH].
  - apply empty_consistent.
  - destruct (serve_manager st r) as [->|(c & _ & ->)]; [exact IH|].
    apply run_consistent, IH.
Qed.

(** X5. The service never starts a job and never reports progress: in
    every state it reaches from start-up through uploads, cancellations
    and background tasks, GET /status answers either 404 or a report with
    0 percent, no page total and 0 processed pages, for a job that is not
    PROCESSING; and GET /result never answers 425. *)
Theorem service_never_reports_progress (st : app) (id : string) :
  reachable st ->
  match Api.get_status st id with
  | inr p =>
      progress_percent p = 0%float /\ progress_total_pages p = None
      /\ progress_processed_pages p = 0 /\ progress_status p <> PROCESSING
  | inl e => e = HTTPException 404 "Job não encontrado"
  end
  /\ Api.get_result st id
     <> inl (HTTPException 425 "Processamento ainda em andamento").
Proof.
  intros Hst. pose proof (reachable_never_started st Hst id) as Hns.
  unfold Api.get_status, Api.get_result, JobManagerQueries.get_progress,
         JobManager.get_job.
  destruct (JobManager._jobs (job_manager st) !! id) as [j|];
    [|split; [reflexivity|discriminate]].
  destruct (Hns j eq_refl) as (Hs & _ & Ht & Hp).
  unfold JobManagerQueries.total_known_positive. rewrite Ht. simpl.
  split; [auto|].
  destruct (status j); try discriminate; [congruence|].
  destruct (JobManager.get_result _ _); discriminate.
Qed.

Lemma service_never_reports_progress_witness :
  let st := serve (serve Api.initial
                     (Upload 0 "job-1" "extrato.pdf" (u "%PDF-1.4")))
                  (RunTask 5 "job-1" (upload_path "job-1")
                           (Returned Samples.done_result)) in
  reachable st
  /\ match Api.get_status st "job-1" with
     | inr p =>
         progress_percent p = 0%float /\ progress_total_pages p = None
         /\ progress_processed_pages p = 0 /\ progress_status p <> PROCESSING
     | inl e => e = HTTPException 404 "Job não encontrado"
     end
  /\ Api.get_result st "job-1"
     <> inl (HTTPException 425 "Processamento ainda em andamento").
Proof.
  cbv zeta.
  assert (Hst : reachable
                  (serve (serve Api.initial
                            (Upload 0 "job-1" "extrato.pdf" (u "%PDF-1.4")))
                         (RunTask 5 "job-1" (upload_path "job-1")
                                  (Returned Samples.done_result))))
    by (do 2 apply reachable_serve; apply reachable_initial).
  split; [exact Hst|].
  apply (service_never_reports_progress _ "job-1" Hst).
Defined.

(** X6. In every state the service reaches, a job that is DONE has a
    stored result and that result is itself a DONE result: GET /result for
    a DONE job always delivers, and what it delivers says DONE. *)
Theorem done_job_delivers_done_result (st : app) (id : string)
    (job : JobMetadata) :
  reachable st ->
  JobManager.get_job (job_manager st) id = Some job ->
  status job = DONE ->
  exists result,
    Api.get_result st id = inr result /\ result_status result = DONE.
Proof.
  intros Hst Hj Hd.
  destruct (proj1 (reachable_consistent st Hst id) job Hj) as (_ & _ & Hr).
  destruct (Hr Hd) as [result Hres].
  exists result. split.
  - unfold Api.get_result. rewrite Hj, Hd.
    unfold JobManager.get_result. rewrite Hres. reflexivity.
  - apply (reachable_results_done st Hst id). exact Hres.
Qed.

Lemma done_job_delivers_done_result_witness :
  exists result,
    Api.get_result
      (serve (serve Api.initial
                (Upload 0 "job-1" "extrato.pdf" (u "%PDF-1.4")))
             (RunTask 5 "job-1" (upload_path "job-1")
                      (Returned Samples.done_result)))
      "job-1"
    = inr result
    /\ result_status result = DONE.
Proof.
  apply (done_job_delivers_done_result _ "job-1" Samples.done_job).
  - do 2 apply reachable_serve. apply reachable_initial.
  - vm_compute. reflexivity.
  - reflexivity.
Defined.

(** X7. Cancelling does not stop the task. For a job that is not yet DONE
    or ERROR, DELETE /job succeeds and GET /result then answers 410; but
    when the background task of that job ends afterwards, its outcome
    overwrites the cancellation: with a DONE result the job is DONE and GET
    /result delivers that result, otherwise the job is ERROR and GET
    /result answers 500. *)
Theorem cancelled_job_is_completed_by_its_task (st : app) (now : datetime)
    (id : string) (job : JobMetadata) :
  JobManager.get_job (job_manager st) id = Some job ->
  status job <> DONE -> status job <> ERROR ->
  exists st1,
    cancel_job st now id = inr (st1, "Job cancelado"%string)
    /\ Api.get_result st1 id = inl (HTTPException 410 "Job foi cancelado")
    /\ (forall now' pdf_path result,
          result_status result = DONE ->
          Api.get_result
            (run_ocr_in_background st1 now' id pdf_path (Returned result)) id
          = inr result)
    /\ (forall now' pdf_path outcome,
          (forall result, outcome = Returned result ->
                          result_status result <> DONE) ->
          exists detail,
            Api.get_result
              (run_ocr_in_background st1 now' id pdf_path outcome) id
            = inl (HTTPException 500 detail)).
Proof.
  intros Hj Hd He. unfold JobManager.get_job in Hj.
  unfold cancel_job, JobManager.get_job. rewrite Hj.
  rewrite bool_decide_eq_false_2 by (intros [?|?]; contradiction).
  eexists. split; [reflexivity|].
  unfold Api.get_result, run_ocr_in_background, JobManager.get_job,
         JobManager.get_result, JobManager.complete_job, JobManager.fail_job,
         JobManager.cancel_job.
  rewrite Hj. simpl. rewrite !lookup_insert_eq. simpl.
  split; [reflexivity|]. split.
  - intros now' pdf_path result Hres.
    rewrite bool_decide_eq_true_2 by assumption.
    simpl. rewrite !lookup_insert_eq. reflexivity.
  - intros now' pdf_path outcome Hout.
    destruct outcome as [result|e].
    + rewrite bool_decide_eq_false_2 by (apply Hout; reflexivity).
      simpl. rewrite lookup_insert_eq. simpl. eauto.
    + simpl. rewrite lookup_insert_eq. simpl. eauto.
Qed.

Lemma cancelled_job_is_completed_by_its_task_witness :
  exists st1,
    cancel_job Samples.uploaded 3 "job-1" = inr (st1, "Job cancelado"%string)
    /\ Api.get_result st1 "job-1"
       = inl (HTTPException 410 "Job foi cancelado")
    /\ (forall now' pdf_path result,
          result_status result = DONE ->
          Api.get_result
            (run_ocr_in_background st1 now' "job-1" pdf_path
                                   (Returned result)) "job-1"
          = inr result)
    /\ (forall now' pdf_path outcome,
          (forall result, outcome = Returned result ->
                          result_status result <> DONE) ->
          exists detail,
            Api.get_result
              (run_ocr_in_background st1 now' "job-1" pdf_path outcome)
              "job-1"
            = inl (HTTPException 500 detail)).
Proof.
  apply (cancelled_job_is_completed_by_its_task Samples.uploaded 3 "job-1"
           {| job_id := "job-1"; filename := "extrato.pdf";
              file_path := Samples.upload_path; status := PENDING;
              created_at := 0; started_at := None; completed_at := None;
              total_pages := None; processed_pages := 0;
              error_message := None |}).
  - vm_compute. reflexivity.
  - simpl. discriminate.
  - simpl. discriminate.
Defined.

End ServiceStates.

(** ** Batches beyond the usual arguments *)

Section BatchEdges.
Import PDFService.

(** X8. [calculate_batches] outside its usual arguments: a batch size of 0
    makes it raise (the step of [range] is zero) and nothing else does; it
    returns no batch at all exactly when the batch size is positive and
    there is no page, or the batch size is negative and the page count is
    not; and with a negative batch size every batch it does return ends
    before it starts. *)
Theorem calculate_batches_edge_cases (total_pages batch_size : Z) :
  (calculate_batches total_pages batch_size = None <-> batch_size = 0)
  /\ (calculate_batches total_pages batch_size = Some []
      <-> (0 < batch_size /\ total_pages <= 0)
          \/ (batch_size < 0 /\ 0 <= total_pages))
  /\ (forall batches r,
        batch_size < 0 ->
        calculate_batches total_pages batch_size = Some batches ->
        In r batches -> r.2 < r.1).
Proof.
  unfold calculate_batches, Py.range.
  destruct (Z.eqb_spec batch_size 0) as [->|Hb]; simpl.
  - split; [tauto|]. split; [|intros; lia].
    split; [discriminate|lia].
  - split; [split; [discriminate|contradiction]|].
    split.
    + rewrite map_map.
      assert (Hlen : forall n : nat,
                map (fun i : nat =>
                       (1 + Z.of_nat i * batch_size,
                        Z.min (1 + Z.of_nat i * batch_size + batch_size - 1)
                              total_pages))
                    (seq 0 n) = [] <-> n = 0%nat).
      { intros [|n]; simpl; split; try reflexivity; discriminate. }
      split.
      * intros Hnil. injection Hnil as Hnil. apply Hlen in Hnil.
        unfold Py.range_length in Hnil.
        destruct (Z.ltb_spec 0 batch_size) as [Hpos|Hneg].
        -- left. split; [assumption|].
           destruct (Z.ltb_spec 1 (total_pages + 1)) as [Hlt|]; [|lia].
           assert (0 <= (total_pages + 1 - 1 - 1) / batch_size)
             by (apply Z.div_pos; lia).
           lia.
        -- right. split; [lia|].
           destruct (Z.ltb_spec (total_pages + 1) 1) as [Hlt|]; [|lia].
           assert (0 <= (1 - (total_pages + 1) - 1) / - batch_size)
             by (apply Z.div_pos; lia).
           lia.
      * intros [[Hpos Hn]|[Hneg Hn]]; f_equal; apply Hlen;
          unfold Py.range_length.
        -- destruct (Z.ltb_spec 0 batch_size); [|lia].
           destruct (Z.ltb_spec 1 (total_pages + 1)); [lia|reflexivity].
        -- destruct (Z.ltb_spec 0 batch_size); [lia|].
           destruct (Z.ltb_spec (total_pages + 1) 1); [lia|reflexivity].
    + intros batches r Hneg Hbs Hr. injection Hbs as <-.
      apply in_map_iff in Hr as (start & <- & Hstart).
      apply in_map_iff in Hstart as (i & <- & Hi). simpl. lia.
Qed.

End BatchEdges.

(** ** What the worker hands to the filter, and what it returns *)

Section WorkerLoop.
Import Py Models PDFService PageFilter OcrWorkerLoop.
Context {tables : UnicodeTables}.

Variable Image : Type.
Variable get_page_count : string -> exn + Z.
Variable extract_page_batch : string -> Z -> Z -> exn + list Image.
Variable ocr_image : Image -> exn + text.
Variable extract_multiple_records : list text -> exn + list (gmap string value).

Lemma ocr_batch_entries (page_image : Z -> Image) (n : nat) (page_num : Z) :
  OcrWorker.ocr_batch Image ocr_image page_num
    (map page_image (seqZ page_num (Z.of_nat n)))
  = map (fun i => ocr_page Image ocr_image i (page_image i))
        (seqZ page_num (Z.of_nat n)).
Proof.
  revert page_num. induction n as [|n IH]; intros page_num; [reflexivity|].
  rewrite Nat2Z.inj_succ, (seqZ_cons page_num) by lia.
  replace (Z.pred (Z.succ (Z.of_nat n))) with (Z.of_nat n) by lia.
  cbn [OcrWorker.ocr_batch map].
  replace (Z.succ page_num) with (page_num + 1) by lia.
  rewrite IH. f_equal.
Qed.

Lemma ocr_batches_entries (page_image : Z -> Image) (pdf_path : string)
    (total_pages : Z) (batches : list (Z * Z)) :
  rasterizes Image extract_page_batch page_image pdf_path total_pages ->
  Forall (fun r => 1 <= r.1 /\ r.1 <= r.2 /\ r.2 <= total_pages) batches ->
  ocr_batches Image extract_page_batch ocr_image pdf_path batches
  = map (fun i => ocr_page Image ocr_image i (page_image i))
        (concat (map pages_of batches)).
Proof.
  intros Hras. induction 1 as [|[s e] batches (H1 & H2 & H3) _ IH];
    [reflexivity|].
  unfold ocr_batches in *. cbn [flat_map map concat]. rewrite map_app, IH.
  f_equal. simpl in H1, H2, H3.
  rewrite (Hras s e H1 H2 H3).
  unfold pages_of. cbn [fst snd].
  rewrite <- (Z2Nat.id (e - s + 1)) by lia.
  apply ocr_batch_entries.
Qed.

Lemma ocr_page_page (page_image : Z -> Image) (pages : list Z) :
  map page (map (fun i => ocr_page Image ocr_image i (page_image i)) pages)
  = pages.
Proof.
  induction pages as [|i pages IH]; [reflexivity|].
  cbn [map]. rewrite IH. f_equal.
  unfold ocr_page. destruct (ocr_image _); reflexivity.
Qed.

Lemma filter_pages_sublist (ocr_results : list ocr_result) :
  map page (filter_pages ocr_results) `sublist_of` map page ocr_results.
Proof.
  unfold filter_pages.
  induction ocr_results as [|p l IH]; simpl; [constructor|].
  destruct (has_content p); simpl; [|apply sublist_cons, IH].
  destruct (is_relevant_page (text_of p)); simpl;
    [apply sublist_skip, IH | apply sublist_cons, IH].
Qed.

Lemma process_ocr_job_unfold (job_id pdf_path : string) (elapsed : float)
    (total_pages : Z) (batches : list (Z * Z)) :
  get_page_count pdf_path = inr total_pages ->
  calculate_batches total_pages 10 = Some batches ->
  OcrWorker.process_ocr_job Image get_page_count extract_page_batch ocr_image
                            extract_multiple_records job_id pdf_path elapsed
  = let relevant :=
      filter_pages (ocr_batches Image extract_page_batch ocr_image
                                pdf_path batches) in
    let failed total relevant_count msg :=
      {| result_job_id := job_id; result_status := ERROR;
         result_total_pages := total; relevant_pages := relevant_count;
         records_found := 0; items := [];
         processing_time_seconds := None;
         result_error_message := Some msg |} in
    match relevant with
    | [] =>
        failed total_pages 0
          "Nenhuma página relevante encontrada no documento"%string
    | _ =>
        match extract_multiple_records (map text_of relevant) with
        | inl e => failed 0 0 (exn_message e)
        | inr [] =>
            failed total_pages (Z.of_nat (length relevant))
              "Nenhum dado bancário encontrado"%string
        | inr extracted_data =>
            {| result_job_id := job_id; result_status := DONE;
               result_total_pages := total_pages;
               relevant_pages := Z.of_nat (length relevant);
               records_found := Z.of_nat (length extracted_data);
               items := extracted_data;
               processing_time_seconds := Some elapsed;
               result_error_message := None |}
        end
    end.
Proof.
  intros Hn Hb. unfold OcrWorker.process_ocr_job. rewrite Hn, Hb.
  cbv zeta. fold (ocr_batches Image extract_page_batch ocr_image pdf_path batches).
  destruct (filter_pages _); [reflexivity|].
  destruct (extract_multiple_records _) as [e|[|item others]]; reflexivity.
Qed.

(** X9. When the page count is [N >= 0] and the rasterizer hands back, for
    every range of pages asked for, the images of these pages,
    [process_ocr_job] returns what reading the document page by page gives:
    with one OCR entry per page 1, 2, ..., N in this order (the text of the
    page's image, or the error of its OCR) and [relevant] the entries the
    filter keeps of them, the result is ERROR "Nenhuma página relevante
    encontrada no documento" with [N] total pages when [relevant] is empty;
    ERROR with the extractor's message and no pages when the data extractor
    raises on the texts of [relevant]; ERROR "Nenhum dado bancário
    encontrado" with [N] total pages and the number of relevant pages when
    it finds no record; and otherwise DONE with [N] total pages, the number
    of relevant pages, and the extractor's records as items. The relevant
    pages are among 1..N, in order, so they are at most [N]. *)
Theorem worker_reads_every_page_once (job_id pdf_path : string)
    (elapsed : float) (total_pages : Z) (page_image : Z -> Image) :
  0 <= total_pages ->
  get_page_count pdf_path = inr total_pages ->
  rasterizes Image extract_page_batch page_image pdf_path total_pages ->
  let all_ocr_results :=
    map (fun i => ocr_page Image ocr_image i (page_image i))
        (seqZ 1 total_pages) in
  let relevant := filter_pages all_ocr_results in
  let failed total relevant_count msg :=
    {| result_job_id := job_id; result_status := ERROR;
       result_total_pages := total; relevant_pages := relevant_count;
       records_found := 0; items := [];
       processing_time_seconds := None;
       result_error_message := Some msg |} in
  OcrWorker.process_ocr_job Image get_page_count extract_page_batch
    ocr_image extract_multiple_records job_id pdf_path elapsed
  = match relevant with
    | [] =>
        failed total_pages 0
          "Nenhuma página relevante encontrada no documento"%string
    | _ :: _ =>
        match extract_multiple_records (map text_of relevant) with
        | inl e => failed 0 0 (exn_message e)
        | inr [] =>
            failed total_pages (Z.of_nat (length relevant))
              "Nenhum dado bancário encontrado"%string
        | inr ((_ :: _) as extracted_data) =>
            {| result_job_id := job_id; result_status := DONE;
               result_total_pages := total_pages;
               relevant_pages := Z.of_nat (length relevant);
               records_found := Z.of_nat (length extracted_data);
               items := extracted_data;
               processing_time_seconds := Some elapsed;
               result_error_message := None |}
        end
    end
  /\ map page all_ocr_results = seqZ 1 total_pages
  /\ map page relevant `sublist_of` seqZ 1 total_pages
  /\ 0 <= Z.of_nat (length relevant) <= total_pages.
Proof.
  intros HN Hcount Hras.
  assert (Hb : 0 < 10) by lia.
  pose proof (calculate_batches_unfold total_pages 10 HN Hb) as Hbs.
  pose proof (ceil_div_nonneg total_pages 10 HN Hb) as H0.
  cbv zeta.
  set (batches := map (batch_at total_pages 10)
                      (seq 0 (Z.to_nat (ceil_div total_pages 10)))) in *.
  assert (Hall :
    ocr_batches Image extract_page_batch ocr_image pdf_path batches
    = map (fun i => ocr_page Image ocr_image i (page_image i))
          (seqZ 1 total_pages)).
  { rewrite (ocr_batches_entries page_image pdf_path total_pages batches Hras).
    - unfold batches.
      rewrite (batches_cover_prefix total_pages 10 HN Hb) by lia.
      rewrite Z2Nat.id by lia.
      rewrite Z.min_r by apply (ceil_div_covers total_pages 10 Hb).
      reflexivity.
    - apply Forall_forall. intros r Hr.
      apply list_elem_of_In, in_map_iff in Hr as (i & <- & Hi).
      apply in_seq in Hi.
      pose proof (batch_start_in_range total_pages 10 HN Hb i ltac:(lia)).
      unfold batch_at; simpl. lia. }
  pose proof (ocr_page_page page_image (seqZ 1 total_pages)) as Hpages.
  assert (Hsub :
    map page (filter_pages
                (map (fun i => ocr_page Image ocr_image i (page_image i))
                     (seqZ 1 total_pages)))
    `sublist_of` seqZ 1 total_pages).
  { rewrite <- Hpages at 2. apply filter_pages_sublist. }
  split; [|split; [exact Hpages|split; [exact Hsub|]]].
  - rewrite (process_ocr_job_unfold job_id pdf_path elapsed total_pages
               batches Hcount Hbs).
    cbv zeta. rewrite Hall.
    destruct (filter_pages _) as [|p ps]; [reflexivity|].
    destruct (extract_multiple_records _) as [e|[|item others]]; reflexivity.
  - apply sublist_length in Hsub.
    rewrite length_map, length_seqZ in Hsub. lia.
Qed.

(** X10. Whatever its collaborators do, also when the page count or the
    data extractor raises, the result [process_ocr_job] returns carries the
    job's id and is of one of two shapes: DONE, with at least one record,
    [records_found] the number of items, at least one relevant page, a
    processing time and no error message; or ERROR, with no item,
    [records_found] 0, no processing time and an error message. When the
    page count raises, the result is the ERROR result with the exception's
    message and no pages counted; when the data extractor raises, it is
    that same ERROR result with the extractor's message, unless no relevant
    page was found, which is reported first. *)
Theorem process_ocr_job_result_shape (job_id pdf_path : string)
    (elapsed : float) :
  let result :=
    OcrWorker.process_ocr_job Image get_page_count extract_page_batch
      ocr_image extract_multiple_records job_id pdf_path elapsed in
  result_job_id result = job_id
  /\ match result_status result with
     | DONE =>
         items result <> []
         /\ records_found result = Z.of_nat (length (items result))
         /\ 1 <= relevant_pages result
         /\ processing_time_seconds result = Some elapsed
         /\ result_error_message result = None
     | ERROR =>
         items result = [] /\ records_found result = 0
         /\ processing_time_seconds result = None
         /\ is_Some (result_error_message result)
     | PENDING | PROCESSING | CANCELLED => False
     end
  /\ (forall e, get_page_count pdf_path = inl e ->
        result = {| result_job_id := job_id; result_status := ERROR;
                    result_total_pages := 0; relevant_pages := 0;
                    records_found := 0; items := [];
                    processing_time_seconds := None;
                    result_error_message := Some (exn_message e) |})
  /\ (forall e total_pages,
        get_page_count pdf_path = inr total_pages ->
        (forall texts, extract_multiple_records texts = inl e) ->
        result = {| result_job_id := job_id; result_status := ERROR;
                    result_total_pages := 0; relevant_pages := 0;
                    records_found := 0; items := [];
                    processing_time_seconds := None;
                    result_error_message := Some (exn_message e) |}
        \/ result = {| result_job_id := job_id; result_status := ERROR;
                       result_total_pages := total_pages; relevant_pages := 0;
                       records_found := 0; items := [];
                       processing_time_seconds := None;
                       result_error_message :=
                         Some "Nenhuma página relevante encontrada no documento"%string |}).
Proof.
  cbv zeta. unfold OcrWorker.process_ocr_job.
  split; [|split; [|split]].
  - destruct (get_page_count pdf_path); [reflexivity|].
    destruct (calculate_batches _ _); [|reflexivity].
    destruct (filter_pages _); [reflexivity|].
    destruct (extract_multiple_records _) as [e|[|item others]]; reflexivity.
  - destruct (get_page_count pdf_path); [simpl; eauto 10|].
    destruct (calculate_batches _ _); [|simpl; eauto 10].
    destruct (filter_pages _); [simpl; eauto 10|].
    destruct (extract_multiple_records _) as [e|[|item others]];
      simpl; [eauto 10|eauto 10|].
    repeat split; try discriminate; lia.
  - intros e ->. reflexivity.
  - intros e total_pages -> Hraise.
    unfold calculate_batches, range.
    change (10 =? 0) with false. cbn [mbind option_bind].
    destruct (filter_pages _); [right; reflexivity|].
    rewrite Hraise. left; reflexivity.
Qed.

End WorkerLoop.
Lemma worker_reads_every_page_once_witness :
  let extract_page_batch :=
    fun (_ : string) (s e : Z) =>
      inr (map (fun _ : Z => tt) (seqZ s (e - s + 1))) : Py.exn + list unit in
  let ocr_image := fun _ : unit => inr (Py.u "BANCO CONTA") : Py.exn + Py.text in
  let extract_multiple_records :=
    fun _ : list Py.text => inr [] : Py.exn + list (gmap string Py.value) in
  let all_ocr_results :=
    map (fun i => @OcrWorkerLoop.ocr_page Py.latin1_tables unit ocr_image i tt)
        (seqZ 1 25) in
  let relevant := @PageFilter.filter_pages Py.latin1_tables all_ocr_results in
  let failed total relevant_count msg :=
    {| Models.result_job_id := "job-1"; Models.result_status := Models.ERROR;
       Models.result_total_pages := total;
       Models.relevant_pages := relevant_count;
       Models.records_found := 0; Models.items := [];
       Models.processing_time_seconds := None;
       Models.result_error_message := Some msg |} in
  @OcrWorker.process_ocr_job Py.latin1_tables unit (fun _ => inr 25)
    extract_page_batch ocr_image extract_multiple_records
    "job-1" "a.pdf" 0%float
  = match relevant with
    | [] =>
        failed 25 0
          "Nenhuma página relevante encontrada no documento"%string
    | _ :: _ =>
        match extract_multiple_records (map PageFilter.text_of relevant) with
        | inl e => failed 0 0 (Py.exn_message e)
        | inr [] =>
            failed 25 (Z.of_nat (length relevant))
              "Nenhum dado bancário encontrado"%string
        | inr ((_ :: _) as extracted_data) =>
            {| Models.result_job_id := "job-1";
               Models.result_status := Models.DONE;
               Models.result_total_pages := 25;
               Models.relevant_pages := Z.of_nat (length relevant);
               Models.records_found := Z.of_nat (length extracted_data);
               Models.items := extracted_data;
               Models.processing_time_seconds := Some 0%float;
               Models.result_error_message := None |}
        end
    end
  /\ map PageFilter.page all_ocr_results = seqZ 1 25
  /\ map PageFilter.page relevant `sublist_of` seqZ 1 25
  /\ 0 <= Z.of_nat (length relevant) <= 25.
Proof.
  cbv zeta.
  apply (@worker_reads_every_page_once Py.latin1_tables unit
           (fun _ => inr 25)
           (fun (_ : string) (s e : Z) =>
              inr (map (fun _ : Z => tt) (seqZ s (e - s + 1))))
           (fun _ : unit => inr (Py.u "BANCO CONTA"))
           (fun _ => inr []) "job-1" "a.pdf" 0%float 25 (fun _ => tt)).
  - lia.
  - reflexivity.
  - intros s e H1 H2 H3. reflexivity.
Defined.

(** ** The filter and the relevance test *)

Section FilterPages.
Import Py PageFilter PageFilterText.
Context {tables : UnicodeTables}.

Lemma filter_pages_cons (p : ocr_result) (l : list ocr_result) :
  filter_pages (p :: l)
  = (if has_content p && is_relevant_page (text_of p)
     then [ {| page := page p; text_of := text_of p; has_content := true;
               error := None |} ]
     else []) ++ filter_pages l.
Proof.
  unfold filter_pages. cbn [flat_map].
  destruct (has_content p); [|reflexivity].
  destruct (is_relevant_page (text_of p)); reflexivity.
Qed.

Lemma filter_pages_fixed (l : list ocr_result) :
  Forall (fun p => has_content p = true /\ error p = None
                   /\ is_relevant_page (text_of p) = true) l ->
  filter_pages l = l.
Proof.
  induction 1 as [|[pg tx hc er] l (Hc & He & Hr) _ IH]; [reflexivity|].
  simpl in Hc, He, Hr. subst.
  rewrite filter_pages_cons, IH. simpl. rewrite Hr. reflexivity.
Qed.

Lemma filter_pages_all (l : list ocr_result) :
  Forall (fun p => has_content p = true /\ error p = None
                   /\ is_relevant_page (text_of p) = true) (filter_pages l).
Proof.
  induction l as [|p l IH]; [constructor|].
  rewrite filter_pages_cons.
  destruct (has_content p && is_relevant_page (text_of p)) eqn:E;
    [|exact IH].
  apply andb_true_iff in E as [_ Hr].
  constructor; [simpl; auto|exact IH].
Qed.

(** X11. [filter_pages] keeps, in their order, the pages that have content
    and pass the relevance test, and only those; each page it returns is
    marked as having content and carries the page number and the text of
    the page it comes from. Filtering what it returned changes nothing,
    and [get_relevant_text] gives the same text for the filtered list as
    for the full one. *)
Theorem filter_pages_keeps_relevant_pages (ocr_results : list ocr_result) :
  let relevant := filter_pages ocr_results in
  map page relevant `sublist_of` map page ocr_results
  /\ Forall (fun p => has_content p = true /\ error p = None
                      /\ is_relevant_page (text_of p) = true) relevant
  /\ (forall p,
        In p ocr_results -> has_content p = true ->
        is_relevant_page (text_of p) = true ->
        In {| page := page p; text_of := text_of p; has_content := true;
              error := None |} relevant)
  /\ (forall p',
        In p' relevant ->
        exists p, In p ocr_results /\ has_content p = true
                  /\ page p = page p' /\ text_of p = text_of p')
  /\ filter_pages relevant = relevant
  /\ get_relevant_text relevant = get_relevant_text ocr_results.
Proof.
  cbv zeta.
  assert (Hfix : filter_pages (filter_pages ocr_results)
                 = filter_pages ocr_results)
    by apply filter_pages_fixed, filter_pages_all.
  split; [|split; [apply filter_pages_all|split; [|split; [|split]]]].
  - induction ocr_results as [|p l IH]; [constructor|].
    rewrite filter_pages_cons. simpl.
    destruct (has_content p && is_relevant_page (text_of p)); simpl.
    + apply sublist_skip, IH.
      apply filter_pages_fixed, filter_pages_all.
    + apply sublist_cons, IH.
      apply filter_pages_fixed, filter_pages_all.
  - intros p Hin Hc Hr.
    induction ocr_results as [|p0 l IH]; [contradiction|].
    rewrite filter_pages_cons. apply in_or_app.
    destruct Hin as [->|Hin].
    + left. rewrite Hc, Hr. left. reflexivity.
    + right. apply IH; [|assumption].
      apply filter_pages_fixed, filter_pages_all.
  - intros p' Hin.
    destruct (filter_pages_keeps ocr_results p' Hin) as (_ & _ & p & Hp).
    exists p. tauto.
  - exact Hfix.
  - unfold get_relevant_text. cbv zeta. rewrite Hfix. reflexivity.
Qed.

Lemma lstrip_nil (t : text) :
  lstrip t = [] <-> forallb isspace t = true.
Proof.
  induction t as [|c r IH]; simpl; [tauto|].
  destruct (isspace c); simpl; [exact IH|].
  split; discriminate.
Qed.

Lemma lstrip_head (t : text) (c : N) (r : text) :
  lstrip t = c :: r -> isspace c = false.
Proof.
  induction t as [|c0 t IH]; simpl; [discriminate|].
  destruct (isspace c0) eqn:Ec; [exact IH|].
  intros [= <- _]. exact Ec.
Qed.

Lemma strip_nil (t : text) : strip t = [] <-> forallb isspace t = true.
Proof.
  unfold strip, rstrip. split.
  - intros Hs.
    assert (Hl : lstrip (rev (lstrip t)) = []).
    { destruct (lstrip (rev (lstrip t))) as [|c l]; [reflexivity|].
      simpl in Hs. destruct (rev l); discriminate. }
    apply lstrip_nil in Hl. rewrite forallb_forall in Hl.
    apply lstrip_nil.
    destruct (lstrip t) as [|c r] eqn:E; [reflexivity|].
    apply lstrip_head in E.
    rewrite (Hl c) in E; [discriminate|].
    apply in_rev. rewrite rev_involutive. left. reflexivity.
  - intros Ha. apply lstrip_nil in Ha. rewrite Ha. reflexivity.
Qed.

Lemma startswith_app (t needle after : text) :
  startswith t needle = true -> startswith (t ++ after) needle = true.
Proof.
  revert t. induction needle as [|p needle IH]; intros [|c t] Hs; simpl in *;
    try reflexivity; try discriminate; try (destruct after; reflexivity).
  apply andb_true_iff in Hs as [-> Hs]. simpl. apply IH, Hs.
Qed.

Lemma contains_app (before t after needle : text) :
  contains t needle = true -> contains (before ++ t ++ after) needle = true.
Proof.
  intros Hc.
  assert (Ha : contains (t ++ after) needle = true).
  { clear before. induction t as [|c t IH].
    - simpl in Hc. rewrite orb_false_r in Hc.
      destruct needle; [|discriminate]. destruct after; reflexivity.
    - cbn [contains] in Hc. apply orb_true_iff in Hc as [Hs|Hc].
      + change ((c :: t) ++ after) with (c :: (t ++ after)).
        cbn [contains]. apply orb_true_iff. left.
        apply (startswith_app (c :: t)), Hs.
      + change ((c :: t) ++ after) with (c :: (t ++ after)).
        cbn [contains]. apply orb_true_iff. right. apply IH, Hc. }
  induction before as [|c before IH]; [exact Ha|].
  change ((c :: before) ++ t ++ after) with (c :: (before ++ t ++ after)).
  cbn [contains]. apply orb_true_iff. right. exact IH.
Qed.

Lemma upper_app (a b : text) : upper (a ++ b) = upper a ++ upper b.
Proof. unfold upper. rewrite map_app, concat_app. reflexivity. Qed.

Lemma filter_length_mono (f g : text -> bool) (l : list text) :
  (forall x, f x = true -> g x = true) ->
  (length (List.filter f l) <= length (List.filter g l))%nat.
Proof.
  intros Hfg. induction l as [|x l IH]; simpl; [lia|].
  destruct (f x) eqn:Ef.
  - rewrite (Hfg x Ef). simpl. lia.
  - destruct (g x); simpl; lia.
Qed.

(** X12. Text around a relevant page does not make it irrelevant: when
    [is_relevant_page] accepts a text, it accepts every text that contains
    it. *)
Theorem is_relevant_page_monotone (before t after : text) :
  is_relevant_page t = true ->
  is_relevant_page (before ++ t ++ after) = true.
Proof.
  unfold is_relevant_page.
  destruct (length (strip t) =? 0)%nat eqn:Et; [discriminate|].
  apply Nat.eqb_neq in Et.
  destruct (length (strip (before ++ t ++ after)) =? 0)%nat eqn:Es.
  - exfalso. apply Et.
    apply Nat.eqb_eq, length_zero_iff_nil, strip_nil in Es.
    rewrite !forallb_app in Es.
    apply andb_true_iff in Es as [_ Es].
    apply andb_true_iff in Es as [Es _].
    apply strip_nil in Es. rewrite Es. reflexivity.
  - cbv zeta. intros Hrel.
    assert (Hc : forall kw, contains (upper t) kw = true ->
                            contains (upper (before ++ t ++ after)) kw = true).
    { intros kw Hkw. rewrite !upper_app. apply contains_app, Hkw. }
    apply orb_true_iff in Hrel as [Hcount|Hhp]; apply orb_true_iff.
    + left. apply Nat.leb_le in Hcount. apply Nat.leb_le.
      pose proof (filter_length_mono
                    (fun keyword => contains (upper t) keyword)
                    (fun keyword =>
                       contains (upper (before ++ t ++ after)) keyword)
                    keywords Hc).
      lia.
    + right. apply existsb_exists in Hhp as (kw & Hin & Hkw).
      apply existsb_exists. exists kw. split; [exact Hin|apply Hc, Hkw].
Qed.

End FilterPages.

Lemma is_relevant_page_monotone_witness :
  @PageFilter.is_relevant_page Py.latin1_tables (Py.u "Banco: conta 123") = true
  /\ @PageFilter.is_relevant_page Py.latin1_tables
       (Py.u "pag. 3 " ++ Py.u "Banco: conta 123" ++ Py.u " ~~") = true.
Proof.
  split; [vm_compute; reflexivity|].
  apply (@is_relevant_page_monotone Py.latin1_tables (Py.u "pag. 3 ")
           (Py.u "Banco: conta 123") (Py.u " ~~")).
  vm_compute. reflexivity.
Defined.

(** ** Grouping by field *)

Section Grouping.
Import Py FinancialLabelExtractor LabelReport.

Lemma lookup_field_append (groups : list (string * list labeled_value))
    (valor : labeled_value) (c : string) :
  lookup_field c (append_to_field groups valor)
  = lookup_field c groups
    ++ (if String.eqb (campo valor) c then [valor] else []).
Proof.
  unfold lookup_field.
  induction groups as [|[c0 vs0] groups IH]; simpl.
  - destruct (String.eqb (campo valor) c); reflexivity.
  - destruct (String.eqb_spec c0 (campo valor)) as [->|Hne]; simpl.
    + destruct (String.eqb (campo valor) c); simpl;
        [reflexivity|rewrite app_nil_r; reflexivity].
    + destruct (String.eqb_spec c0 c) as [->|Hne']; simpl; [|exact IH].
      destruct (String.eqb_spec (campo valor) c) as [E|_];
        [congruence|rewrite app_nil_r; reflexivity].
Qed.

Lemma lookup_field_fold (vals : list labeled_value)
    (groups : list (string * list labeled_value)) (c : string) :
  lookup_field c (fold_left append_to_field vals groups)
  = lookup_field c groups
    ++ List.filter (fun v => String.eqb (campo v) c) vals.
Proof.
  revert groups. induction vals as [|v vals IH]; intros groups; simpl.
  - rewrite app_nil_r. reflexivity.
  - rewrite IH, lookup_field_append, <- app_assoc.
    destruct (String.eqb (campo v) c); reflexivity.
Qed.

Lemma append_to_field_nonempty (groups : list (string * list labeled_value))
    (valor : labeled_value) :
  Forall (fun g => g.2 <> []) groups ->
  Forall (fun g => g.2 <> []) (append_to_field groups valor).
Proof.
  induction 1 as [|[c0 vs0] groups Hg Hgs IH]; simpl.
  - repeat constructor. discriminate.
  - destruct (String.eqb c0 (campo valor)); constructor; auto.
    simpl. intros E. apply app_eq_nil in E as [_ E]. discriminate.
Qed.

Lemma group_by_field_nonempty (vals : list labeled_value)
    (groups : list (string * list labeled_value)) :
  Forall (fun g => g.2 <> []) groups ->
  Forall (fun g => g.2 <> []) (fold_left append_to_field vals groups).
Proof.
  revert groups. induction vals as [|v vals IH]; intros groups Hg; simpl;
    [exact Hg|].
  apply IH, append_to_field_nonempty, Hg.
Qed.

Lemma lookup_field_in (groups : list (string * list labeled_value))
    (c : string) (vs : list labeled_value) :
  NoDup (map fst groups) -> In (c, vs) groups -> lookup_field c groups = vs.
Proof.
  unfold lookup_field.
  induction groups as [|[c0 vs0] groups IH]; simpl; [contradiction|].
  intros Hnd Hin. apply NoDup_cons in Hnd as [Hnotin Hnd].
  destruct Hin as [[= -> ->]|Hin].
  - rewrite String.eqb_refl. reflexivity.
  - destruct (String.eqb_spec c0 c) as [->|Hne]; [|apply IH; assumption].
    exfalso. apply Hnotin, list_elem_of_In.
    apply (in_map fst) in Hin. exact Hin.
Qed.

Lemma lookup_field_found (groups : list (string * list labeled_value))
    (c : string) :
  lookup_field c groups <> [] -> In (c, lookup_field c groups) groups.
Proof.
  unfold lookup_field.
  destruct (List.find _ groups) as [[c0 vs0]|] eqn:E; [|congruence].
  intros _. apply find_some in E as [Hin Hc]. simpl in Hc.
  apply String.eqb_eq in Hc as ->. exact Hin.
Qed.

Lemma grouped_value_found (vals : list labeled_value) (v : labeled_value) :
  In v vals ->
  exists valores,
    In (campo v, valores) (fold_left append_to_field vals [])
    /\ In v valores.
Proof.
  intros Hv.
  assert (Hin : In v (List.filter (fun v' => String.eqb (campo v') (campo v))
                                  vals))
    by (apply filter_In; split; [exact Hv|apply String.eqb_refl]).
  exists (lookup_field (campo v) (fold_left append_to_field vals [])).
  rewrite lookup_field_fold. simpl. split; [|exact Hin].
  rewrite <- (app_nil_l (List.filter _ vals)).
  change ([] ++ List.filter (fun v0 => String.eqb (campo v0) (campo v)) vals)
    with (lookup_field (campo v) []
          ++ List.filter (fun v0 => String.eqb (campo v0) (campo v)) vals).
  rewrite <- lookup_field_fold.
  apply lookup_field_found. rewrite lookup_field_fold. simpl.
  intros E. rewrite E in Hin. contradiction.
Qed.

Context {tables : UnicodeTables}.

(** X13. [extract_from_text] files every value the lines of the text
    yield, and nothing else, under the value's own field: the field names
    of its result are distinct, and a pair [(campo, valores)] is in the
    result exactly when [valores] is the non-empty list of all the values
    of that field, in the order in which the lines yield them. *)
Theorem extract_from_text_groups_by_field (texto : text) (page_num : Z) :
  let todos := todos_valores texto page_num in
  let valores_por_campo := extract_from_text texto page_num in
  NoDup (map fst valores_por_campo)
  /\ (forall c valores,
        In (c, valores) valores_por_campo
        <-> valores <> []
            /\ valores = List.filter (fun v => String.eqb (campo v) c) todos)
  /\ (forall v, In v todos ->
        exists valores, In (campo v, valores) valores_por_campo
                        /\ In v valores).
Proof.
  cbv zeta.
  change (extract_from_text texto page_num)
    with (fold_left append_to_field (todos_valores texto page_num) []).
  set (todos := todos_valores texto page_num).
  assert (Hnd : NoDup (map fst (fold_left append_to_field todos [])))
    by (apply group_by_field_keys; constructor).
  assert (Hne : Forall (fun g => g.2 <> [])
                       (fold_left append_to_field todos []))
    by (apply group_by_field_nonempty; constructor).
  assert (Hl : forall c,
             lookup_field c (fold_left append_to_field todos [])
             = List.filter (fun v => String.eqb (campo v) c) todos)
    by (intros c; rewrite lookup_field_fold; reflexivity).
  assert (Hback : forall c valores,
             valores <> [] ->
             valores = List.filter (fun v => String.eqb (campo v) c) todos ->
             In (c, valores) (fold_left append_to_field todos [])).
  { intros c valores Hv ->. rewrite <- Hl.
    apply lookup_field_found. rewrite Hl. exact Hv. }
  split; [exact Hnd|]. split.
  - intros c valores. split.
    + intros Hin. split.
      * rewrite Forall_forall in Hne.
        apply (Hne (c, valores)), list_elem_of_In, Hin.
      * rewrite <- Hl. symmetry. apply lookup_field_in; assumption.
    + intros [Hv Heq]. apply Hback; assumption.
  - intros v Hv. apply grouped_value_found, Hv.
Qed.

End Grouping.

(** ** What a numeral is read as *)

Section Numerals.
Import Py Re FinancialLabelExtractor LabelSpec NumeralSpec.
Context {tables : UnicodeTables}.

Ltac n_cases :=
  repeat match goal with
         | |- context [(?a <=? ?b)%N] => destruct (N.leb_spec a b)
         | |- context [(?a <? ?b)%N] => destruct (N.ltb_spec a b)
         | |- context [(?a =? ?b)%N] => destruct (N.eqb_spec a b)
         end;
  simpl; try reflexivity; try lia; try discriminate.

Lemma is_digit_range (c : N) : is_digit c = true -> (48 <= c <= 57)%N.
Proof.
  unfold is_digit, between. intros Hd.
  apply andb_true_iff in Hd as [H1 H2].
  apply N.leb_le in H1. apply N.leb_le in H2. lia.
Qed.

Lemma digit_not_space (c : N) : is_digit c = true -> isspace c = false.
Proof.
  intros Hd. apply is_digit_range in Hd.
  unfold isspace, between. n_cases.
Qed.

Lemma digit_decimal (c : N) :
  is_digit c = true -> decimal_digit c = Some (c - 48)%N.
Proof.
  intros Hd. unfold decimal_digit. fold (is_digit c). rewrite Hd.
  apply is_digit_range in Hd. n_cases.
Qed.

Lemma filter_all (f : N -> bool) (l : text) :
  Forall (fun c => f c = true) l -> List.filter f l = l.
Proof.
  induction 1 as [|c l Hc _ IH]; simpl; [reflexivity|].
  rewrite Hc, IH. reflexivity.
Qed.

Lemma map_fixed (f : N -> N) (l : text) :
  Forall (fun c => f c = c) l -> map f l = l.
Proof.
  induction 1 as [|c l Hc _ IH]; simpl; [reflexivity|].
  rewrite Hc, IH. reflexivity.
Qed.

Lemma strip_nonspace (t : text) :
  Forall (fun c => isspace c = false) t -> strip t = t.
Proof.
  intros Hall. unfold strip, rstrip.
  assert (Hl : forall l, Forall (fun c => isspace c = false) l -> lstrip l = l).
  { intros [|c l] Hl; [reflexivity|]. simpl.
    apply Forall_cons in Hl as [-> _]. reflexivity. }
  rewrite (Hl t Hall), (Hl (rev t)), rev_involutive; [reflexivity|].
  apply Forall_rev. exact Hall.
Qed.

Lemma digits1_all (t : text) (P : N -> Prop) :
  (forall c, is_digit c = true -> P c) -> digits1 t -> Forall P t.
Proof.
  intros HP [_ Hd]. eapply Forall_impl; [exact Hd|exact HP].
Qed.

(** The integer part of a numeral: digits and grouping periods. *)
Lemma grouped_all (int : text) (groups : list text) (P : N -> Prop) :
  (forall c, is_digit c = true -> P c) -> P 46%N ->
  digits1 int -> Forall digits1 groups ->
  Forall P (int ++ flat_map (cons 46%N) groups).
Proof.
  intros HP H46 Hint Hgs. apply Forall_app. split.
  - apply digits1_all; assumption.
  - induction Hgs as [|g gs Hg _ IH]; simpl; [constructor|].
    constructor; [exact H46|].
    apply Forall_app. split; [apply digits1_all; assumption|exact IH].
Qed.

Lemma grouped_filter (f : N -> bool) (int : text) (groups : list text) :
  (forall c, is_digit c = true -> f c = true) -> f 46%N = false ->
  digits1 int -> Forall digits1 groups ->
  List.filter f (int ++ flat_map (cons 46%N) groups) = int ++ concat groups.
Proof.
  intros Hf H46 Hint Hgs. rewrite List.filter_app. f_equal.
  - apply filter_all. apply digits1_all; assumption.
  - induction Hgs as [|g gs Hg _ IH]; simpl; [reflexivity|].
    rewrite H46, List.filter_app, IH. f_equal.
    apply filter_all. apply digits1_all; assumption.
Qed.

Lemma after_comma_app (a r : text) :
  Forall (fun c => c <> 44%N) a -> after_comma (a ++ r) = after_comma r.
Proof.
  induction 1 as [|c a Hc _ IH]; simpl; [reflexivity|].
  destruct (N.eqb_spec c 44); [contradiction|exact IH].
Qed.

Lemma span_digits_app (ds rest : text) :
  Forall (fun c => is_digit c = true) ds ->
  match rest with [] => True | c :: _ => decimal_digit c = None end ->
  Decimal.span_digits (ds ++ rest) = (map (fun c => (c - 48)%N) ds, rest).
Proof.
  intros Hds Hrest. induction Hds as [|d ds Hd _ IH]; simpl.
  - destruct rest as [|c rest]; [reflexivity|]. simpl. rewrite Hrest.
    reflexivity.
  - rewrite (digit_decimal d Hd), IH. reflexivity.
Qed.

Lemma parse_brazilian_number_numeral (t : text) :
  numeral t ->
  parse_brazilian_number t
  = if Decimal.gt_int (numeral_decimal t) VALOR_MAX_RAZOAVEL then None
    else Some (numeral_decimal t).
Proof.
  intros [int groups frac Hint Hgs Hfrac].
  set (A := int ++ flat_map (cons 46%N) groups).
  set (D := int ++ concat groups).
  assert (HD : Forall (fun c => is_digit c = true) D).
  { apply Forall_app. split; [apply Hint|].
    apply Forall_concat. eapply Forall_impl; [exact Hgs|].
    intros g Hg. apply Hg. }
  assert (Hf : exists f, Forall (fun c => is_digit c = true) f
                         /\ (frac = [] /\ f = [] \/ frac = 44%N :: f)).
  { destruct Hfrac as [->|(f & -> & Hf)].
    - exists []. split; [constructor|auto].
    - exists f. split; [apply Hf|auto]. }
  destruct Hf as (f & Hfd & Hfrac').
  assert (Hfrac_chars : Forall (fun c => is_digit c = true \/ c = 44%N) frac).
  { destruct Hfrac' as [[-> _]| ->]; [constructor|].
    constructor; [auto|]. eapply Forall_impl; [exact Hfd|]. auto. }
  (* the text has no white space *)
  assert (Hstrip : strip (A ++ frac) = A ++ frac).
  { apply strip_nonspace, Forall_app. split.
    - apply grouped_all; auto using digit_not_space.
    - eapply Forall_impl; [exact Hfrac_chars|].
      intros c [Hc|Hc]; [apply digit_not_space, Hc|subst c; reflexivity]. }
  (* periods dropped, the comma turned into a period *)
  assert (Hnorm :
    map (fun c => if (c =? 44)%N then 46%N else c)
        (List.filter (fun c => negb (c =? 46)%N) (A ++ frac))
    = D ++ decimal_point frac).
  { rewrite List.filter_app, map_app. f_equal.
    - unfold A. rewrite grouped_filter; auto.
      + apply map_fixed. eapply Forall_impl; [exact HD|].
        intros c Hc. apply is_digit_range in Hc. n_cases.
      + intros c Hc. apply is_digit_range in Hc. n_cases.
    - destruct Hfrac' as [[-> _]| ->]; [reflexivity|]. simpl. f_equal.
      rewrite filter_all.
      + apply map_fixed. eapply Forall_impl; [exact Hfd|].
        intros c Hc. apply is_digit_range in Hc. n_cases.
      + eapply Forall_impl; [exact Hfd|].
        intros c Hc. apply is_digit_range in Hc. n_cases. }
  (* what the numeral stands for *)
  assert (Hval : numeral_decimal (A ++ frac)
                 = {| Decimal.sign := false;
                      Decimal.coefficient :=
                        Decimal.digits_value
                          (map (fun c => (c - 48)%N) D
                           ++ map (fun c => (c - 48)%N) f);
                      Decimal.exponent :=
                        0 - Z.of_nat (length (map (fun c => (c - 48)%N) f)) |}).
  { unfold numeral_decimal, digit_values. f_equal.
    - f_equal. rewrite List.filter_app, map_app. f_equal.
      + unfold A. rewrite grouped_filter; auto.
      + f_equal. destruct Hfrac' as [[-> ->]| ->]; [reflexivity|].
        simpl. apply filter_all, Hfd.
    - rewrite after_comma_app.
      + destruct Hfrac' as [[-> ->]| ->]; [reflexivity|]. simpl.
        rewrite filter_all by exact Hfd. rewrite length_map. lia.
      + unfold A. apply grouped_all; [|discriminate|assumption|assumption].
        intros c Hc. apply is_digit_range in Hc. lia. }
  (* [Decimal] reads the normalized text as that number *)
  assert (Hdec : Decimal.of_text (D ++ decimal_point frac)
                 = Some (numeral_decimal (A ++ frac))).
  { rewrite Hval. unfold Decimal.of_text.
    assert (Hns : Forall (fun c => isspace c = false) (D ++ decimal_point frac)).
    { apply Forall_app. split.
      - eapply Forall_impl; [exact HD|]. apply digit_not_space.
      - destruct Hfrac' as [[-> _]| ->]; [constructor|]. simpl.
        constructor; [reflexivity|].
        eapply Forall_impl; [exact Hfd|]. apply digit_not_space. }
    rewrite (strip_nonspace _ Hns).
    rewrite filter_all.
    2:{ apply Forall_app. split.
        - eapply Forall_impl; [exact HD|].
          intros c Hc. apply is_digit_range in Hc. n_cases.
        - destruct Hfrac' as [[-> _]| ->]; [constructor|]. simpl.
          constructor; [reflexivity|].
          eapply Forall_impl; [exact Hfd|].
          intros c Hc. apply is_digit_range in Hc. n_cases. }
    assert (Hsign : Decimal.split_sign (D ++ decimal_point frac)
                    = (false, D ++ decimal_point frac)).
    { destruct Hint as [Hne Hi]. unfold D.
      destruct int as [|d int]; [congruence|]. simpl.
      apply Forall_cons in Hi as [Hd _]. apply is_digit_range in Hd.
      n_cases. }
    rewrite Hsign.
    rewrite span_digits_app;
      [|exact HD
       |destruct Hfrac' as [[-> _]| ->]; [exact I|reflexivity]].
    assert (Hfp :
      match decimal_point frac with
      | [] => ([], [])
      | c :: s2' =>
          if (c =? 46)%N then Decimal.span_digits s2'
          else ([], decimal_point frac)
      end = (map (fun c => (c - 48)%N) f, [])).
    { destruct Hfrac' as [[-> ->]| ->]; [reflexivity|]. simpl.
      rewrite <- (app_nil_r f) at 1.
      apply span_digits_app; [exact Hfd|exact I]. }
    rewrite Hfp.
    destruct (map (fun c => (c - 48)%N) D ++ map (fun c => (c - 48)%N) f)
      as [|x xs] eqn:E; [|reflexivity].
    exfalso. apply app_eq_nil in E as [E _].
    apply map_eq_nil in E. destruct Hint as [Hne _]. unfold D in E.
    apply app_eq_nil in E as [E _]. congruence. }
  unfold parse_brazilian_number.
  change (int ++ flat_map (cons 46%N) groups ++ frac)
    with (int ++ (flat_map (cons 46%N) groups ++ frac)).
  rewrite app_assoc. fold A. rewrite Hstrip, Hnorm, Hdec.
  destruct (Decimal.gt_int _ _); [reflexivity|].
  assert (Hlt : Decimal.lt_int (numeral_decimal (A ++ frac))
                               VALOR_MIN_RAZOAVEL = false).
  { unfold Decimal.lt_int, Decimal.signed_coefficient, numeral_decimal.
    cbn [Decimal.sign Decimal.coefficient Decimal.exponent].
    set (coef := Z.of_N _). set (e := - Z.of_nat _).
    assert (0 <= coef) by (unfold coef; lia).
    destruct (0 <=? e) eqn:Ee.
    - apply Z.ltb_ge. unfold VALOR_MIN_RAZOAVEL.
      assert (0 <= coef * 10 ^ e) by (apply Z.mul_nonneg_nonneg; lia).
      lia.
    - apply Z.ltb_ge. unfold VALOR_MIN_RAZOAVEL.
      assert (0 < 10 ^ (- e)) by (apply Z.pow_pos_nonneg; lia).
      nia. }
  rewrite Hlt. reflexivity.
Qed.

(** X14. Every value [extract_from_line] returns is read off its numeral
    in the Brazilian notation, periods counting for nothing and the comma
    being the decimal point: when that number is at most 1,000,000,000 the
    value is OK and its [valor_decimal] is the float nearest to it;
    otherwise the value is SUSPEITO and has no [valor_decimal]. A value is
    never SUSPEITO for being unreadable. *)
Theorem extracted_value_is_read_off_its_numeral (linha : text) (page_num : Z)
    (r : labeled_value) :
  In r (extract_from_line linha page_num) ->
  let d := numeral_decimal (valor_texto r) in
  if Decimal.gt_int d VALOR_MAX_RAZOAVEL
  then status_validacao r = SUSPEITO /\ valor_decimal r = None
  else status_validacao r = OK /\ valor_decimal r = Some (Decimal.to_float d).
Proof.
  intros Hr. cbv zeta.
  apply extract_from_line_inv in Hr as (label & field & m & _ & Hm & ->).
  apply finditer_spec in Hm as (before & after & _ & _ & Hd).
  destruct Hd as (_ & _ & _ & _ & Hnum).
  unfold value_of_match.
  rewrite (parse_brazilian_number_numeral _ Hnum).
  destruct (Decimal.gt_int (numeral_decimal (group1 m)) VALOR_MAX_RAZOAVEL)
    eqn:E; simpl; rewrite E; auto.
Qed.

End Numerals.

Lemma extracted_value_is_read_off_its_numeral_witness :
  let r :=
    {| FinancialLabelExtractor.rotulo := Py.u "SALDO ANTERIOR";
       FinancialLabelExtractor.campo := "saldo_anterior";
       FinancialLabelExtractor.valor_texto := Py.u "168.376,96";
       FinancialLabelExtractor.valor_decimal := Some 168376.96%float;
       FinancialLabelExtractor.pagina := 1;
       FinancialLabelExtractor.linha_original :=
         Py.u "SALDO ANTERIOR 168.376,96";
       FinancialLabelExtractor.status_validacao := FinancialLabelExtractor.OK;
       FinancialLabelExtractor.motivo := None;
       FinancialLabelExtractor.posicao_match := Some 0%nat |} in
  let d := NumeralSpec.numeral_decimal (FinancialLabelExtractor.valor_texto r) in
  In r (@FinancialLabelExtractor.extract_from_line Py.latin1_tables
          (Py.u "SALDO ANTERIOR 168.376,96") 1)
  /\ if Decimal.gt_int d FinancialLabelExtractor.VALOR_MAX_RAZOAVEL
     then FinancialLabelExtractor.status_validacao r
          = FinancialLabelExtractor.SUSPEITO
          /\ FinancialLabelExtractor.valor_decimal r = None
     else FinancialLabelExtractor.status_validacao r = FinancialLabelExtractor.OK
          /\ FinancialLabelExtractor.valor_decimal r
             = Some (Decimal.to_float d).
Proof.
  cbv zeta.
  assert (Hin : In {| FinancialLabelExtractor.rotulo := Py.u "SALDO ANTERIOR";
       FinancialLabelExtractor.campo := "saldo_anterior";
       FinancialLabelExtractor.valor_texto := Py.u "168.376,96";
       FinancialLabelExtractor.valor_decimal := Some 168376.96%float;
       FinancialLabelExtractor.pagina := 1;
       FinancialLabelExtractor.linha_original :=
         Py.u "SALDO ANTERIOR 168.376,96";
       FinancialLabelExtractor.status_validacao := FinancialLabelExtractor.OK;
       FinancialLabelExtractor.motivo := None;
       FinancialLabelExtractor.posicao_match := Some 0%nat |}
        (@FinancialLabelExtractor.extract_from_line Py.latin1_tables
          (Py.u "SALDO ANTERIOR 168.376,96") 1))
    by (vm_compute; left; reflexivity).
  split; [exact Hin|].
  apply (@extracted_value_is_read_off_its_numeral Py.latin1_tables
           (Py.u "SALDO ANTERIOR 168.376,96") 1 _ Hin).
Defined.

(** ** The validation report *)

Section Report.
Import Py FinancialLabelExtractor LabelReport.
Context {fsum : PyFloat.FloatSum}.

Lemma campos_com_erro_is_blocked
    (valores_por_campo : list (string * list labeled_value)) :
  "campos_com_erro"%string
  ∈ totais_bloqueados (calculate_totals_safe valores_por_campo).
Proof.
  unfold totais_bloqueados, calculate_totals_safe.
  destruct (fold_left totals_step valores_por_campo (∅, [])) as [t e].
  apply elem_of_dom. exists (VList e).
  apply map_lookup_filter_Some. split; [|reflexivity].
  apply lookup_insert_eq.
Qed.

Lemma ok_count_le (valores_por_campo : list (string * list labeled_value)) :
  (list_sum
     (map (fun f : string * list labeled_value =>
             length (List.filter
                       (fun x => bool_decide (status_validacao x = OK)) f.2))
          valores_por_campo)
   <= list_sum (map (fun f : string * list labeled_value => length f.2)
                    valores_por_campo))%nat.
Proof.
  induction valores_por_campo as [|[c vs] l IH]; simpl; [lia|].
  pose proof (List.filter_length_le
                (fun x => bool_decide (status_validacao x = OK)) vs).
  lia.
Qed.

(** X15. [validate_extraction], given the totals [calculate_totals_safe]
    computes for the same values, always reports blocking errors: the key
    [campos_com_erro], which [calculate_totals_safe] always writes, ends
    in [_erro] and so is always among the [erros_bloqueantes]. This is so
    even when nothing at all was extracted. In every report the OK and the
    suspect values add up to the values extracted. *)
Theorem validate_extraction_always_reports_blocking_errors
    (valores_por_campo : list (string * list labeled_value)) :
  let totais := calculate_totals_safe valores_por_campo in
  (forall r,
      validate_extraction valores_por_campo totais = inr r ->
      tem_erros_bloqueantes r = true
      /\ "campos_com_erro"%string ∈ erros_bloqueantes r
      /\ 0 <= report_valores_ok r <= total_valores_extraidos r
      /\ report_valores_suspeitos r
         = total_valores_extraidos r - report_valores_ok r
      /\ campos_processados r = map fst valores_por_campo)
  /\ exists r0,
       validate_extraction [] (calculate_totals_safe []) = inr r0
       /\ total_valores_extraidos r0 = 0
       /\ percentual_ok r0 = VInt 0
       /\ tem_erros_bloqueantes r0 = true
       /\ campos_processados r0 = [].
Proof.
  cbv zeta.
  assert (Hflag : forall vpc,
            bool_decide (totais_bloqueados (calculate_totals_safe vpc) <> ∅)
            = true).
  { intros vpc. apply bool_decide_eq_true_2. intros E.
    pose proof (campos_com_erro_is_blocked vpc) as Hin.
    rewrite E in Hin. apply not_elem_of_empty in Hin. exact Hin. }
  split.
  - intros r. unfold validate_extraction.
    pose proof (ok_count_le valores_por_campo) as Hle.
    destruct (0 <? _); [destruct (PyNum.int_truediv _ _); [discriminate|]|];
      intros [= <-]; simpl;
      (split; [apply Hflag|]);
      (split; [apply campos_com_erro_is_blocked|]);
      (split; [lia|]); split; reflexivity.
  - eexists. unfold validate_extraction. simpl.
    split; [reflexivity|]. simpl.
    split; [reflexivity|]. split; [reflexivity|].
    split; [apply (Hflag [])|reflexivity].
Qed.

End Report.

(** ** Pages and documents *)

Section Pages.
Import Py FinancialLabelExtractor SafeConvenioExtractor SafeConvenioPages
       LabelSpec.
Context {tables : UnicodeTables}.

Lemma imap_created (uuids : nat -> string) (valores : list labeled_value)
    (documento_id : string) (page_num : Z) (P : labeled_value -> Prop) :
  Forall P valores ->
  Forall2
    (fun mov v =>
       P v
       /\ descricao_item mov = rotulo v
       /\ texto_original mov = linha_original v
       /\ valor_validado mov = true
       /\ origem_documento mov = "pagina_" +:+ str_of_Z page_num +:+ ".pdf"
       /\ SafeConvenioExtractor.documento_id mov = documento_id)
    (imap (fun i v => _create_movimentacao_from_label (uuids i) v
                                                      documento_id page_num)
          valores)
    valores.
Proof.
  intros Hall. revert uuids.
  induction Hall as [|v valores Hv _ IH]; intros uuids; simpl;
    [constructor|].
  constructor; [|apply (IH (uuids ∘ S))].
  unfold _create_movimentacao_from_label.
  destruct (slots_of (campo v) (valor_decimal v))
    as [[[[[[[e s] sd] a] r] rd] tp] td].
  simpl. auto 10.
Qed.

Lemma values_of_text_anchored (texto : text) (page_num : Z)
    (v : labeled_value) :
  In v (flat_map snd (extract_from_text texto page_num)) ->
  exists linha, In linha (split 10 texto) /\ label_anchored linha v.
Proof.
  intros Hv. apply in_flat_map in Hv as ([c vs] & Hin & Hv). simpl in Hv.
  unfold extract_from_text in Hin.
  destruct (group_by_field_inv _ _ _ _ _ Hin Hv) as [[Hv' _]|(? & [] & _)].
  apply in_flat_map in Hv' as (linha & Hl & Hv').
  destruct (strip linha); [contradiction|].
  apply extract_from_line_anchored in Hv' as [? _]. eauto.
Qed.

(** X16. The movements [extract_from_page] builds are, one for one and in
    order, the OK values of the page, field by field: each carries the
    label and the line of its value, is marked as validated and says which
    page it comes from, and its value stands on a line of the page right
    after that label. A SUSPEITO value yields no movement; the page is
    flagged [tem_erros] exactly when it has one. *)
Theorem page_movements_are_its_ok_values (uuids : nat -> string)
    (ocr_result : PageFilter.ocr_result) (documento_id : string) :
  let res := extract_from_page uuids ocr_result documento_id in
  let valores := flat_map snd (valores_raw res) in
  Forall2
    (fun mov v =>
       (status_validacao v = OK
        /\ exists linha,
             In linha (split 10 (PageFilter.text_of ocr_result))
             /\ label_anchored linha v)
       /\ descricao_item mov = rotulo v
       /\ texto_original mov = linha_original v
       /\ valor_validado mov = true
       /\ origem_documento mov
          = "pagina_" +:+ str_of_Z (PageFilter.page ocr_result) +:+ ".pdf"
       /\ SafeConvenioExtractor.documento_id mov = documento_id)
    (result_movimentacoes res)
    (List.filter (fun v => bool_decide (status_validacao v = OK)) valores)
  /\ (tem_erros res = true
      <-> exists v, In v valores /\ status_validacao v = SUSPEITO)
  /\ result_page res = PageFilter.page ocr_result.
Proof.
  cbv zeta. unfold extract_from_page. simpl.
  split; [|split; [|reflexivity]].
  - unfold movimentacoes_of_page. apply imap_created.
    apply Forall_forall. intros v Hv.
    apply list_elem_of_In, filter_In in Hv as [Hv Hok].
    apply bool_decide_eq_true in Hok. split; [exact Hok|].
    apply values_of_text_anchored with (page_num := PageFilter.page ocr_result).
    exact Hv.
  - rewrite existsb_exists. split.
    + intros (v & Hv & Hs). exists v. split; [exact Hv|].
      apply negb_true_iff, bool_decide_eq_false in Hs.
      destruct (status_validacao v); [contradiction|reflexivity].
    + intros (v & Hv & Hs). exists v. split; [exact Hv|].
      rewrite Hs. reflexivity.
Qed.

Lemma extract_pages_errors (uuids : nat -> string)
    (ocr_results : list PageFilter.ocr_result) (documento_id : string) :
  (extract_pages uuids ocr_results documento_id).2
  = map PageFilter.page
        (List.filter
           (fun o => tem_erros (extract_from_page (fun _ => ""%string) o
                                                  documento_id))
           ocr_results).
Proof.
  revert uuids. induction ocr_results as [|o l IH]; intros uuids; simpl;
    [reflexivity|].
  specialize (IH (fun i =>
    uuids (length (movimentacoes_of_page uuids (PageFilter.text_of o)
                     (PageFilter.page o) documento_id) + i)%nat)).
  destruct (extract_pages _ l documento_id) as [movs erros]. simpl in *.
  rewrite IH. destruct (existsb _ _); reflexivity.
Qed.

(** X17. [extract_convenio_data_from_pages] never reports a blocked total.
    When it returns, [tem_valores_bloqueados] is false, the list of
    blocked fields is empty, no total is [None] and the totals hold no
    error entry; the counts are the number of movements and of pages, and
    [paginas_com_erro] lists, in order, the pages that have a suspect
    value. It fails to return only when one of its totals exceeds
    1,000,000,000 in absolute value: adding the error entry to the
    dictionary it is iterating over raises [RuntimeError]. *)
Theorem convenio_data_never_reports_blocked_totals (uuids : nat -> string)
    (ocr_results : list PageFilter.ocr_result) (documento_id : string) :
  match extract_convenio_data_from_pages uuids ocr_results documento_id with
  | inr r =>
      tem_valores_bloqueados r = VBool false
      /\ totais r !! "campos_bloqueados"%string = Some (VList [])
      /\ (forall k, totais r !! k <> Some VNone)
      /\ (forall k, PyNum.endswith k "_erro" = true -> totais r !! k = None)
      /\ total_movimentacoes r = Z.of_nat (length (todas_movimentacoes r))
      /\ totais r !! "count_movimentacoes"%string
         = Some (VInt (total_movimentacoes r))
      /\ paginas_processadas r = Z.of_nat (length ocr_results)
      /\ paginas_com_erro r
         = map PageFilter.page
               (List.filter
                  (fun o => tem_erros (extract_from_page (fun _ => ""%string)
                                                         o documento_id))
                  ocr_results)
      /\ PyFloat.abs_gt (total_entrada (accumulate (todas_movimentacoes r)))
                        MAX_RAZOAVEL = false
      /\ PyFloat.abs_gt (total_saida (accumulate (todas_movimentacoes r)))
                        MAX_RAZOAVEL = false
  | inl e =>
      e = RuntimeError "dictionary changed size during iteration"
      /\ let movs := (extract_pages uuids ocr_results documento_id).1 in
         let s := accumulate movs in
         existsb absurd
           [ VFloat (total_entrada s); VFloat (total_saida s);
             VFloat (total_entrada s - total_saida s);
             VFloat (total_aplicacao s); VFloat (total_resgate s);
             VFloat (total_rendimentos s);
             VInt (Z.of_nat (length movs)) ] = true
  end.
Proof.
  unfold extract_convenio_data_from_pages.
  pose proof (extract_pages_errors uuids ocr_results documento_id) as Herr.
  destruct (extract_pages uuids ocr_results documento_id) as [movs erros].
  simpl in Herr. cbv zeta. cbn [fst].
  pose proof (calculate_safe_totals_returns movs) as Hret.
  unfold _calculate_safe_totals in *.
  destruct (existsb _ _) eqn:Eabs; [apply Hret|].
  destruct Hret as (_ & _ & Hin & Hout).
  cbn [tem_valores_bloqueados totais total_movimentacoes todas_movimentacoes
       paginas_processadas paginas_com_erro].
  split; [reflexivity|]. split; [reflexivity|].
  split; [|split].
  - intros k Hk.
    repeat (apply lookup_insert_Some in Hk as [[_ Hk]|[_ Hk]];
            [discriminate|]).
    simpl in Hk.
    repeat (apply lookup_insert_Some in Hk as [[_ Hk]|[_ Hk]];
            [discriminate|]).
    rewrite lookup_empty in Hk. discriminate.
  - intros k Hk.
    destruct (_ !! k) as [v|] eqn:Ev; [exfalso|reflexivity].
    repeat (apply lookup_insert_Some in Ev as [[<- _]|[_ Ev]];
            [discriminate|]).
    simpl in Ev.
    repeat (apply lookup_insert_Some in Ev as [[<- _]|[_ Ev]];
            [discriminate|]).
    rewrite lookup_empty in Ev. discriminate.
  - split; [reflexivity|]. split; [reflexivity|]. split; [reflexivity|].
    split; [exact Herr|]. split; assumption.
Qed.

(** A document of two pages, the second with a value beyond the bound:
    the function returns, with the two movements of the first page and the
    second page listed as having errors. *)
Example two_page_document (uuids : nat -> string) :
  match extract_convenio_data_from_pages uuids
          [ {| PageFilter.page := 1;
               PageFilter.text_of :=
                 u "SALDO ANTERIOR 168.376,96
APLICAÇÃO 100.000,00";
               PageFilter.has_content := true; PageFilter.error := None |};
            {| PageFilter.page := 2;
               PageFilter.text_of := u "SALDO 3.254.269.459,98";
               PageFilter.has_content := true; PageFilter.error := None |} ]
          "doc" with
  | inr r =>
      total_movimentacoes r = 2 /\ paginas_processadas r = 2
      /\ paginas_com_erro r = [2]
      /\ totais r !! "total_entrada"%string = Some (VFloat 100000)
      /\ tem_valores_bloqueados r = VBool false
  | inl _ => False
  end.
Proof. vm_compute. repeat split; reflexivity. Qed.

End Pages.

(** ** Records of many pages *)

Section Records.
Import Py DataExtractor.

Lemma key_not_empty (r : record) : (length (key r) =? 0)%nat = false.
Proof.
  unfold key. rewrite length_app. simpl. apply Nat.eqb_neq. lia.
Qed.

Lemma unique_from_cons (seen : list text) (r : record) (rest : list record) :
  unique_from seen (r :: rest)
  = if bool_decide (key r ∈ seen) then unique_from seen rest
    else r :: unique_from (key r :: seen) rest.
Proof.
  cbn [unique_from]. rewrite key_not_empty. simpl.
  destruct (bool_decide (key r ∈ seen)); reflexivity.
Qed.

Lemma unique_from_spec (seen : list text) (records : list record) :
  unique_from seen records `sublist_of` records
  /\ NoDup (map key (unique_from seen records))
  /\ (forall r, In r (unique_from seen records) -> key r ∉ seen)
  /\ (forall r, In r records ->
        key r ∈ seen
        \/ exists r', In r' (unique_from seen records) /\ key r' = key r).
Proof.
  revert seen. induction records as [|r rest IH]; intros seen.
  - simpl. repeat split; [constructor|constructor|contradiction|contradiction].
  - rewrite unique_from_cons.
    destruct (bool_decide (key r ∈ seen)) eqn:E.
    + apply bool_decide_eq_true in E.
      destruct (IH seen) as (Hs & Hn & Hd & Hc).
      split; [apply sublist_cons, Hs|]. split; [exact Hn|].
      split; [exact Hd|].
      intros r0 [<-|Hin]; [left; exact E|apply Hc, Hin].
    + apply bool_decide_eq_false in E.
      destruct (IH (key r :: seen)) as (Hs & Hn & Hd & Hc).
      split; [apply sublist_skip, Hs|]. split; [|split].
      * simpl. apply NoDup_cons. split; [|exact Hn].
        intros Hin. apply list_elem_of_In, in_map_iff in Hin as (r' & Hk & Hr').
        apply (Hd r' Hr'). rewrite Hk. left.
      * intros r0 [<-|Hin]; [exact E|].
        intros Hs0. apply (Hd r0 Hin). right. exact Hs0.
      * intros r0 [<-|Hin].
        -- right. exists r. split; [left; reflexivity|reflexivity].
        -- destruct (Hc r0 Hin) as [Hk|(r' & Hr' & Hk)].
           ++ apply elem_of_cons in Hk as [Hk|Hk]; [|left; exact Hk].
              right. exists r. split; [left; reflexivity|]. symmetry. exact Hk.
           ++ right. exists r'. split; [right; exact Hr'|exact Hk].
Qed.

Lemma NoDup_map_inj (l : list record) (r1 r2 : record) :
  NoDup (map key l) -> In r1 l -> In r2 l -> key r1 = key r2 -> r1 = r2.
Proof.
  induction l as [|r l IH]; simpl; [contradiction|].
  intros Hnd H1 H2 Hk. apply NoDup_cons in Hnd as [Hnotin Hnd].
  destruct H1 as [<-|H1], H2 as [<-|H2]; auto.
  - exfalso. apply Hnotin, list_elem_of_In. rewrite Hk.
    apply in_map, H2.
  - exfalso. apply Hnotin, list_elem_of_In. rewrite <- Hk.
    apply in_map, H1.
Qed.

Context {tables : UnicodeTables}.
Variable extract_all : text -> record.

(** X18. [extract_multiple_records] returns the records of the non-blank
    pages that name a bank, or an agency and an account, one per key
    [<agencia>_<conta>] and in the order of the pages: the first record of
    each key. The key is never empty (a missing agency or account is
    written [None]), so the branch that would keep every record without
    agency and account is never taken: of the records with neither, only
    the first is returned. *)
Theorem extract_multiple_records_one_per_key (pages_text : list text) :
  let all := all_records extract_all pages_text in
  let records := extract_multiple_records extract_all pages_text in
  records = unique_from [] all
  /\ records `sublist_of` all
  /\ NoDup (map key records)
  /\ (forall r, In r all -> exists r', In r' records /\ key r' = key r)
  /\ (forall r, In r records ->
        truthy (banco r) || (truthy (agencia r) && truthy (conta r)) = true)
  /\ (forall r1 r2,
        In r1 records -> In r2 records ->
        agencia r1 = None -> conta r1 = None ->
        agencia r2 = None -> conta r2 = None -> r1 = r2)
  /\ (records = [] <-> all = []).
Proof.
  cbv zeta. unfold extract_multiple_records.
  set (all := all_records extract_all pages_text).
  destruct (unique_from_spec [] all) as (Hs & Hn & _ & Hc).
  assert (Hnil : unique_from [] all = [] -> all = []).
  { intros E. destruct all as [|r rest]; [reflexivity|].
    rewrite unique_from_cons in E.
    rewrite bool_decide_eq_false_2 in E by apply not_elem_of_nil.
    discriminate. }
  assert (Heq : match unique_from [] all with
                | [] => all
                | _ :: _ => unique_from [] all
                end = unique_from [] all).
  { destruct (unique_from [] all) eqn:E; [|reflexivity].
    apply Hnil. reflexivity. }
  rewrite Heq.
  split; [reflexivity|]. split; [exact Hs|]. split; [exact Hn|].
  split; [|split; [|split]].
  - intros r Hr. destruct (Hc r Hr) as [Hk|?]; [|assumption].
    apply not_elem_of_nil in Hk. contradiction.
  - intros r Hr.
    assert (Hin : In r all).
    { apply list_elem_of_In. eapply elem_of_sublist; [|exact Hs].
      apply list_elem_of_In, Hr. }
    unfold all, all_records in Hin.
    apply in_flat_map in Hin as (t & _ & Hin).
    destruct (length (strip t) =? 0)%nat; [contradiction|].
    destruct (truthy (banco (extract_all t))
              || truthy (agencia (extract_all t))
                 && truthy (conta (extract_all t))) eqn:E;
      [|contradiction].
    destruct Hin as [<-|[]]. exact E.
  - intros r1 r2 H1 H2 Ha1 Hc1 Ha2 Hc2.
    apply (NoDup_map_inj _ _ _ Hn H1 H2).
    unfold key. rewrite Ha1, Hc1, Ha2, Hc2. reflexivity.
  - split; [exact Hnil|]. intros ->. reflexivity.
Qed.

End Records.

(** ** A labelled value in plain notation is found *)

Section Completeness.
Import Py Re FinancialLabelExtractor LabelSpec NumeralSpec LabelReport.
Context {tables : UnicodeTables}.

Lemma literal_ignorecase_refl (p : N) : literal_ignorecase p p = true.
Proof.
  unfold literal_ignorecase.
  destruct (iscased p); [rewrite N.eqb_refl; reflexivity|apply N.eqb_refl].
Qed.

Lemma match_literals_self (label rest : text) :
  match_literals label (label ++ rest) = Some (label, rest).
Proof.
  induction label as [|p label IH]; simpl; [reflexivity|].
  rewrite literal_ignorecase_refl, IH. reflexivity.
Qed.

Lemma span_app (p : N -> bool) (l rest : text) :
  Forall (fun c => p c = true) l ->
  match rest with [] => True | c :: _ => p c = false end ->
  span p (l ++ rest) = (l, rest).
Proof.
  intros Hl Hrest. induction Hl as [|c l Hc _ IH]; simpl.
  - destruct rest as [|c rest]; [reflexivity|]. simpl. rewrite Hrest.
    reflexivity.
  - rewrite Hc, IH. reflexivity.
Qed.

Lemma spaces_are_spaces (n : nat) :
  Forall (fun c => isspace c = true) (repeat 32%N n).
Proof. induction n; simpl; constructor; [reflexivity|assumption]. Qed.

(** The separator is consumed by [\s*[\:\-]?\s*], whatever digit follows. *)
Lemma separator_consumed (sep : text) (d : N) (rest : text) :
  plain_separator sep -> is_digit d = true ->
  exists ws1 punct ws2,
    span isspace (sep ++ d :: rest) = (ws1, punct ++ ws2 ++ d :: rest)
    /\ match_punct (punct ++ ws2 ++ d :: rest) = (punct, ws2 ++ d :: rest)
    /\ span isspace (ws2 ++ d :: rest) = (ws2, d :: rest)
    /\ ws1 ++ punct ++ ws2 = sep.
Proof.
  intros (n1 & punct & n2 & -> & Hp & _) Hd.
  pose proof (digit_not_space d Hd) as Hns.
  pose proof (is_digit_range d Hd) as Hb.
  assert (Hd58 : (d =? 58)%N = false) by (apply N.eqb_neq; lia).
  assert (Hd45 : (d =? 45)%N = false) by (apply N.eqb_neq; lia).
  destruct Hp as [->|[->| ->]].
  - exists (repeat 32%N (n1 + n2)), [], []. simpl.
    rewrite repeat_app, app_nil_r.
    split; [apply span_app; [rewrite <- repeat_app; apply spaces_are_spaces
                            |exact Hns]|].
    split; [rewrite Hd58, Hd45; reflexivity|].
    split; [rewrite Hns; reflexivity|reflexivity].
  - exists (repeat 32%N n1), [58%N], (repeat 32%N n2).
    rewrite <- !app_assoc.
    split; [apply span_app; [apply spaces_are_spaces|reflexivity]|].
    split; [reflexivity|].
    split; [apply span_app; [apply spaces_are_spaces|exact Hns]|reflexivity].
  - exists (repeat 32%N n1), [45%N], (repeat 32%N n2).
    rewrite <- !app_assoc.
    split; [apply span_app; [apply spaces_are_spaces|reflexivity]|].
    split; [reflexivity|].
    split; [apply span_app; [apply spaces_are_spaces|exact Hns]|reflexivity].
Qed.

Lemma match_int_tail_complete (groups : list text) (rest : text) :
  Forall digits1 groups ->
  match rest with
  | [] => True
  | c :: _ => is_digit c = false /\ c <> 46%N
  end ->
  forall ds,
    Forall (fun c => is_digit c = true) ds ->
    match_int_tail (ds ++ flat_map (cons 46%N) groups ++ rest)
    = (ds ++ flat_map (cons 46%N) groups, rest).
Proof.
  intros Hgs Hrest.
  induction Hgs as [|g gs Hg _ IH]; intros ds Hds.
  - simpl. induction Hds as [|c ds Hc _ IHds]; simpl.
    + destruct rest as [|c rest]; [reflexivity|].
      destruct Hrest as [Hc Hne]. simpl. rewrite Hc.
      apply N.eqb_neq in Hne. rewrite Hne. reflexivity.
    + rewrite Hc, IHds. reflexivity.
  - induction Hds as [|c ds Hc _ IHds].
    + destruct Hg as [Hne Hgd]. destruct g as [|d g]; [congruence|].
      apply Forall_cons in Hgd as [Hd Hgd].
      specialize (IH (d :: g) (Forall_cons_2 _ _ _ Hd Hgd)).
      cbn [flat_map app] in *.
      change ((46%N :: d :: g) ++ flat_map (cons 46%N) gs)
        with (46%N :: (d :: g) ++ flat_map (cons 46%N) gs).
      cbn [app]. cbn [match_int_tail].
      change (is_digit 46) with false. cbv iota.
      change (46 =? 46)%N with true. cbv iota. rewrite Hd.
      rewrite <- app_assoc. cbn [app].
      change (d :: g ++ flat_map (cons 46%N) gs ++ rest)
        with ((d :: g) ++ flat_map (cons 46%N) gs ++ rest).
      cbn [match_int_tail] in IH. rewrite Hd in IH. rewrite IH. reflexivity.
    + cbn [app match_int_tail]. rewrite Hc, IHds. reflexivity.
Qed.

Lemma match_number_complete (number after : text) :
  numeral number -> ends_numeral after ->
  match_number (number ++ after) = Some (number, after).
Proof.
  intros [int groups frac Hint Hgs Hfrac] Hafter.
  destruct Hint as [Hne Hid]. destruct int as [|d ds]; [congruence|].
  apply Forall_cons in Hid as [Hd Hds].
  assert (Hstop : match frac ++ after with
                  | [] => True
                  | c :: _ => is_digit c = false /\ c <> 46%N
                  end).
  { destruct Hfrac as [->|(f & -> & _)]; simpl.
    - destruct after as [|c after]; [exact I|].
      destruct Hafter as (? & ? & _). auto.
    - split; [reflexivity|discriminate]. }
  assert (Hfr : match_fraction (frac ++ after) = (frac, after)).
  { destruct Hfrac as [->|(f & -> & Hf)].
    - cbn [app]. destruct after as [|c after]; [reflexivity|].
      destruct Hafter as (_ & _ & Hc). apply N.eqb_neq in Hc.
      unfold match_fraction. rewrite Hc. reflexivity.
    - destruct Hf as [Hfne Hfd]. cbn [app]. unfold match_fraction.
      change (44 =? 44)%N with true. cbv iota.
      rewrite (span_app is_digit f after Hfd).
      + destruct f; [congruence|reflexivity].
      + destruct after as [|c after]; [exact I|]. apply Hafter. }
  unfold match_number.
  change ((d :: ds) ++ flat_map (cons 46%N) groups ++ frac)
    with (d :: ds ++ flat_map (cons 46%N) groups ++ frac).
  cbn [app]. rewrite Hd.
  rewrite <- !app_assoc.
  rewrite (match_int_tail_complete groups (frac ++ after) Hgs Hstop ds Hds).
  rewrite Hfr. rewrite <- app_assoc. reflexivity.
Qed.

(** The first and the last character of every label of the vocabulary are
    word characters, the first one is no white space. *)
Lemma vocabulary_label_ends (label : text) (field : string) :
  In (label, field) ROTULOS_VALIDOS ->
  exists c0 rest cn,
    label = c0 :: rest /\ last label = Some cn
    /\ is_word c0 = true /\ is_word cn = true /\ isspace c0 = false.
Proof.
  intros Hin.
  assert (Hall : forallb
            (fun p : text * string =>
               match p.1, last p.1 with
               | c0 :: _, Some cn =>
                   is_word c0 && is_word cn && negb (isspace c0)
               | _, _ => false
               end) ROTULOS_VALIDOS = true) by (vm_compute; reflexivity).
  rewrite forallb_forall in Hall. specialize (Hall _ Hin). simpl in Hall.
  destruct label as [|c0 rest]; [discriminate|].
  destruct (last (c0 :: rest)) as [cn|]; [|discriminate].
  apply andb_true_iff in Hall as [Hall H3].
  apply andb_true_iff in Hall as [H1 H2].
  apply negb_true_iff in H3. eauto 10.
Qed.

Lemma finditer_skips (label rest before : text) (pos : nat)
    (prev : option N) :
  Forall (fun c => literal_ignorecase (default 0%N (head label)) c = false)
         before ->
  label <> [] ->
  finditer_from label pos 0 prev (before ++ rest)
  = finditer_from label (pos + length before) 0
      (match last before with Some c => Some c | None => prev end) rest.
Proof.
  intros Hall Hne. revert pos prev.
  induction Hall as [|b before Hb _ IH]; intros pos prev.
  - simpl. rewrite Nat.add_0_r. reflexivity.
  - cbn [app finditer_from].
    assert (Hno : match_at label pos prev (b :: before ++ rest) = None).
    { unfold match_at. destruct (at_boundary _ _); [|reflexivity].
      destruct label as [|p label]; [congruence|]. simpl in Hb.
      cbn [match_literals]. rewrite Hb. reflexivity. }
    rewrite Hno, IH. cbn [length]. rewrite Nat.add_succ_r. simpl.
    f_equal. destruct before as [|b' before]; [reflexivity|].
    change (last (b :: b' :: before)) with (last (b' :: before)).
    destruct (last (b' :: before)) eqn:E; [reflexivity|].
    apply last_None in E. discriminate.
Qed.

(** X19. A labelled value written plainly is found. When a line reads
    [before ++ label ++ sep ++ number ++ after], with [label] a label of
    the vocabulary as the vocabulary spells it, [sep] spaces with at most
    one [:] or [-], [number] a numeral, nothing after it that continues
    the numeral, and in front of it text that does not contain the
    label's first letter and does not end in a word character, then
    [extract_from_line] returns a value with that label, the label's
    field, the numeral as its text and the page number; and
    [extract_from_text] files that value under the field, for every text
    that has the line. *)
Theorem labelled_value_is_extracted (before after : text) (label : text)
    (field : string) (sep number : text) (page_num : Z) :
  In (label, field) ROTULOS_VALIDOS ->
  precedes_label before label ->
  plain_separator sep ->
  numeral number ->
  ends_numeral after ->
  let linha := before ++ label ++ sep ++ number ++ after in
  exists v,
    In v (extract_from_line linha page_num)
    /\ rotulo v = label /\ campo v = field /\ valor_texto v = number
    /\ pagina v = page_num /\ linha_original v = strip linha
    /\ (forall texto,
          In linha (split 10 texto) ->
          exists valores,
            In (field, valores) (extract_from_text texto page_num)
            /\ In v valores).
Proof.
  intros Hvoc [Hbefore Hlast] Hsep Hnum Hafter. cbv zeta.
  set (linha := before ++ label ++ sep ++ number ++ after).
  destruct (vocabulary_label_ends label field Hvoc)
    as (c0 & lrest & cn & Hlabel & Hcn & Hw0 & Hwn & Hs0).
  assert (Hne : label <> []) by (rewrite Hlabel; discriminate).
  (* the numeral starts with a digit *)
  assert (Hd : exists d nrest, number = d :: nrest /\ is_digit d = true).
  { destruct Hnum as [int groups frac [Hine Hid] _ _].
    destruct int as [|d int]; [congruence|].
    apply Forall_cons in Hid as [Hd _]. simpl. eauto. }
  destruct Hd as (d & nrest & Hnumber & Hd).
  (* the match at the label *)
  set (prev := match last before with Some c => Some c | None => None end).
  set (m := {| start := (0 + length before)%nat; matched_label := label;
               matched_separator := sep; group1 := number |}).
  assert (Hmatch : match_at label (0 + length before) prev
                            (label ++ sep ++ number ++ after) = Some m).
  { unfold match_at.
    assert (Hb1 : at_boundary prev (head (label ++ sep ++ number ++ after))
                  = true).
    { rewrite Hlabel. cbn [app head]. unfold at_boundary.
      cbn [is_word_opt]. rewrite Hw0.
      revert Hlast. unfold prev. destruct (last before) as [c|];
        cbn [is_word_opt]; intros Hlast; [rewrite Hlast|]; reflexivity. }
    rewrite Hb1, match_literals_self, Hcn.
    assert (Hb2 : at_boundary (Some cn) (head (sep ++ number ++ after)) = true).
    { unfold at_boundary. cbn [is_word_opt]. rewrite Hwn.
      destruct Hsep as (n1 & punct & n2 & -> & Hp & Hnn).
      destruct n1 as [|n1]; [|reflexivity].
      destruct Hp as [->|[->| ->]]; [|reflexivity|reflexivity].
      destruct n2 as [|n2]; [simpl in Hnn; congruence|reflexivity]. }
    rewrite Hb2. rewrite Hnumber. cbn [app].
    destruct (separator_consumed sep d (nrest ++ after) Hsep Hd)
      as (ws1 & punct & ws2 & -> & -> & -> & Hsep').
    change (d :: nrest ++ after) with ((d :: nrest) ++ after).
    rewrite <- Hnumber, (match_number_complete number after Hnum Hafter).
    unfold m. rewrite Hsep'. reflexivity. }
  assert (Hm : In m (finditer label linha)).
  { unfold finditer, linha.
    rewrite (finditer_skips label _ before 0 None Hbefore Hne).
    fold prev. rewrite Hlabel in *. cbn [app finditer_from] in *.
    rewrite Hmatch. left. reflexivity. }
  exists (value_of_match label field linha page_num m).
  destruct (value_of_match_fields label field linha page_num m)
    as (Hr & Hc & Hv & Hp & Hl).
  assert (Hin : In (value_of_match label field linha page_num m)
                   (extract_from_line linha page_num)).
  { unfold extract_from_line. apply in_flat_map.
    exists (label, field). split; [exact Hvoc|]. apply in_map, Hm. }
  split; [exact Hin|]. split; [exact Hr|]. split; [exact Hc|].
  split; [exact Hv|]. split; [exact Hp|]. split; [exact Hl|].
  intros texto Hline.
  assert (Hnb : strip linha <> []).
  { intros E. apply strip_nil in E. unfold linha in E.
    rewrite !forallb_app in E.
    apply andb_true_iff in E as [_ E].
    apply andb_true_iff in E as [E _].
    rewrite Hlabel in E. simpl in E. rewrite Hs0 in E. discriminate. }
  assert (Htodos : In (value_of_match label field linha page_num m)
                      (todos_valores texto page_num)).
  { unfold todos_valores. apply in_flat_map. exists linha.
    split; [exact Hline|].
    destruct (strip linha); [congruence|exact Hin]. }
  destruct (grouped_value_found _ _ Htodos) as (valores & Hg & Hvv).
  rewrite Hc in Hg. exists valores. split; [exact Hg|exact Hvv].
Qed.

End Completeness.

Lemma labelled_value_is_extracted_witness :
  let linha := Py.u "30/09/2015 " ++ Py.u "APLICAÇÃO" ++ [32%N]
               ++ Py.u "100.000,00" ++ [] in
  exists v,
    In v (@FinancialLabelExtractor.extract_from_line Py.latin1_tables linha 1)
    /\ FinancialLabelExtractor.rotulo v = Py.u "APLICAÇÃO"
    /\ FinancialLabelExtractor.campo v = "aplicacao"%string
    /\ FinancialLabelExtractor.valor_texto v = Py.u "100.000,00"
    /\ FinancialLabelExtractor.pagina v = 1
    /\ FinancialLabelExtractor.linha_original v
       = @Py.strip Py.latin1_tables linha
    /\ (forall texto,
          In linha (Py.split 10 texto) ->
          exists valores,
            In ("aplicacao"%string, valores)
               (@FinancialLabelExtractor.extract_from_text Py.latin1_tables
                  texto 1)
            /\ In v valores).
Proof.
  cbv zeta.
  apply (@labelled_value_is_extracted Py.latin1_tables
           (Py.u "30/09/2015 ") [] (Py.u "APLICAÇÃO") "aplicacao" [32%N]
           (Py.u "100.000,00") 1).
  - vm_compute. do 7 right. left. reflexivity.
  - split.
    + vm_compute. repeat (constructor; [reflexivity|]). constructor.
    + reflexivity.
  - exists 1%nat, [], 0%nat. split; [reflexivity|].
    split; [left; reflexivity|discriminate].
  - apply (LabelSpec.numeral_intro (Py.u "100") [Py.u "000"]
             (44%N :: Py.u "00")).
    + split; [discriminate|]. vm_compute.
      repeat (constructor; [reflexivity|]). constructor.
    + constructor; [|constructor].
      split; [discriminate|]. vm_compute.
      repeat (constructor; [reflexivity|]). constructor.
    + right. exists (Py.u "00"). split; [reflexivity|].
      split; [discriminate|]. vm_compute.
      repeat (constructor; [reflexivity|]). constructor.
  - exact I.
Defined.

(** ** The flags and the counts of the totals *)

Section TotalFlags.
Import Py FinancialLabelExtractor.
Context {fsum : PyFloat.FloatSum}.

Lemma totals_step_keys (acc : gmap string value * list string)
    (field : string * list labeled_value) (k : string) :
  is_Some ((totals_step acc field).1 !! k) ->
  is_Some (acc.1 !! k)
  \/ k = "total_" +:+ field.1
  \/ k = "total_" +:+ field.1 +:+ "_erro"
  \/ k = "total_" +:+ field.1 +:+ "_count".
Proof.
  destruct acc as [totais erros], field as [c vs]. simpl.
  unfold totals_step.
  destruct (valores_suspeitos vs); [destruct (valores_ok vs);
    [|destruct (PyFloat.abs_gt _ _)]|]; simpl; intros [v Hv];
    repeat (apply lookup_insert_Some in Hv as [[<- _]|[_ Hv]]; [auto|]);
    left; eauto.
Qed.

Lemma fold_totals_keys (fields : list (string * list labeled_value))
    (acc : gmap string value * list string) (k : string) :
  is_Some ((fold_left totals_step fields acc).1 !! k) ->
  is_Some (acc.1 !! k)
  \/ exists campo,
       In campo (map fst fields)
       /\ (k = "total_" +:+ campo \/ k = "total_" +:+ campo +:+ "_erro"
           \/ k = "total_" +:+ campo +:+ "_count").
Proof.
  revert acc. induction fields as [|f fields IH]; intros acc Hk; simpl in *;
    [left; exact Hk|].
  destruct (IH _ Hk) as [Hacc|(campo & Hin & Hc)].
  - destruct (totals_step_keys acc f k Hacc) as [?|Hf]; [left; assumption|].
    right. exists f.1. split; [left; reflexivity|exact Hf].
  - right. exists campo. split; [right; exact Hin|exact Hc].
Qed.

(** X20. For every input, clashing field names or not,
    [calculate_totals_safe] writes the two flags last: [campos_com_erro]
    is the list of the fields whose total is blocked (by a suspect value,
    or by a sum beyond 1,000,000,000), in the order of the input, and
    [tem_valores_suspeitos] is true exactly when that list is not empty.
    The dictionary holds nothing but these two entries and, for fields of
    the input, the entries [total_<campo>], [total_<campo>_erro] and
    [total_<campo>_count]. *)
Theorem calculate_totals_safe_flags
    (valores_por_campo : list (string * list labeled_value)) :
  let totais := calculate_totals_safe valores_por_campo in
  let blocked := List.filter (fun f => blocks f.2) valores_por_campo in
  totais !! "campos_com_erro"%string = Some (VList (map fst blocked))
  /\ totais !! "tem_valores_suspeitos"%string
     = Some (VBool (existsb (fun f => blocks f.2) valores_por_campo))
  /\ (forall k,
        is_Some (totais !! k) ->
        k = "campos_com_erro"%string \/ k = "tem_valores_suspeitos"%string
        \/ exists campo,
             In campo (map fst valores_por_campo)
             /\ (k = "total_" +:+ campo
                 \/ k = "total_" +:+ campo +:+ "_erro"
                 \/ k = "total_" +:+ campo +:+ "_count")).
Proof.
  cbv zeta. unfold calculate_totals_safe.
  pose proof (fold_totals_errors valores_por_campo (∅, [])) as He.
  pose proof (fun k => fold_totals_keys valores_por_campo (∅, []) k) as Hk.
  destruct (fold_left totals_step valores_por_campo (∅, [])) as [t e].
  simpl in He, Hk. subst e.
  split; [apply lookup_insert_eq|]. split.
  - rewrite lookup_insert_ne by discriminate. rewrite lookup_insert_eq.
    do 2 f_equal. rewrite length_map. clear Hk.
    induction valores_por_campo as [|f l IH]; simpl; [reflexivity|].
    destruct (blocks f.2); simpl; [reflexivity|apply IH].
  - intros k [v Hv].
    apply lookup_insert_Some in Hv as [[<- _]|[_ Hv]]; [auto|].
    apply lookup_insert_Some in Hv as [[<- _]|[_ Hv]]; [auto|].
    right. right.
    destruct (Hk k) as [[? Hempty]|?]; [eauto| |assumption].
    rewrite lookup_empty in Hempty. discriminate.
Qed.

Lemma totals_step_count (totais : gmap string value) (erros : list string)
    (c : string) (vs : list labeled_value) :
  c <> c +:+ "_count" ->
  let r := (totals_step (totais, erros) (c, vs)).1 in
  let count := r !! ("total_" +:+ c +:+ "_count") in
  match valores_suspeitos vs, valores_ok vs with
  | _ :: _, _ => count = Some (VInt 0)
  | [], [] => count = Some (VInt 0)
  | [], _ :: _ =>
      if PyFloat.abs_gt (PyFloat.float_sum (valores_ok vs)) VALOR_MAX_RAZOAVEL
      then count = totais !! ("total_" +:+ c +:+ "_count")
      else count = Some (VInt (Z.of_nat (length (valores_ok vs))))
  end.
Proof.
  intros Hc. cbv zeta.
  assert (K02 : "total_" +:+ c +:+ "_count" <> "total_" +:+ c)
    by (intros E; apply total_key_inj in E; congruence).
  assert (K12 : "total_" +:+ c +:+ "_erro" <> "total_" +:+ c +:+ "_count").
  { intros E. apply total_key_inj in E. exact (erro_count_differ _ _ E). }
  unfold totals_step.
  destruct (valores_suspeitos vs) eqn:Es; [destruct (valores_ok vs) eqn:Eo;
    [|cbv zeta; destruct (PyFloat.abs_gt _ _)]|]; simpl.
  - apply lookup_insert_eq.
  - rewrite (lookup_insert_ne _ _ _ _ K12).
    apply lookup_insert_ne. congruence.
  - apply lookup_insert_eq.
  - apply lookup_insert_eq.
Qed.

(** X21. For fields whose names do not clash, [calculate_totals_safe]
    records under [total_<campo>_count] how many values make up the total:
    the number of OK values when the total is their sum, 0 when the field
    has no OK value or is blocked by a suspect value; and when the total
    is blocked because the sum is beyond 1,000,000,000 it records no count
    at all. *)
Theorem field_counts
    (valores_por_campo : list (string * list labeled_value))
    (campo : string) (valores : list labeled_value) :
  NoDup (map fst valores_por_campo) ->
  independent_fields (map fst valores_por_campo) ->
  In (campo, valores) valores_por_campo ->
  let totais := calculate_totals_safe valores_por_campo in
  let count := totais !! ("total_" +:+ campo +:+ "_count") in
  match valores_suspeitos valores, valores_ok valores with
  | _ :: _, _ => count = Some (VInt 0)
  | [], [] => count = Some (VInt 0)
  | [], _ :: _ =>
      if PyFloat.abs_gt (PyFloat.float_sum (valores_ok valores))
                        VALOR_MAX_RAZOAVEL
      then count = None
      else count = Some (VInt (Z.of_nat (length (valores_ok valores))))
  end.
Proof.
  intros Hnd Hind Hin. cbv zeta.
  apply in_split in Hin as (l1 & l2 & ->).
  assert (Hself : In campo (map fst (l1 ++ (campo, valores) :: l2))).
  { rewrite map_app. apply in_or_app. right. left. reflexivity. }
  assert (Hothers : forall c vs, In (c, vs) (l1 ++ l2) ->
            "total_" +:+ campo +:+ "_count" <> "total_" +:+ c
            /\ "total_" +:+ campo +:+ "_count" <> "total_" +:+ c +:+ "_erro"
            /\ "total_" +:+ campo +:+ "_count" <> "total_" +:+ c +:+ "_count").
  { intros c vs Hc.
    assert (Hc' : In c (map fst (l1 ++ (campo, valores) :: l2))).
    { rewrite map_app. rewrite in_app_iff in Hc |- *. simpl.
      destruct Hc as [Hc|Hc]; [left|right; right];
        apply (in_map fst) in Hc; exact Hc. }
    rewrite map_app in Hnd. simpl in Hnd.
    apply NoDup_app in Hnd as (_ & Hdisj & Hnd2).
    apply NoDup_cons in Hnd2 as [Hnotin _].
    assert (campo <> c).
    { intros ->. apply in_app_or in Hc as [Hc|Hc];
        apply (in_map fst) in Hc; apply list_elem_of_In in Hc.
      - apply (Hdisj _ Hc). left.
      - exact (Hnotin Hc). }
    destruct (Hind c campo Hc' Hself) as [? ?].
    repeat split; intros E; apply total_key_inj in E.
    - congruence.
    - symmetry in E. exact (erro_count_differ _ _ E).
    - apply append_inv_tail in E. congruence. }
  unfold calculate_totals_safe.
  rewrite fold_left_app. simpl.
  destruct (fold_left totals_step l1 (∅, [])) as [t1 e1] eqn:E1.
  destruct (fold_left totals_step l2 (totals_step (t1, e1) (campo, valores)))
    as [t2 e2] eqn:E2.
  destruct (flag_keys_apart (campo +:+ "_count")) as [G1 G2].
  rewrite !(lookup_insert_ne _ _ _ _ G1), !(lookup_insert_ne _ _ _ _ G2).
  assert (Ht2 : t2 !! ("total_" +:+ campo +:+ "_count")
                = (totals_step (t1, e1) (campo, valores)).1
                    !! ("total_" +:+ campo +:+ "_count")).
  { change t2 with (t2, e2).1. rewrite <- E2.
    apply fold_totals_other.
    intros c vs Hc. apply (Hothers c vs). apply in_or_app. right. exact Hc. }
  rewrite Ht2.
  assert (Ht1 : t1 !! ("total_" +:+ campo +:+ "_count") = None).
  { change t1 with (t1, e1).1. rewrite <- E1.
    rewrite fold_totals_other; [apply lookup_empty|].
    intros c vs Hc. apply (Hothers c vs). apply in_or_app. left. exact Hc. }
  destruct (Hind campo campo Hself Hself) as [_ Hsc].
  pose proof (totals_step_count t1 e1 campo valores Hsc) as Hown.
  cbv zeta in Hown. rewrite Ht1 in Hown. exact Hown.
Qed.

End TotalFlags.

Lemma field_counts_witness :
  let fsum := PyFloat.chained_sum in
  let campo := "entrada"%string in
  let valores :=
    [ TotalsSample.value "ENTRADA" "entrada" "10,50" (Some 10.5%float);
      TotalsSample.value "ENTRADA" "entrada" "20,25" (Some 20.25%float) ] in
  let totais :=
    FinancialLabelExtractor.calculate_totals_safe TotalsSample.fields in
  let count := totais !! ("total_" +:+ campo +:+ "_count") in
  match FinancialLabelExtractor.valores_suspeitos valores,
        FinancialLabelExtractor.valores_ok valores with
  | _ :: _, _ => count = Some (Py.VInt 0)
  | [], [] => count = Some (Py.VInt 0)
  | [], _ :: _ =>
      if PyFloat.abs_gt
           (PyFloat.float_sum (FinancialLabelExtractor.valores_ok valores))
           FinancialLabelExtractor.VALOR_MAX_RAZOAVEL
      then count = None
      else count
           = Some (Py.VInt (Z.of_nat
                              (length (FinancialLabelExtractor.valores_ok
                                         valores))))
  end.
Proof.
  cbv zeta.
  apply (@field_counts PyFloat.chained_sum TotalsSample.fields "entrada"
           [ TotalsSample.value "ENTRADA" "entrada" "10,50" (Some 10.5%float);
             TotalsSample.value "ENTRADA" "entrada" "20,25"
                                (Some 20.25%float) ]).
  - apply (bool_decide_unpack (NoDup (map fst TotalsSample.fields))).
    vm_compute. exact I.
  - apply independent_fields_check. vm_compute. reflexivity.
  - right. left. reflexivity.
Defined.

(** ** Progress at its two ends, and the export *)

Section ProgressEnds.
Import Py Models JobManager JobManagerQueries.

Lemma int_truediv_self (n : Z) : 0 < n -> PyNum.int_truediv n n = inr 1%float.
Proof.
  intros Hn. destruct n as [|p|p]; try lia.
  unfold PyNum.int_truediv.
  assert (Hq : PyFloat.of_ratio (Z.pos p <? 0) (Z.abs (Z.pos p)) (Z.pos p)
               = 1%float).
  { change (Z.pos p <? 0) with false. change (Z.abs (Z.pos p)) with (Z.pos p).
    unfold PyFloat.of_ratio. rewrite Z.sub_diag.
    assert (Hs : PyFloat.scaled_le (Z.pos p) 0 (Z.pos p) = true).
    { unfold PyFloat.scaled_le. change (0 <=? 0) with true. cbv iota.
      rewrite Z.pow_0_r, Z.mul_1_r. apply Z.leb_refl. }
    rewrite Hs. cbv zeta.
    change (Z.max (0 - 52) (-1074)) with (-52).
    change (0 <=? -52) with false. cbv iota.
    change (- -52) with 52.
    assert (Hr : PyFloat.round_half_even (Z.pos p * 2 ^ 52) (Z.pos p)
                 = 2 ^ 52).
    { unfold PyFloat.round_half_even.
      rewrite (Z.mul_comm (Z.pos p)), Z.div_mul, Z.mod_mul by lia.
      change (2 * 0) with 0.
      destruct (Z.ltb_spec (Z.pos p) 0) as [|_]; [lia|].
      destruct (Z.eqb_spec 0 (Z.pos p)) as [|_]; [lia|]. reflexivity. }
    rewrite Hr. reflexivity. }
  rewrite Hq. reflexivity.
Qed.

(** X22. For a job with a known, positive page total, [get_progress]
    reports exactly 100.0 percent when the processed pages equal the
    total, and exactly 0.0 percent when no page is processed; the report
    carries the job's status, total and processed pages. *)
Theorem get_progress_at_the_ends (self : t) (id : string)
    (job : JobMetadata) (n : Z) :
  get_job self id = Some job ->
  total_pages job = Some n ->
  0 < n ->
  processed_pages job = n \/ processed_pages job = 0 ->
  exists p,
    get_progress self id = inr (Some p)
    /\ progress_percent p
       = (if processed_pages job =? 0 then 0%float else 100%float)
    /\ progress_status p = status job
    /\ progress_total_pages p = Some n
    /\ progress_processed_pages p = processed_pages job
    /\ message p = status_message job.
Proof.
  intros Hj Ht Hn Hp. unfold get_job in Hj.
  unfold get_progress, total_known_positive. rewrite Hj, Ht.
  destruct (Z.ltb_spec 0 n) as [_|]; [|lia].
  destruct Hp as [Hp|Hp]; rewrite Hp.
  - rewrite (int_truediv_self n Hn).
    destruct (Z.eqb_spec n 0) as [|_]; [lia|].
    eexists. split; [reflexivity|]. simpl.
    split; [reflexivity|]. auto.
  - change (PyNum.int_truediv 0 n) with (inr 0%float : exn + float).
    eexists. split; [reflexivity|]. simpl.
    split; [reflexivity|]. auto.
Qed.

Lemma get_progress_at_the_ends_witness :
  exists p,
    get_progress Samples.started "job-1" = inr (Some p)
    /\ progress_percent p = 0%float
    /\ progress_status p = PROCESSING
    /\ progress_total_pages p = Some 25
    /\ progress_processed_pages p = 0
    /\ message p = "Processando página 0/25"%string.
Proof.
  apply (get_progress_at_the_ends Samples.started "job-1"
           {| job_id := "job-1"; filename := "extrato.pdf";
              file_path := Samples.upload_path; status := PROCESSING;
              created_at := 0; started_at := Some 1; completed_at := None;
              total_pages := Some 25; processed_pages := 0;
              error_message := None |} 25).
  - vm_compute. reflexivity.
  - reflexivity.
  - lia.
  - right. reflexivity.
Defined.

End ProgressEnds.

Section ExportAndResult.
Import Py Models MainRefactored Api.

(** X23. The export and the result endpoint can disagree. GET /export
    looks at the stored result only, GET /result at the job's status
    first. So when a task fails for a job that already has a stored DONE
    result (POST /process can schedule more than one task for a job), GET
    /result answers 500 while GET /export still exports the stored
    result. *)
Theorem export_outlives_failure (st : app) (now : datetime)
    (id pdf_path : string) (job : JobMetadata) (stored : JobResult)
    (outcome : worker_outcome) :
  JobManager.get_job (job_manager st) id = Some job ->
  JobManager.get_result (job_manager st) id = Some stored ->
  result_status stored = DONE ->
  (forall result, outcome = Returned result -> result_status result <> DONE) ->
  let st' := run_ocr_in_background st now id pdf_path outcome in
  (exists detail, Api.get_result st' id = inl (HTTPException 500 detail))
  /\ export_excel st' id = inr stored.
Proof.
  intros Hj Hr Hd Hout. cbv zeta.
  unfold JobManager.get_job, JobManager.get_result in Hj, Hr.
  unfold Api.get_result, export_excel, run_ocr_in_background,
         JobManager.get_job, JobManager.get_result, JobManager.fail_job.
  rewrite Hj.
  destruct outcome as [result|e].
  - rewrite bool_decide_eq_false_2 by (apply Hout; reflexivity).
    simpl. rewrite lookup_insert_eq, Hr. simpl.
    rewrite bool_decide_eq_false_2 by (intros E; apply E, Hd). eauto.
  - simpl. rewrite lookup_insert_eq, Hr. simpl.
    rewrite bool_decide_eq_false_2 by (intros E; apply E, Hd). eauto.
Qed.

Lemma export_outlives_failure_witness :
  let st := serve (serve Api.initial
                     (Upload 0 "job-1" "extrato.pdf" (u "%PDF-1.4")))
                  (RunTask 5 "job-1" (upload_path "job-1")
                           (Returned Samples.done_result)) in
  let st' := run_ocr_in_background st 7 "job-1" (upload_path "job-1")
               (Returned Samples.failed_result) in
  reachable st
  /\ (exists detail,
        Api.get_result st' "job-1" = inl (HTTPException 500 detail))
  /\ export_excel st' "job-1" = inr Samples.done_result.
Proof.
  cbv zeta.
  split; [do 2 apply reachable_serve; apply reachable_initial|].
  apply (export_outlives_failure _ 7 "job-1" (upload_path "job-1")
           Samples.done_job Samples.done_result
           (Returned Samples.failed_result)).
  - vm_compute. reflexivity.
  - vm_compute. reflexivity.
  - reflexivity.
  - intros result [= <-]. discriminate.
Defined.

End ExportAndResult.

Section EndToEnd.
Import Py Models MainRefactored Api.
Context {tables : UnicodeTables}.

Variable Image : Type.
Variable get_page_count : string -> exn + Z.
Variable extract_page_batch : string -> Z -> Z -> exn + list Image.
Variable ocr_image : Image -> exn + text.
Variable extract_multiple_records : list text -> exn + list (gmap string value).

(** X24. From the worker to the client. When the background task of a
    known job hands [run_ocr_in_background] what [process_ocr_job]
    returned, GET /result afterwards answers with that very result, which
    holds at least one record, when the worker found data; and otherwise
    with a 500 whose detail is the worker's error message ([Erro
    desconhecido] when that message is empty). *)
Theorem worker_result_reaches_the_client (st : app) (now : datetime)
    (id pdf_path : string) (elapsed : float) (job : JobMetadata) :
  JobManager.get_job (job_manager st) id = Some job ->
  let result :=
    OcrWorker.process_ocr_job Image get_page_count extract_page_batch
      ocr_image extract_multiple_records id pdf_path elapsed in
  let st' := run_ocr_in_background st now id pdf_path (Returned result) in
  match result_status result with
  | DONE => Api.get_result st' id = inr result /\ items result <> []
  | _ =>
      exists msg,
        result_error_message result = Some msg
        /\ Api.get_result st' id
           = inl (HTTPException 500
                    ("Processamento falhou: "
                     +:+ (if String.eqb msg "" then "Erro desconhecido"
                          else msg)))
  end.
Proof.
  intros Hj. cbv zeta. unfold JobManager.get_job in Hj.
  assert (Hfail : forall total relevant msg,
    let result :=
      {| result_job_id := id; result_status := ERROR;
         result_total_pages := total; relevant_pages := relevant;
         records_found := 0; items := [];
         processing_time_seconds := None;
         result_error_message := Some msg |} in
    exists msg0,
      result_error_message result = Some msg0
      /\ Api.get_result
           (run_ocr_in_background st now id pdf_path (Returned result)) id
         = inl (HTTPException 500
                  ("Processamento falhou: "
                   +:+ (if String.eqb msg0 "" then "Erro desconhecido"
                        else msg0)))).
  { intros total relevant msg. cbv zeta. exists msg.
    split; [reflexivity|].
    unfold Api.get_result, run_ocr_in_background, JobManager.get_job,
           JobManager.fail_job.
    rewrite bool_decide_eq_false_2 by discriminate.
    rewrite Hj. cbn [job_manager JobManager._jobs result_error_message].
    rewrite lookup_insert_eq. cbn [status error_message].
    destruct (String.eqb msg ""); reflexivity. }
  unfold OcrWorker.process_ocr_job.
  destruct (get_page_count pdf_path) as [e|total_pages]; [apply Hfail|].
  destruct (PDFService.calculate_batches total_pages 10) as [batches|];
    [|apply Hfail].
  destruct (PageFilter.filter_pages _) as [|p relevant]; [apply Hfail|].
  destruct (extract_multiple_records _) as [e|[|item others]];
    [apply Hfail|apply Hfail|].
  cbn [result_status items]. split; [|discriminate].
  unfold Api.get_result, run_ocr_in_background, JobManager.get_job,
         JobManager.get_result, JobManager.complete_job.
  rewrite bool_decide_eq_true_2 by reflexivity.
  rewrite Hj. cbn [job_manager JobManager._jobs JobManager._results].
  rewrite !lookup_insert_eq. reflexivity.
Qed.

End EndToEnd.

Lemma worker_result_reaches_the_client_witness :
  let result :=
    @OcrWorker.process_ocr_job Py.latin1_tables unit (fun _ => inr 25)
      (fun (_ : string) (s e : Z) => inr (replicate (Z.to_nat (e - s + 1)) tt))
      (fun _ : unit => inr (Py.u "BANCO CONTA")) (fun _ => inr [])
      "job-1" Samples.upload_path 0%float in
  let st' :=
    MainRefactored.run_ocr_in_background Samples.uploaded 5 "job-1"
      Samples.upload_path (MainRefactored.Returned result) in
  match Models.result_status result with
  | Models.DONE =>
      Api.get_result st' "job-1" = inr result /\ Models.items result <> []
  | _ =>
      exists msg,
        Models.result_error_message result = Some msg
        /\ Api.get_result st' "job-1"
           = inl (Py.HTTPException 500
                    ("Processamento falhou: "
                     +:+ (if String.eqb msg "" then "Erro desconhecido"
                          else msg)))
  end.
Proof.
  apply (@worker_result_reaches_the_client Py.latin1_tables unit
           (fun _ => inr 25)
           (fun (_ : string) (s e : Z) =>
              inr (replicate (Z.to_nat (e - s + 1)) tt))
           (fun _ : unit => inr (Py.u "BANCO CONTA")) (fun _ => inr [])
           Samples.uploaded 5 "job-1" Samples.upload_path 0%float
           {| Models.job_id := "job-1"; Models.filename := "extrato.pdf";
              Models.file_path := Samples.upload_path;
              Models.status := Models.PENDING;
              Models.created_at := 0; Models.started_at := None;
              Models.completed_at := None; Models.total_pages := None;
              Models.processed_pages := 0; Models.error_message := None |}).
  vm_compute. reflexivity.
Defined.
